(** * QR_scan: the attendance record engine of [app.py]

    A shallow embedding of the parts of [app.py] that resolve a student
    against the roster, record attendance events per session, aggregate the
    recent history and derive the present / rejected / exited / absent views,
    followed by the properties proved about them.

    Modelling conventions.
    - A Python [str] is a [string] whose characters are the code points
      below 256; text with other code points is outside the model.  [len],
      slicing, [endswith], [startswith] and [replace] work on its
      characters, and [isdigit] and [isalnum] are those of Python on these
      code points.
    - A pandas cell is either a missing value ([NaN]) or a text: a cell is
      the text that [astype(str)] shows.  A [DataFrame] is its column index
      and its rows, every row aligned with the column index.
    - A CSV file on disk is represented by what [pd.read_csv] makes of it:
      a parsed table, or a failure with its message.  What pandas makes of
      the values is a part of the world: the table that [read_csv] returns
      for a file that [to_csv] wrote, with the types it infers for the
      columns, and the cells that [pd.concat] shows when it gives a column
      another type.  A file carries the time it was last written.
    - The folders of the application hold files only, under plain names: a
      file whose name has a slash cannot be written.
    - Python exceptions are the [Raise] results of a state-and-exception
      monad over the [World]: pandas, the folders the program reads and
      writes and the application log.
    - [datetime.datetime.now()] is an argument of the function that calls
      it. *)

From Stdlib Require Import Ascii String.
From stdpp Require Import base list sorting strings gmap.

(** ** Python strings *)

Module Py.

Definition chars (s : string) : list ascii := String.list_ascii_of_string s.
Definition of_chars (l : list ascii) : string := String.string_of_list_ascii l.

(** [len(s)] *)
Definition len (s : string) : nat := length (chars s).

(** [s.endswith(suffix)] and [s.startswith(prefix)] *)
Definition endswith (s suffix : string) : bool :=
  bool_decide (chars suffix `suffix_of` chars s).
Definition startswith (s prefix : string) : bool :=
  bool_decide (chars prefix `prefix_of` chars s).

(** [s[-n:]]: the last [n] characters, the whole string when it is shorter *)
Definition last_chars (n : nat) (s : string) : string :=
  of_chars (drop (len s - n) (chars s)).

(** A string is a text of code points below 256, one character each; text
    with other code points is outside the model.  [c.isdigit()] holds of 0
    to 9 and of the superscripts two, three and one (code points 178, 179
    and 185). *)
Definition is_digit_char (c : ascii) : bool :=
  let n := nat_of_ascii c in
  ((48 <=? n) && (n <=? 57)) || (n =? 178) || (n =? 179) || (n =? 185).

(** [s.isdigit()]: at least one character, and all of them digits *)
Definition isdigit (s : string) : bool :=
  match chars s with
  | [] => false
  | l => forallb is_digit_char l
  end.

(** [s.replace(old, new)] for a non-empty [old]: every occurrence, left to
    right, without overlap.  [skip] counts the characters of an occurrence
    that are still to be dropped. *)
Fixpoint replace_go (old new : list ascii) (skip : nat) (s : list ascii)
  : list ascii :=
  match s with
  | [] => []
  | c :: s' =>
      match skip with
      | S k => replace_go old new k s'
      | 0 =>
          if bool_decide (old `prefix_of` s)
          then new ++ replace_go old new (length old - 1) s'
          else c :: replace_go old new 0 s'
      end
  end.
Definition replace (s old new : string) : string :=
  of_chars (replace_go (chars old) (chars new) 0 (chars s)).

(** [sorted(l, reverse=True)] on strings *)
Definition sorted_reverse (l : list string) : list string :=
  merge_sort (λ a b, String.le b a) l.

End Py.

(** ** Exceptions and results *)

Inductive exn :=
| KeyError (key : string)
| IndexError (msg : string)
| ValueError (msg : string)
| TypeError (msg : string)
| OSError (msg : string)
| ParserError (msg : string).

(** [str(e)] *)
Definition exn_str (e : exn) : string :=
  match e with
  | KeyError key => "'" +:+ key +:+ "'"
  | IndexError msg | ValueError msg | TypeError msg
  | OSError msg | ParserError msg => msg
  end.

Inductive result (A : Type) :=
| Ok (a : A)
| Raise (e : exn).
Arguments Ok {A} a.
Arguments Raise {A} e.

Definition rbind {A B} (r : result A) (k : A → result B) : result B :=
  match r with
  | Ok a => k a
  | Raise e => Raise e
  end.

(** ** pandas tables *)

Inductive cell :=
| NaN
| Str (s : string).

Global Instance cell_eq_dec : EqDecision cell.
Proof. solve_decision. Defined.

(** [str(v)], which is also what [astype(str)] shows of a cell *)
Definition str (c : cell) : string :=
  match c with
  | NaN => "nan"
  | Str s => s
  end.

(** A Python dict with string keys, in insertion order. *)
Definition dict := list (string * cell).

Fixpoint dict_get (d : dict) (key : string) : result cell :=
  match d with
  | [] => Raise (KeyError key)
  | (k, v) :: d' => if decide (k = key) then Ok v else dict_get d' key
  end.

Record DataFrame := {
  columns : list string;
  rows : list (list cell)
}.

Module pd.

(** [pd.DataFrame(columns=cols)] *)
Definition empty_frame (cols : list string) : DataFrame :=
  {| columns := cols; rows := [] |}.

(** [pd.DataFrame([d])] *)
Definition of_dict (d : dict) : DataFrame :=
  {| columns := d.*1; rows := [d.*2] |}.

(** The cell of [row] under the column label [c]; a label the index does
    not have reads as a missing value. *)
Fixpoint cell_at (cols : list string) (row : list cell) (c : string) : cell :=
  match cols, row with
  | k :: cols', v :: row' => if decide (k = c) then v else cell_at cols' row' c
  | _, _ => NaN
  end.

(** [df[c]]: the values of one column *)
Definition getitem (df : DataFrame) (c : string) : result (list cell) :=
  if decide (c ∈ columns df)
  then Ok (map (λ row, cell_at (columns df) row c) (rows df))
  else Raise (KeyError c).

(** [series.astype(str)] *)
Definition astype_str (series : list cell) : list string := map str series.

(** The rows of [df] laid out along the column index [cols]. *)
Definition reindex (cols : list string) (df : DataFrame) : list (list cell) :=
  map (λ row, map (cell_at (columns df) row) cols) (rows df).

(** [df[cols]] *)
Definition select (df : DataFrame) (cols : list string) : result DataFrame :=
  match list_find (λ c, c ∉ columns df) cols with
  | Some (_, c) => Raise (KeyError c)
  | None => Ok {| columns := cols; rows := reindex cols df |}
  end.

(** [df[mask]] *)
Fixpoint mask_list {A} (l : list A) (mask : list bool) : list A :=
  match l, mask with
  | x :: l', b :: mask' =>
      if b then x :: mask_list l' mask' else mask_list l' mask'
  | _, _ => []
  end.
Definition boolean_index (df : DataFrame) (mask : list bool) : DataFrame :=
  {| columns := columns df; rows := mask_list (rows df) mask |}.

(** The cells of the column at position [j]. *)
Definition column_at (j : nat) (rws : list (list cell)) : list cell :=
  map (λ row, default NaN (row !! j)) rws.

(** Every cell as [shown] makes it, given the cells of its column. *)
Definition show_columns (shown : list cell → cell → cell) (df : DataFrame)
  : DataFrame :=
  {| columns := columns df;
     rows := map (imap (λ j c, shown (column_at j (rows df)) c)) (rows df) |}.

(** [pd.concat(dfs, ignore_index=True)]: the column indexes are united in
    order of first appearance, every frame is laid out along the union, and
    every column gets the type that holds the values of all frames;
    [upcast] is what the cells show then. *)
Definition union_columns (acc new : list string) : list string :=
  acc ++ filter (λ c, c ∉ acc) new.
Definition stack (dfs : list DataFrame) : DataFrame :=
  let cols := foldl union_columns [] (columns <$> dfs) in
  {| columns := cols; rows := dfs ≫= reindex cols |}.
Definition concat (upcast : list cell → cell → cell) (dfs : list DataFrame)
  : result DataFrame :=
  match dfs with
  | [] => Raise (ValueError "No objects to concatenate")
  | _ => Ok (show_columns upcast (stack dfs))
  end.

(** [df.empty] *)
Definition empty (df : DataFrame) : bool :=
  match rows df with
  | [] => true
  | _ => false
  end.

(** [df.iloc[0].to_dict()] *)
Definition iloc0 (df : DataFrame) : result dict :=
  match rows df with
  | [] => Raise (IndexError "single positional indexer is out-of-bounds")
  | row :: _ => Ok (zip (columns df) row)
  end.

(** [df.to_dict(orient="records")] *)
Definition to_dict_records (df : DataFrame) : list dict :=
  map (zip (columns df)) (rows df).

End pd.

(** ** Time stamps *)

Record datetime := {
  year : nat;
  month : nat;
  day : nat;
  hour : nat;
  minute : nat;
  second : nat
}.

Definition digit (n : nat) : ascii := ascii_of_nat (48 + n `mod` 10).

(** A number as zero-padded decimal text of two, respectively four, places. *)
Definition dec2 (n : nat) : list ascii := [digit (n `div` 10); digit n].
Definition dec4 (n : nat) : list ascii :=
  [digit (n `div` 1000); digit (n `div` 100); digit (n `div` 10); digit n].

(** [t.strftime("%Y-%m-%d %H:%M:%S")] *)
Definition strftime (t : datetime) : string :=
  Py.of_chars
    (dec4 (year t) ++ ["-"%char] ++ dec2 (month t) ++ ["-"%char] ++ dec2 (day t)
     ++ [" "%char]
     ++ dec2 (hour t) ++ [":"%char] ++ dec2 (minute t) ++ [":"%char]
     ++ dec2 (second t)).

(** The fields of a [datetime] object are within these ranges. *)
Definition datetime_valid (t : datetime) : Prop :=
  1000 ≤ year t < 10 * 1000 ∧ 1 ≤ month t ≤ 12 ∧ 1 ≤ day t ≤ 31 ∧
  hour t < 24 ∧ minute t < 60 ∧ second t < 60.

(** Later than, field by field from the year down. *)
Definition datetime_key (t : datetime) : list nat :=
  [year t; month t; day t; hour t; minute t; second t].
Fixpoint list_ltb (l k : list nat) : bool :=
  match l, k with
  | x :: l', y :: k' => (x <? y) || ((x =? y) && list_ltb l' k')
  | _, _ => false
  end.
Definition earlier (t u : datetime) : bool :=
  list_ltb (datetime_key t) (datetime_key u).

(** ** The world: folders and the application log *)

Inductive contents :=
| Unparsable (msg : string)
| Parsed (df : DataFrame).

Record file := {
  mtime : datetime;
  content : contents
}.

Inductive level := DEBUG | INFO | WARNING | ERROR.

(** What pandas makes of the values of a table is not computed here: the
    type it infers for a column of a CSV file, and the type it gives a column
    of concatenated frames, depend on how numbers and missing values are
    written.  The world has both as they are; a cell is the text that
    [astype(str)] shows. *)
Record Pandas := {
  (** what [pd.read_csv] returns for the file that
      [df.to_csv(path, index=False)] writes from the table [df] *)
  read_back : DataFrame → contents;
  (** the cell that [pd.concat] shows for a cell of a concatenated column,
      whose cells were [column] in the frames: an integer of a column that
      becomes a column of floats gains [.0] *)
  upcast : list cell → cell → cell
}.

Record World := {
  (** the pandas of this installation *)
  pandas : Pandas;
  (** [os.path.exists] for a path that leads out of the folder it starts
      in: the path of a name with a slash *)
  elsewhere : string → bool;
  (** [os.listdir(DATA_FOLDER)] in the order the system lists it, each name
      with its file; [None] when the folder cannot be listed *)
  data_folder : option (list (string * file));
  (** [ATTENDANCE_FOLDER], by file name *)
  attendance_folder : gmap string file;
  (** [PHOTOS_FOLDER]: file name to the base64 text of the file's bytes *)
  photos_folder : gmap string string;
  (** the records written through [app.logger], oldest first *)
  log : list (level * string)
}.

Definition set_attendance_folder (d : gmap string file) (w : World) : World :=
  {| pandas := pandas w; elsewhere := elsewhere w;
     data_folder := data_folder w; attendance_folder := d;
     photos_folder := photos_folder w; log := log w |}.

Definition add_log (entry : level * string) (w : World) : World :=
  {| pandas := pandas w; elsewhere := elsewhere w;
     data_folder := data_folder w; attendance_folder := attendance_folder w;
     photos_folder := photos_folder w; log := log w ++ [entry] |}.

(** ** The monad of the program: world passing with exceptions *)

Definition M (A : Type) : Type := World → result A * World.

Definition ret {A} (a : A) : M A := λ w, (Ok a, w).
Definition raise {A} (e : exn) : M A := λ w, (Raise e, w).
Definition bind {A B} (m : M A) (k : A → M B) : M B :=
  λ w, match m w with
       | (Ok a, w') => k a w'
       | (Raise e, w') => (Raise e, w')
       end.
Definition lift {A} (r : result A) : M A := λ w, (r, w).

(** [try: body except Exception as e: handler] *)
Definition try_except {A} (body : M A) (handler : exn → M A) : M A :=
  λ w, match body w with
       | (Ok a, w') => (Ok a, w')
       | (Raise e, w') => handler e w'
       end.

Notation "'let*' x := m 'in' k" := (bind m (λ x, k))
  (at level 10, x binder, m at level 100, k at level 200).
Notation "m ;; k" := (bind m (λ _, k))
  (at level 100, k at level 200, right associativity).

(** [for x in l: acc = body(acc, x)] *)
Fixpoint for_each {A S} (l : list A) (body : S → A → M S) (acc : S) : M S :=
  match l with
  | [] => ret acc
  | x :: l' => let* acc' := body acc x in for_each l' body acc'
  end.

Definition logger (lvl : level) (msg : string) : M unit :=
  λ w, (Ok tt, add_log (lvl, msg) w).

(** [pd.concat(dfs, ignore_index=True)] with the pandas of the world *)
Definition concat_frames (dfs : list DataFrame) : M DataFrame :=
  λ w, (pd.concat (upcast (pandas w)) dfs, w).

(** ** File operations *)

Definition CSV_COLUMNS : list string := ["name"; "phone_number"; "photo"].
Definition ATTENDANCE_COLUMNS : list string :=
  ["name"; "phone_number"; "status"; "timestamp"].

(** [pd.read_csv(path)] on a file that is there *)
Definition read_csv (f : file) : result DataFrame :=
  match content f with
  | Unparsable msg => Raise (ParserError msg)
  | Parsed df => Ok df
  end.

(** [os.listdir(DATA_FOLDER)], names with their files *)
Definition listdir_data : M (list (string * file)) :=
  λ w, match data_folder w with
       | Some entries => (Ok entries, w)
       | None => (Raise (OSError "cannot list the data folder"), w)
       end.

(** [f"attendance_course_{course_id}_session_{session_id}.csv"] *)
Definition attendance_file (course_id session_id : string) : string :=
  "attendance_course_" +:+ course_id +:+ "_session_" +:+ session_id +:+ ".csv".

(** [os.path.exists] on a name of the attendance folder *)
Definition attendance_exists (name : string) : M bool :=
  λ w, (Ok (bool_decide (is_Some (attendance_folder w !! name))), w).

(** [pd.read_csv] on a name of the attendance folder *)
Definition read_attendance_csv (name : string) : M DataFrame :=
  λ w, match attendance_folder w !! name with
       | Some f => (read_csv f, w)
       | None => (Raise (OSError ("No such file or directory: " +:+ name)), w)
       end.

(** The bytes of a name in UTF-8: a code point from 128 on takes two. *)
Definition name_bytes (name : string) : nat :=
  Py.len name
  + length (filter (λ c, 128 ≤ nat_of_ascii c) (Py.chars name)).

(** Opening [folder/name] for writing, [folder] being one of the folders of
    the application, which have no folders inside: a slash in [name] leads
    to a folder that is not there, a NUL cannot be in a path, and a name has
    at most 255 bytes. *)
Definition open_for_writing (folder name : string) : result unit :=
  let path := folder +:+ "/" +:+ name in
  if bool_decide ("000"%char ∈ Py.chars name) then
    Raise (ValueError "embedded null byte")
  else if bool_decide ("/"%char ∈ Py.chars name) then
    Raise (OSError ("[Errno 2] No such file or directory: '" +:+ path +:+ "'"))
  else if bool_decide (255 < name_bytes name) then
    Raise (OSError ("[Errno 36] File name too long: '" +:+ path +:+ "'"))
  else Ok tt.

Definition ATTENDANCE_FOLDER : string := "data/attendance".

(** [df.to_csv(path, index=False)] on a name of the attendance folder; the
    file is created or replaced, [now] is its modification time, and what a
    later [pd.read_csv] returns for it is what pandas reads back *)
Definition to_csv (df : DataFrame) (name : string) (now : datetime) : M unit :=
  λ w, match open_for_writing ATTENDANCE_FOLDER name with
       | Ok _ =>
           (Ok tt,
            set_attendance_folder
              (<[name := {| mtime := now;
                            content := read_back (pandas w) df |}]>
                 (attendance_folder w)) w)
       | Raise e => (Raise e, w)
       end.

(** [os.remove] on a name of the attendance folder that exists *)
Definition remove (name : string) : M unit :=
  λ w, (Ok tt, set_attendance_folder (delete name (attendance_folder w)) w).

(** [sorted(os.listdir(ATTENDANCE_FOLDER), reverse=True)] *)
Definition listdir_attendance_sorted : M (list string) :=
  λ w, (Ok (Py.sorted_reverse (map_to_list (attendance_folder w)).*1), w).

(** ** The program *)

(** [load_csv_files]: the body of the loop over the data folder.  [students]
    is the list of frames collected so far. *)
Definition load_csv_file (students : list DataFrame) (entry : string * file)
  : M (list DataFrame) :=
  let (name, f) := entry in
  if Py.endswith name ".csv" && Py.startswith name "students_" then
    try_except
      (let* df := lift (read_csv f) in
       if forallb (λ col, bool_decide (col ∈ columns df)) CSV_COLUMNS then
         let* projected := lift (pd.select df CSV_COLUMNS) in
         ret (students ++ [projected])
       else
         logger WARNING ("Skipping " +:+ name +:+ ": Missing required columns");;
         ret students)
      (λ e,
         logger ERROR ("Error reading " +:+ name +:+ ": " +:+ exn_str e);;
         ret students)
  else ret students.

Definition load_csv_files : M DataFrame :=
  try_except
    (let* entries := listdir_data in
     let* students := for_each entries load_csv_file [] in
     match students with
     | [] => ret (pd.empty_frame CSV_COLUMNS)
     | _ => concat_frames students
     end)
    (λ e,
       logger ERROR ("Error loading CSV files: " +:+ exn_str e);;
       ret (pd.empty_frame CSV_COLUMNS)).

(** [find_student(phone_number, partial)]; [phone_number] is the text
    [str(phone_number)] and the result [None] is Python's [None]. *)
Definition find_student (phone_number : string) (partial : bool)
  : M (option dict) :=
  try_except
    (let* df := load_csv_files in
     let* phones := lift (pd.getitem df "phone_number") in
     let student :=
       if partial then
         let phone_str := Py.last_chars 4 phone_number in
         pd.boolean_index df
           (map (λ p, Py.endswith p phone_str) (pd.astype_str phones))
       else
         pd.boolean_index df
           (map (λ p, bool_decide (p = phone_number)) (pd.astype_str phones))
     in
     if negb (pd.empty student)
     then let* d := lift (pd.iloc0 student) in ret (Some d)
     else ret None)
    (λ e,
       logger ERROR
         ("Error finding student " +:+ phone_number +:+ ": " +:+ exn_str e);;
       ret None).

Definition load_attendance (course_id session_id : string) : M DataFrame :=
  try_except
    (let attendance_file := attendance_file course_id session_id in
     let* there := attendance_exists attendance_file in
     if there : bool then read_attendance_csv attendance_file
     else ret (pd.empty_frame ATTENDANCE_COLUMNS))
    (λ e,
       logger ERROR
         ("Error loading attendance for course " +:+ course_id +:+
          ", session " +:+ session_id +:+ ": " +:+ exn_str e);;
       ret (pd.empty_frame ATTENDANCE_COLUMNS)).

Definition DUPLICATE : string := "Duplicate attendance entry for this student".
Definition RECORDED : string := "Attendance recorded successfully".

(** The record of one attendance event. *)
Definition new_entry (name phone_number : cell) (status : string)
    (now : datetime) : dict :=
  [("name", name); ("phone_number", phone_number);
   ("status", Str status); ("timestamp", Str (strftime now))].

(** [save_attendance(student, status, course_id, session_id)]; [now] is the
    value of [datetime.datetime.now()] in this call. *)
Definition save_attendance (now : datetime) (student : dict)
    (status course_id session_id : string) : M (bool * string) :=
  try_except
    (let attendance_file := attendance_file course_id session_id in
     let* attendance := load_attendance course_id session_id in
     let* phone := lift (dict_get student "phone_number") in
     let* recorded := lift (pd.getitem attendance "phone_number") in
     if bool_decide (str phone ∈ pd.astype_str recorded) then
       ret (false, DUPLICATE)
     else
       let* name := lift (dict_get student "name") in
       let* phone_number := lift (dict_get student "phone_number") in
       let new_entry := new_entry name phone_number status now in
       let* attendance := concat_frames [attendance; pd.of_dict new_entry] in
       to_csv attendance attendance_file now;;
       let* name := lift (dict_get student "name") in
       logger INFO
         ("Attendance recorded for " +:+ str name +:+ " (" +:+ status +:+ ")");;
       ret (true, RECORDED))
    (λ e,
       let* name := lift (dict_get student "name") in
       logger ERROR
         ("Error saving attendance for " +:+ str name +:+ ": " +:+ exn_str e);;
       ret (false, exn_str e)).

Record history_entry := {
  session : string;
  status : cell;
  timestamp : cell
}.

(** [series[label]] on the row [df.iloc[0]] *)
Definition iloc0_getitem (df : DataFrame) (label : string) : result cell :=
  rbind (pd.iloc0 df) (λ d, dict_get d label).

(** [file.replace("attendance_", "").replace(".csv", "")] *)
Definition session_label (file : string) : string :=
  Py.replace (Py.replace file "attendance_" "") ".csv" "".

(** [get_attendance_history]: the body of the loop over the file names. *)
Definition history_of_file (phone_number : string)
    (history : list history_entry) (name : string) : M (list history_entry) :=
  if Py.endswith name ".csv" then
    let* df := read_attendance_csv name in
    let* phones := lift (pd.getitem df "phone_number") in
    let student_record :=
      pd.boolean_index df
        (map (λ p, bool_decide (p = phone_number)) (pd.astype_str phones)) in
    if negb (pd.empty student_record) then
      let* st := lift (iloc0_getitem student_record "status") in
      let* ts := lift (iloc0_getitem student_record "timestamp") in
      ret (history ++
           [{| session := session_label name; status := st; timestamp := ts |}])
    else ret history
  else ret history.

Definition get_attendance_history (phone_number : string)
  : M (list history_entry) :=
  try_except
    (let* names := listdir_attendance_sorted in
     for_each (take 5 names) (history_of_file phone_number) [])
    (λ e,
       logger ERROR
         ("Error getting attendance history for " +:+ phone_number +:+ ": "
          +:+ exn_str e);;
       ret []).

(** ** The request handlers *)

Inductive response :=
| redirect (endpoint course_id session_id : string)
| json_error (error : string)
| json_message (message : string)
| json_student (student : dict) (history : list history_entry)
| render_attendance_list
    (present_students rejected_students exited_students absent_students
       : list dict)
    (course_id session_id : string)
| render_error (error : string)
| send_file (data : DataFrame) (download_name : string).

Definition PHOTOS_FOLDER : string := "data/photos".

(** [os.path.join(PHOTOS_FOLDER, name)] with the file name kept beside the
    path; a missing value is no path component. *)
Definition photo_path (photo : cell) : result (string * string) :=
  match photo with
  | Str name => Ok (name, PHOTOS_FOLDER +:+ "/" +:+ name)
  | NaN => Raise (TypeError "join() argument must be str, bytes, or os.PathLike object, not 'float'")
  end.

(** [open(photo_path, "rb")] read and base64 encoded, when the file exists *)
Definition read_photo (name : string) : M (option string) :=
  λ w, (Ok (photos_folder w !! name), w).

(** [/search]: [phone_digits] is [request.form.get("phone_digits")]. *)
Definition search_student (phone_digits : option string) : M response :=
  try_except
    (match phone_digits with
     | Some digits =>
         if bool_decide (digits ≠ "") && (4 <=? Py.len digits)
            && Py.isdigit digits then
           let* found := find_student digits true in
           match found with
           | Some student =>
               let* photo := lift (dict_get student "photo") in
               let* path := lift (photo_path photo) in
               let* photo_data := read_photo path.1 in
               match photo_data with
               | Some data =>
                   let student :=
                     student ++
                     [("photo_data", Str ("data:image/jpg;base64," +:+ data))] in
                   let* phone := lift (dict_get student "phone_number") in
                   let* history := get_attendance_history (str phone) in
                   let* name := lift (dict_get student "name") in
                   logger INFO ("Student found via search: " +:+ str name);;
                   ret (json_student student history)
               | None =>
                   logger ERROR ("Photo not found at " +:+ path.2);;
                   ret (json_error ("Photo not found at " +:+ path.2))
               end
           | None =>
               logger WARNING ("Student not found for digits: " +:+ digits);;
               ret (json_error "Student not found")
           end
         else
           logger WARNING ("Invalid phone digits: " +:+ digits);;
           ret (json_error "At least 4 digits required")
     | None =>
         logger WARNING "Invalid phone digits: None";;
         ret (json_error "At least 4 digits required")
     end)
    (λ e,
       logger ERROR ("Error searching student: " +:+ exn_str e);;
       ret (json_error (exn_str e))).

(** [/attendance]: the four fields of the JSON body. *)
Definition update_attendance (now : datetime)
    (phone_number status course_id session_id : string) : M response :=
  try_except
    (let* found := find_student phone_number false in
     match found with
     | Some student =>
         let* saved := save_attendance now student status course_id session_id in
         if saved.1 then
           let* name := lift (dict_get student "name") in
           logger INFO
             ("Attendance updated: " +:+ str name +:+ " - " +:+ status);;
           ret (json_message saved.2)
         else ret (json_error saved.2)
     | None =>
         logger WARNING
           ("Student not found for attendance update: " +:+ phone_number);;
         ret (json_error "Student not found")
     end)
    (λ e,
       logger ERROR ("Error updating attendance: " +:+ exn_str e);;
       ret (json_error (exn_str e))).

(** [attendance[attendance["status"] == value]] *)
Definition with_status (attendance : DataFrame) (value : string)
  : result DataFrame :=
  rbind (pd.getitem attendance "status") (λ statuses,
    Ok (pd.boolean_index attendance
          (map (λ s, bool_decide (s = Str value)) statuses))).

(** [all_students[~all_students["phone_number"].astype(str).isin(present_phones)]] *)
Definition not_in (all_students : DataFrame) (present_phones : list string)
  : result DataFrame :=
  rbind (pd.getitem all_students "phone_number") (λ phones,
    Ok (pd.boolean_index all_students
          (map (λ p, negb (bool_decide (p ∈ present_phones)))
             (pd.astype_str phones)))).

(** [/attendance_list] *)
Definition attendance_list (course_id session_id : string) : M response :=
  try_except
    (let* attendance := load_attendance course_id session_id in
     let* present := lift (with_status attendance "entry") in
     let present_students := pd.to_dict_records present in
     let* rejected := lift (with_status attendance "reject") in
     let rejected_students := pd.to_dict_records rejected in
     let* exited := lift (with_status attendance "exit") in
     let exited_students := pd.to_dict_records exited in
     let* all_students := load_csv_files in
     let* present := lift (with_status attendance "entry") in
     let* present_phones := lift (pd.getitem present "phone_number") in
     let present_phones := pd.astype_str present_phones in
     let* absent := lift (not_in all_students present_phones) in
     let absent_students := pd.to_dict_records absent in
     ret (render_attendance_list present_students rejected_students
            exited_students absent_students course_id session_id))
    (λ e,
       logger ERROR ("Error rendering attendance list: " +:+ exn_str e);;
       ret (render_error (exn_str e))).

(** [/download_absent] *)
Definition download_absent (course_id session_id : string) : M response :=
  try_except
    (let* all_students := load_csv_files in
     let* attendance := load_attendance course_id session_id in
     let* present := lift (with_status attendance "entry") in
     let* present_phones := lift (pd.getitem present "phone_number") in
     let present_phones := pd.astype_str present_phones in
     let* absent_students := lift (not_in all_students present_phones) in
     let* output := lift (pd.select absent_students ["name"; "phone_number"]) in
     logger INFO
       ("Downloaded absent students for course " +:+ course_id +:+
        ", session " +:+ session_id);;
     ret (send_file output
            ("absent_students_course_" +:+ course_id +:+ "_session_" +:+
             session_id +:+ ".csv")))
    (λ e,
       logger ERROR ("Error downloading absent students: " +:+ exn_str e);;
       ret (json_error (exn_str e))).

(** [/reset_attendance] *)
Definition reset_attendance (course_id session_id : string) : M response :=
  try_except
    (let attendance_file := attendance_file course_id session_id in
     let* there := attendance_exists attendance_file in
     (if there : bool then
        remove attendance_file;;
        logger INFO
          ("Attendance reset for course " +:+ course_id +:+ ", session " +:+
           session_id)
      else ret tt);;
     ret (redirect "attendance_list" course_id session_id))
    (λ e,
       logger ERROR ("Error resetting attendance: " +:+ exn_str e);;
       ret (json_error (exn_str e))).

(** ** Observations on a world *)

(** Two worlds hold the same files: they differ in the log at most. *)
Definition same_files (w w' : World) : Prop :=
  data_folder w' = data_folder w ∧
  attendance_folder w' = attendance_folder w ∧
  photos_folder w' = photos_folder w ∧
  pandas w' = pandas w.

(** What [load_attendance] returns in a world. *)
Definition session_records (w : World) (course_id session_id : string)
  : DataFrame :=
  match (load_attendance course_id session_id w).1 with
  | Ok df => df
  | Raise _ => pd.empty_frame ATTENDANCE_COLUMNS
  end.

(** What [load_csv_files] returns in a world. *)
Definition roster (w : World) : DataFrame :=
  match (load_csv_files w).1 with
  | Ok df => df
  | Raise _ => pd.empty_frame CSV_COLUMNS
  end.

(** The text of the [phone_number] cell of a row under a column index, and of
    a record. *)
Definition phone_of (cols : list string) (row : list cell) : string :=
  str (pd.cell_at cols row "phone_number").
Definition identifier (d : dict) : string := phone_of d.*1 d.*2.

(** The identifiers recorded in a table, in row order. *)
Definition identifiers (df : DataFrame) : list string :=
  map (phone_of (columns df)) (rows df).

(** Every row has one cell per column and no label occurs twice: what
    [pd.read_csv] and the pandas constructors produce. *)
Definition aligned (df : DataFrame) : Prop :=
  NoDup (columns df) ∧ Forall (λ row, length row = length (columns df)) (rows df).

(** The table [save_attendance] writes: the loaded table followed by the new
    record, both laid out along the united column index. *)
Definition appended (attendance : DataFrame) (entry : dict) : DataFrame :=
  let cols := pd.union_columns (columns attendance) entry.*1 in
  {| columns := cols;
     rows := pd.reindex cols attendance ++ [map (pd.cell_at entry.*1 entry.*2) cols] |}.

(** pandas keeps the table that [save_attendance] makes of [attendance] and
    [entry]: the concatenation shows every cell as it was, and the file
    written from it is read back as the same table.  It does not, when a
    text of the table reads as a number or as a missing value in another
    form: 0912345678 comes back as 912345678, NA as a missing value, and an
    integer beside a missing value as a float. *)
Definition keeps_table (w : World) (attendance : DataFrame) (entry : dict)
  : Prop :=
  pd.show_columns (upcast (pandas w)) (appended attendance entry)
  = appended attendance entry ∧
  read_back (pandas w) (appended attendance entry)
  = Parsed (appended attendance entry).

(** The file of the session can be written: its name has no slash and no
    NUL, and at most 255 bytes. *)
Definition writable (course_id session_id : string) : Prop :=
  open_for_writing ATTENDANCE_FOLDER (attendance_file course_id session_id)
  = Ok tt.

(** The world after a recorded event. *)
Definition recorded_world (now : datetime) (name phone : cell)
    (status course_id session_id : string) (attendance : DataFrame) (w : World)
  : World :=
  add_log
    (INFO, "Attendance recorded for " +:+ str name +:+ " (" +:+ status +:+ ")")
    (set_attendance_folder
       (<[attendance_file course_id session_id :=
            {| mtime := now;
               content :=
                 read_back (pandas w)
                   (pd.show_columns (upcast (pandas w))
                      (appended attendance
                         (new_entry name phone status now))) |}]>
          (attendance_folder w)) w).

(** [datetime.strptime(s, "%Y-%m-%d %H:%M:%S")]: the fields read back from a
    text of the shape YYYY-MM-DD HH:MM:SS, [None] for any other text. *)
Definition read_digit (acc : option nat) (c : ascii) : option nat :=
  a ← acc; d ← Ascii.is_nat c; Some (10 * a + d).
Definition read_digits (l : list ascii) : option nat :=
  foldl read_digit (Some 0) l.

Definition is_char (c expected : ascii) : option unit :=
  if decide (c = expected) then Some tt else None.

Definition strptime (s : string) : option datetime :=
  match Py.chars s with
  | [y1; y2; y3; y4; c1; m1; m2; c2; d1; d2; c3; h1; h2; c4; n1; n2; c5; s1; s2] =>
      _ ← is_char c1 "-"; _ ← is_char c2 "-"; _ ← is_char c3 " ";
      _ ← is_char c4 ":"; _ ← is_char c5 ":";
      y ← read_digits [y1; y2; y3; y4]; m ← read_digits [m1; m2];
      d ← read_digits [d1; d2]; h ← read_digits [h1; h2];
      n ← read_digits [n1; n2]; sec ← read_digits [s1; s2];
      Some {| year := y; month := m; day := d; hour := h; minute := n;
              second := sec |}
  | _ => None
  end.

(** ** The claims that the program does not meet, as they are worded *)


(** "Valid files' rows are concatenated preserving file order then row
    order; no column reordering": the table of a single roster file that has
    the three columns and no other comes out with its columns in the order
    of the file. *)
Definition no_column_reordering : Prop :=
  ∀ w name f df,
    data_folder w = Some [(name, f)] →
    Py.endswith name ".csv" && Py.startswith name "students_" = true →
    content f = Parsed df →
    columns df ≡ₚ ["name"; "phone_number"; "photo"] →
    columns (roster w) = columns df.

(** ** The roster, in the words of its description *)

(** A world with further log records. *)
Definition add_logs (entries : list (level * string)) (w : World) : World :=
  {| pandas := pandas w; elsewhere := elsewhere w;
     data_folder := data_folder w; attendance_folder := attendance_folder w;
     photos_folder := photos_folder w; log := log w ++ entries |}.

(** A roster file is named students_*.csv. *)
Definition is_roster_file (name : string) : bool :=
  Py.endswith name ".csv" && Py.startswith name "students_".

Definition has_required_columns (df : DataFrame) : bool :=
  forallb (λ col, bool_decide (col ∈ columns df)) CSV_COLUMNS.

(** The rows an entry of the data folder gives to the roster: those of a
    roster file that parses and has the required columns, each reduced to
    its name, phone number and photo, in this order. *)
Definition roster_rows (entry : string * file) : list (list cell) :=
  if is_roster_file entry.1 then
    match content entry.2 with
    | Parsed df =>
        if has_required_columns df then
          map (λ row, [pd.cell_at (columns df) row "name";
                       pd.cell_at (columns df) row "phone_number";
                       pd.cell_at (columns df) row "photo"]) (rows df)
        else []
    | Unparsable _ => []
    end
  else [].

(** The roster of a data folder: the rows of its entries, one entry after
    the other, under the three roster columns. *)
Definition roster_table (entries : list (string * file)) : DataFrame :=
  {| columns := CSV_COLUMNS; rows := entries ≫= roster_rows |}.


(** The frame such an entry adds to the list [students]. *)
Definition roster_frames (entry : string * file) : list DataFrame :=
  if is_roster_file entry.1 then
    match content entry.2 with
    | Parsed df =>
        if has_required_columns df
        then [{| columns := CSV_COLUMNS; rows := roster_rows entry |}]
        else []
    | Unparsable _ => []
    end
  else [].

(** A roster file that parses but lacks a required column. *)
Definition lacks_columns (entry : string * file) : bool :=
  is_roster_file entry.1 &&
  match content entry.2 with
  | Parsed df => negb (has_required_columns df)
  | Unparsable _ => false
  end.

(** What a loop pass over an entry writes to the log. *)
Definition roster_log (entry : string * file) : list (level * string) :=
  if is_roster_file entry.1 then
    match content entry.2 with
    | Parsed df =>
        if has_required_columns df then []
        else [(WARNING, "Skipping " +:+ entry.1 +:+ ": Missing required columns")]
    | Unparsable msg => [(ERROR, "Error reading " +:+ entry.1 +:+ ": " +:+ msg)]
    end
  else [].

(** ** Resolution, in the words of its description *)

(** A roster row matches the identifier: in exact mode its phone number, as
    text, is the identifier; in partial mode it ends with the last four
    characters of the identifier. *)
Definition matches (phone_number : string) (partial : bool) (row : list cell)
  : bool :=
  if partial
  then Py.endswith (phone_of CSV_COLUMNS row) (Py.last_chars 4 phone_number)
  else bool_decide (phone_of CSV_COLUMNS row = phone_number).

(** [find_student] returns a student record. *)
Definition found (phone_number : string) (partial : bool) (w : World) : Prop :=
  ∃ student, (find_student phone_number partial w).1 = Ok (Some student).

(** "For every partial-mode resolution input of at least 4 decimal digits,
    the lookup succeeds exactly when some roster phone field, as a string,
    ends with the full input digit string." *)
Definition partial_lookup_by_full_input : Prop :=
  ∀ w digits,
    4 ≤ Py.len digits → Py.isdigit digits = true →
    found digits true w ↔
    ∃ phone, phone ∈ identifiers (roster w) ∧ Py.endswith phone digits = true.

(** ** The derived views, in the words of their description *)

(** The identifiers of a list of records. *)
Definition ids (records : list dict) : list string := map identifier records.

Definition disjoint_ids (l k : list string) : Prop := ∀ id, id ∈ l → id ∉ k.

(** The records of a session with a given status, in record order. *)
Definition rows_with_status (attendance : DataFrame) (value : string)
  : list (list cell) :=
  filter (λ row, pd.cell_at (columns attendance) row "status" = Str value)
    (rows attendance).
Definition records_with_status (attendance : DataFrame) (value : string)
  : list dict :=
  map (zip (columns attendance)) (rows_with_status attendance value).

(** The roster rows whose identifier is not among [excluded]. *)
Definition rows_without (all_students : DataFrame) (excluded : list string)
  : list (list cell) :=
  filter (λ row, phone_of (columns all_students) row ∉ excluded)
    (rows all_students).

(** "The four derived views have pairwise disjoint identifier sets, and their
    union, restricted to roster identifiers, equals the full roster
    identifier set; in particular absent equals the roster rows whose
    identifier appears in no session record of any status." *)
Definition views_partition_roster : Prop :=
  ∀ w course_id session_id present rejected exited absent w',
    attendance_list course_id session_id w
    = (Ok (render_attendance_list present rejected exited absent
             course_id session_id), w') →
    (disjoint_ids (ids present) (ids rejected) ∧
     disjoint_ids (ids present) (ids exited) ∧
     disjoint_ids (ids present) (ids absent) ∧
     disjoint_ids (ids rejected) (ids exited) ∧
     disjoint_ids (ids rejected) (ids absent) ∧
     disjoint_ids (ids exited) (ids absent)) ∧
    (∀ id, id ∈ identifiers (roster w) →
           id ∈ ids present ++ ids rejected ++ ids exited ++ ids absent) ∧
    absent
    = map (zip (columns (roster w)))
        (rows_without (roster w)
           (identifiers (session_records w course_id session_id))).

(** ** The history, in the words of its description *)

(** The names in the attendance folder. *)
Definition listing (w : World) : list string :=
  (map_to_list (attendance_folder w)).*1.

(** The names [get_attendance_history] looks at: the first five in
    descending order of name. *)
Definition window (w : World) : list string :=
  take 5 (Py.sorted_reverse (listing w)).

(** The file [name] is a session file that parses and has a record of the
    identifier. *)
Definition has_record (w : World) (phone_number name : string) : bool :=
  Py.endswith name ".csv" &&
  match attendance_folder w !! name with
  | Some f =>
      match content f with
      | Parsed df => bool_decide (phone_number ∈ identifiers df)
      | Unparsable _ => false
      end
  | None => false
  end.

(** The history entry of a session file: its label, with the status and the
    time stamp of its first record of the identifier. *)
Definition entry_of (w : World) (phone_number name : string)
    (e : history_entry) : Prop :=
  Py.endswith name ".csv" = true ∧
  ∃ f df row,
    attendance_folder w !! name = Some f ∧
    content f = Parsed df ∧
    head (filter (λ row, phone_of (columns df) row = phone_number) (rows df))
    = Some row ∧
    e = {| session := session_label name;
           status := pd.cell_at (columns df) row "status";
           timestamp := pd.cell_at (columns df) row "timestamp" |}.

(** The file [name], when it is a .csv file, parses to an aligned table
    with the columns the history reads. *)
Definition readable (w : World) (name : string) : Prop :=
  Py.endswith name ".csv" = true →
  ∃ f df,
    attendance_folder w !! name = Some f ∧ content f = Parsed df ∧
    aligned df ∧
    ["phone_number"; "status"; "timestamp"] ⊆ columns df.

(** How many files of the attendance folder were modified later than the
    file [name]. *)
Definition modified_later (w : World) (name : string) : nat :=
  match attendance_folder w !! name with
  | Some f =>
      length (filter (λ entry, earlier (mtime f) (mtime entry.2) = true)
                (map_to_list (attendance_folder w)))
  | None => 0
  end.

(** The five most recently modified files: fewer than five are later. *)
Definition recently_modified (w : World) : list string :=
  filter (λ name, modified_later w name < 5) (listing w).

(** "History returns entries drawn only from the 5 most recently modified
    session record sets." *)
Definition history_from_recently_modified : Prop :=
  ∀ w phone_number h,
    (get_attendance_history phone_number w).1 = Ok h →
    ∀ e, e ∈ h → session e ∈ session_label <$> recently_modified w.

(** ** The attendance folder as the program leaves it *)

(** Every file of the attendance folder is a session table: it parses, is
    aligned and has the four session columns in their order.  This is how
    the folder looks when only [save_attendance] and [reset_attendance]
    write to it and pandas keeps the tables that are written. *)
Definition session_schema (w : World) : Prop :=
  ∀ name f,
    attendance_folder w !! name = Some f →
    ∃ df, content f = Parsed df ∧ aligned df ∧ columns df = ATTENDANCE_COLUMNS.

(** ** A small school, for examples *)

Module Example.

Definition at_second (n : nat) : datetime :=
  {| year := 2024; month := 3; day := 7; hour := 9; minute := 5; second := n |}.

Definition alice : dict :=
  [("name", Str "Alice"); ("phone_number", Str "5551234"); ("photo", Str "a.jpg")].
Definition bob : dict :=
  [("name", Str "Bob"); ("phone_number", Str "5555678"); ("photo", Str "b.jpg")].

Definition students : DataFrame :=
  {| columns := ["name"; "phone_number"; "photo"];
     rows := [alice.*2; bob.*2] |}.

(** The pandas of the examples.  It has what the examples need of pandas:
    the texts that [pd.read_csv] reads as a missing value, and the columns
    of integers of at most fifteen digits, which it reads as numbers, so
    that they lose their leading zeros and, beside a missing value, are
    floats; every other text is read back as it was written. *)
Definition NA_VALUES : list string :=
  [""; "#N/A"; "#N/A N/A"; "#NA"; "-1.#IND"; "-1.#QNAN"; "-NaN"; "-nan";
   "1.#IND"; "1.#QNAN"; "<NA>"; "N/A"; "NA"; "NULL"; "NaN"; "None"; "n/a";
   "nan"; "null"].

Definition is_missing (c : cell) : bool :=
  match c with
  | NaN => true
  | Str s => bool_decide (s ∈ NA_VALUES)
  end.

Definition is_integer (c : cell) : bool :=
  match c with
  | NaN => false
  | Str s =>
      forallb (λ x, bool_decide (is_Some (Ascii.is_nat x))) (Py.chars s)
      && (1 <=? Py.len s) && (Py.len s <=? 15)
  end.

Definition is_float (c : cell) : bool :=
  match c with
  | NaN => false
  | Str s =>
      Py.endswith s ".0"
      && is_integer (Str (Py.of_chars (take (Py.len s - 2) (Py.chars s))))
  end.

Fixpoint strip_zeros (l : list ascii) : list ascii :=
  match l with
  | "0"%char :: (_ :: _) as rest => strip_zeros rest
  | _ => l
  end.

Definition read_cell (column : list cell) (c : cell) : cell :=
  if is_missing c then NaN
  else if forallb (λ x, is_missing x || is_integer x) column then
    let n := Py.of_chars (strip_zeros (Py.chars (str c))) in
    Str (if existsb is_missing column then n +:+ ".0" else n)
  else c.

Definition read_table (df : DataFrame) : contents :=
  match columns df with
  | [] => Unparsable "No columns to parse from file"
  | _ =>
      Parsed
        {| columns := columns df;
           rows := rows (pd.show_columns read_cell df) |}
  end.

Definition float_column (column : list cell) (c : cell) : cell :=
  if is_integer c
     && forallb (λ x, is_missing x || is_integer x || is_float x) column
     && existsb (λ x, is_missing x || is_float x) column
  then Str (str c +:+ ".0")
  else c.

Definition pandas_of_examples : Pandas :=
  {| read_back := read_table; upcast := float_column |}.

(** The roster of the end-to-end example, no session recorded yet. *)
Definition school : World :=
  {| pandas := pandas_of_examples; elsewhere := λ _, false;
     data_folder :=
       Some [("students_1.csv",
              {| mtime := at_second 0; content := Parsed students |})];
     attendance_folder := ∅;
     photos_folder := {[ "a.jpg" := "QQ=="; "b.jpg" := "Qg==" ]};
     log := [] |}.

(** The world after running [m] in [w]. *)
Definition after {A} (m : M A) (w : World) : World := (m w).2.

(** A school whose phone numbers are texts: the second is no number, so
    [pd.read_csv] leaves the column of the roster file as it is written,
    and the first keeps its leading zero. *)
Definition ali : dict :=
  [("name", Str "Ali"); ("phone_number", Str "0912345678");
   ("photo", Str "a.jpg")].
Definition sara : dict :=
  [("name", Str "Sara"); ("phone_number", Str "0912-000");
   ("photo", Str "b.jpg")].
Definition text_school : World :=
  {| pandas := pandas_of_examples; elsewhere := λ _, false;
     data_folder :=
       Some [("students_1.csv",
              {| mtime := at_second 0;
                 content :=
                   Parsed {| columns := ["name"; "phone_number"; "photo"];
                             rows := [ali.*2; sara.*2] |} |})];
     attendance_folder := ∅;
     photos_folder := {[ "a.jpg" := "QQ=="; "b.jpg" := "Qg==" ]};
     log := [] |}.

(** A school whose roster file has its columns in another order. *)
Definition shuffled : DataFrame :=
  {| columns := ["photo"; "name"; "phone_number"];
     rows := [[Str "a.jpg"; Str "Alice"; Str "5551234"]] |}.
Definition shuffled_school : World :=
  {| pandas := pandas_of_examples; elsewhere := λ _, false;
     data_folder :=
       Some [("students_1.csv",
              {| mtime := at_second 0; content := Parsed shuffled |})];
     attendance_folder := ∅;
     photos_folder := {[ "a.jpg" := "QQ==" ]};
     log := [] |}.

(** The school after Alice was turned away at session 1 of course 1. *)
Definition alice_rejected : World :=
  after
    (update_attendance (at_second 1) "5551234" "reject" "1" "1")
    school.

(** Alice enters six sessions of course 1: session 6 first, session 1
    last, a second apart. *)
Definition six_sessions : World :=
  foldl (λ w visit,
           after
             (save_attendance (at_second visit.1) alice
                "entry" "1" visit.2) w)
    school
    [(1, "6"); (2, "5"); (3, "4"); (4, "3"); (5, "2"); (6, "1")].

End Example.

(** ** Further routes of [app.py] *)

(** [c.isalnum()] on the code points below 256: the digits 0 to 9, the
    letters A to Z and a to z, the ordinal indicators (170, 186), the micro
    sign (181), the superscript digits (178, 179, 185), the fractions (188
    to 190) and the accented letters (192 to 255 without the signs 215 and
    247). *)
Definition is_alnum_char (c : ascii) : bool :=
  let n := nat_of_ascii c in
  ((48 <=? n) && (n <=? 57)) || ((65 <=? n) && (n <=? 90))
  || ((97 <=? n) && (n <=? 122))
  || (n =? 170) || (n =? 178) || (n =? 179) || (n =? 181) || (n =? 185)
  || (n =? 186) || ((188 <=? n) && (n <=? 190))
  || ((192 <=? n) && (n <=? 214)) || ((216 <=? n) && (n <=? 246))
  || ((248 <=? n) && (n <=? 255)).

(** [s.isalnum()]: at least one character, all of them alphanumeric *)
Definition isalnum (s : string) : bool :=
  match Py.chars s with
  | [] => false
  | l => forallb is_alnum_char l
  end.

(** [/scan].  [decoded] is what reading the form, decoding the image and
    [detector.detectAndDecode] give: the text of the code, the empty text
    when there is no code, or the exception one of them raises. *)
Definition scan_qr (decoded : result string) : M response :=
  try_except
    (let* data := lift decoded in
     if bool_decide (data ≠ "") then
       let phone_number := data in
       let* found := find_student phone_number false in
       match found with
       | Some student =>
           let* photo := lift (dict_get student "photo") in
           let* path := lift (photo_path photo) in
           let* photo_data := read_photo path.1 in
           match photo_data with
           | Some data =>
               let student :=
                 student ++
                 [("photo_data", Str ("data:image/jpg;base64," +:+ data))] in
               let* history := get_attendance_history phone_number in
               let* name := lift (dict_get student "name") in
               logger INFO ("Student found via QR: " +:+ str name);;
               ret (json_student student history)
           | None =>
               logger ERROR ("Photo not found at " +:+ path.2);;
               ret (json_error ("Photo not found at " +:+ path.2))
           end
       | None =>
           logger WARNING ("Student not found for QR code: " +:+ phone_number);;
           ret (json_error "Student not found")
       end
     else
       logger WARNING "No QR code detected in image";;
       ret (json_error "No QR code detected"))
    (λ e,
       logger ERROR ("Error processing QR code: " +:+ exn_str e);;
       ret (json_error (exn_str e))).

(** [/download_present] *)
Definition download_present (course_id session_id : string) : M response :=
  try_except
    (let* attendance := load_attendance course_id session_id in
     let* present_students := lift (with_status attendance "entry") in
     let* output := lift (pd.select present_students ATTENDANCE_COLUMNS) in
     logger INFO
       ("Downloaded present students for course " +:+ course_id +:+
        ", session " +:+ session_id);;
     ret (send_file output
            ("present_students_course_" +:+ course_id +:+ "_session_" +:+
             session_id +:+ ".csv")))
    (λ e,
       logger ERROR ("Error downloading present students: " +:+ exn_str e);;
       ret (json_error (exn_str e))).

(** [/download_rejected] *)
Definition download_rejected (course_id session_id : string) : M response :=
  try_except
    (let* attendance := load_attendance course_id session_id in
     let* rejected_students := lift (with_status attendance "reject") in
     let* output := lift (pd.select rejected_students ATTENDANCE_COLUMNS) in
     logger INFO
       ("Downloaded rejected students for course " +:+ course_id +:+
        ", session " +:+ session_id);;
     ret (send_file output
            ("rejected_students_course_" +:+ course_id +:+ "_session_" +:+
             session_id +:+ ".csv")))
    (λ e,
       logger ERROR ("Error downloading rejected students: " +:+ exn_str e);;
       ret (json_error (exn_str e))).

(** The names bound at the top level of [app.py]: its imports, constants
    and functions. *)
Definition module_names : list string :=
  ["Flask"; "render_template"; "request"; "jsonify"; "send_file"; "redirect";
   "url_for"; "session"; "pd"; "cv2"; "os"; "base64"; "BytesIO"; "datetime";
   "np"; "qrcode"; "Image"; "logging"; "secrets"; "app"; "BASE_DIR";
   "DATA_FOLDER"; "PHOTOS_FOLDER"; "QRCODES_FOLDER"; "ATTENDANCE_FOLDER";
   "CSV_COLUMNS"; "folder"; "USERS"; "load_csv_files"; "find_student";
   "load_attendance"; "save_attendance"; "get_attendance_history";
   "generate_qr_code"; "login_required"; "login"; "logout"; "setup_session";
   "index"; "scan_qr"; "search_student"; "update_attendance";
   "attendance_list"; "download_present"; "download_rejected";
   "download_exited"; "download_absent"; "download_qr"; "reset_attendance";
   "delete_student"; "add_student"].

(** A name read in a function body is a local variable of the function, or a
    name of the module, or it is not bound and reading it is a NameError. *)
Inductive binding (A : Type) :=
| Local (value : A)
| Global
| Unbound.
Arguments Local {A} value.
Arguments Global {A}.
Arguments Unbound {A}.

Definition resolve {A} (locals : list (string * A)) (name : string)
  : binding A :=
  match list_find (λ kv, kv.1 = name) locals with
  | Some (_, kv) => Local kv.2
  | None => if decide (name ∈ module_names) then Global else Unbound
  end.

(** [/download_exited].  The function binds [Attendance] and reads
    [attendance]; the exception of an unbound name has no value in [exn],
    so it is handed to the handler of the function where it arises. *)
Definition download_exited (course_id session_id : string) : M response :=
  let handler (message : string) : M response :=
    logger ERROR ("Error downloading exited students: " +:+ message);;
    ret (json_error message) in
  try_except
    (let* Attendance := load_attendance course_id session_id in
     match resolve [("Attendance", Attendance)] "attendance" with
     | Local attendance =>
         let* exited_students := lift (with_status attendance "exit") in
         let* output := lift (pd.select exited_students ATTENDANCE_COLUMNS) in
         logger INFO
           ("Downloaded exited students for course " +:+ course_id +:+
            ", session " +:+ session_id);;
         ret (send_file output
                ("exited_students_course_" +:+ course_id +:+ "_session_" +:+
                 session_id +:+ ".csv"))
     | Global => lift (Raise (TypeError "'function' object is not subscriptable"))
     | Unbound => handler "name 'attendance' is not defined"
     end)
    (λ e, handler (exn_str e)).

(** A computation that writes no file. *)
Definition read_only {A} (m : M A) : Prop := ∀ w, same_files w (m w).2.

(** What [find_student] returns in a world. *)
Definition first_match (phone_number : string) (partial : bool) (w : World)
  : option (list cell) :=
  head (filter (λ row, matches phone_number partial row) (rows (roster w))).

(** What [get_attendance_history] returns in a world. *)
Definition history_in (w : World) (phone_number : string)
  : list history_entry :=
  match (get_attendance_history phone_number w).1 with
  | Ok h => h
  | Raise _ => []
  end.

(** The answer of a lookup that found the roster row [row], with the history
    of [phone_number]. *)
Definition student_answer (w : World) (row : list cell) (phone_number : string)
  : response :=
  match pd.cell_at CSV_COLUMNS row "photo" with
  | NaN => json_error "join() argument must be str, bytes, or os.PathLike object, not 'float'"
  | Str photo =>
      match photos_folder w !! photo with
      | Some data =>
          json_student
            (zip CSV_COLUMNS row ++
             [("photo_data", Str ("data:image/jpg;base64," +:+ data))])
            (history_in w phone_number)
      | None => json_error ("Photo not found at " +:+ PHOTOS_FOLDER +:+ "/" +:+ photo)
      end
  end.

(** ** The rest of the site: QR codes, enrolment, sign-in

    The functions below also use the folder of the QR code images and the
    Flask session.  A QR code image is represented by the text it encodes;
    the encoder and the decoder of the [qrcode] and [cv2] libraries are
    inverse to each other on it. *)

Record Site := {
  world : World;
  (** [QRCODES_FOLDER]: file name to the text the image encodes *)
  qrcodes_folder : gmap string string;
  (** the keys of the Flask [session] *)
  flask_session : gset string
}.

Definition set_world (w : World) (st : Site) : Site :=
  {| world := w; qrcodes_folder := qrcodes_folder st;
     flask_session := flask_session st |}.
Definition set_qrcodes_folder (d : gmap string string) (st : Site) : Site :=
  {| world := world st; qrcodes_folder := d;
     flask_session := flask_session st |}.
Definition set_flask_session (keys : gset string) (st : Site) : Site :=
  {| world := world st; qrcodes_folder := qrcodes_folder st;
     flask_session := keys |}.

Definition set_data_folder (d : option (list (string * file))) (w : World)
  : World :=
  {| pandas := pandas w; elsewhere := elsewhere w;
     data_folder := d; attendance_folder := attendance_folder w;
     photos_folder := photos_folder w; log := log w |}.
Definition set_photos_folder (d : gmap string string) (w : World) : World :=
  {| pandas := pandas w; elsewhere := elsewhere w;
     data_folder := data_folder w; attendance_folder := attendance_folder w;
     photos_folder := d; log := log w |}.

(** The monad of these functions: the same as [M], over the site. *)
Definition MS (A : Type) : Type := Site → result A * Site.

Definition sret {A} (a : A) : MS A := λ st, (Ok a, st).
Definition sbind {A B} (m : MS A) (k : A → MS B) : MS B :=
  λ st, match m st with
        | (Ok a, st') => k a st'
        | (Raise e, st') => (Raise e, st')
        end.
Definition slift {A} (r : result A) : MS A := λ st, (r, st).
Definition stry_except {A} (body : MS A) (handler : exn → MS A) : MS A :=
  λ st, match body st with
        | (Ok a, st') => (Ok a, st')
        | (Raise e, st') => handler e st'
        end.

(** A computation on the world, run on the world of the site. *)
Definition in_world {A} (m : M A) : MS A :=
  λ st, let (r, w) := m (world st) in (r, set_world w st).

Notation "'let+' x := m 'in' k" := (sbind m (λ x, k))
  (at level 10, x binder, m at level 100, k at level 200).
Notation "m ;;+ k" := (sbind m (λ _, k))
  (at level 100, k at level 200, right associativity).

Definition slog (lvl : level) (msg : string) : MS unit :=
  in_world (logger lvl msg).

(** What these routes answer. *)
Inductive reply :=
| answer (r : response)
| render_template (template : string) (context : list (string * string))
| redirect_to (endpoint : string)
| send_path (path download_name : string).

Definition QRCODES_FOLDER : string := "data/qrcodes".

(** [img.save(qr_path)] for the image of [data] *)
Definition save_qr (name data : string) : MS unit :=
  λ st, match open_for_writing QRCODES_FOLDER name with
        | Ok _ =>
            (Ok tt,
             set_qrcodes_folder (<[name := data]> (qrcodes_folder st)) st)
        | Raise e => (Raise e, st)
        end.

(** [generate_qr_code(phone_number)]; [phone_number] is the text
    [str(phone_number)]. *)
Definition generate_qr_code (phone_number : string) : MS (option string) :=
  stry_except
    (let qr_path := QRCODES_FOLDER +:+ "/" +:+ phone_number +:+ ".png" in
     save_qr (phone_number +:+ ".png") phone_number;;+
     slog INFO ("QR code generated for " +:+ phone_number);;+
     sret (Some qr_path))
    (λ e,
       slog ERROR
         ("Error generating QR code for " +:+ phone_number +:+ ": " +:+
          exn_str e);;+
       sret None).

(** [/download_qr/<phone_number>] *)
Definition download_qr (phone_number : string) : MS reply :=
  stry_except
    (let qr_path := QRCODES_FOLDER +:+ "/" +:+ phone_number +:+ ".png" in
     let+ there :=
       (λ st, (Ok (bool_decide
                     (is_Some (qrcodes_folder st !! (phone_number +:+ ".png")))),
               st)) in
     if there : bool then
       slog INFO ("Downloaded QR code for " +:+ phone_number);;+
       sret (send_path qr_path ("qr_" +:+ phone_number +:+ ".png"))
     else
       slog ERROR ("QR code not found for " +:+ phone_number);;+
       sret (answer (json_error "QR code not found")))
    (λ e,
       slog ERROR
         ("Error downloading QR code for " +:+ phone_number +:+ ": " +:+
          exn_str e);;+
       sret (answer (json_error (exn_str e)))).

(** *** Files of the data folder *)

(** The listing after [name] was written: a file that is there keeps its
    place, a new file is listed at [position]. *)
Definition write_entry (name : string) (f : file) (position : nat)
    (entries : list (string * file)) : list (string * file) :=
  if bool_decide (name ∈ entries.*1)
  then map (λ entry, if decide (entry.1 = name) then (name, f) else entry)
         entries
  else take position entries ++ [(name, f)] ++ drop position entries.

(** [df.to_csv(os.path.join(DATA_FOLDER, name), index=False)]; [position]
    is where the system lists the file when it is new. *)
Definition to_csv_data (df : DataFrame) (name : string) (now : datetime)
    (position : nat) : M unit :=
  λ w, match data_folder w with
       | Some entries =>
           (Ok tt,
            set_data_folder
              (Some (write_entry name
                       {| mtime := now; content := read_back (pandas w) df |}
                       position entries)) w)
       | None => (Raise (OSError "cannot write to the data folder"), w)
       end.

(** [os.path.exists] and [pd.read_csv] on a name of the data folder *)
Definition data_file (name : string) (w : World) : option file :=
  match data_folder w with
  | Some entries => snd <$> head (filter (λ entry, entry.1 = name) entries)
  | None => None
  end.
Definition data_exists (name : string) : M bool :=
  λ w, (Ok (bool_decide (is_Some (data_file name w))), w).
Definition read_data_csv (name : string) : M DataFrame :=
  λ w, match data_file name w with
       | Some f => (read_csv f, w)
       | None => (Raise (OSError ("No such file or directory: " +:+ name)), w)
       end.


(** [os.path.exists(os.path.join(PHOTOS_FOLDER, name))]: the photos folder
    has files only, the path is the folder itself for the empty name and
    for a dot, and the data folder for two dots, and a name with a slash
    leads elsewhere. *)
Definition photo_exists (name : string) : M bool :=
  λ w, (Ok (if bool_decide ("/"%char ∈ Py.chars name)
            then elsewhere w (PHOTOS_FOLDER +:+ "/" +:+ name)
            else bool_decide (name ∈ [""; "."; ".."])
                 || bool_decide (is_Some (photos_folder w !! name))), w).

(** [photo.save(photo_path)] and [os.remove] on a photo that exists *)
Definition save_photo (name data : string) : M unit :=
  λ w, match open_for_writing PHOTOS_FOLDER name with
       | Ok _ =>
           (Ok tt, set_photos_folder (<[name := data]> (photos_folder w)) w)
       | Raise e => (Raise e, w)
       end.
Definition remove_photo (name : string) : M unit :=
  λ w, (Ok tt, set_photos_folder (delete name (photos_folder w)) w).

(** *** Enrolment *)

(** [now.strftime('%Y%m%d_%H%M%S')] *)
Definition strftime_compact (t : datetime) : string :=
  Py.of_chars
    (dec4 (year t) ++ dec2 (month t) ++ dec2 (day t) ++ ["_"%char]
     ++ dec2 (hour t) ++ dec2 (minute t) ++ dec2 (second t)).

(** An uploaded CSV file, by what [pd.read_csv] makes of it, and an uploaded
    photo. *)
Record csv_upload := {
  csv_filename : string;
  csv_content : contents
}.
Record photo_upload := {
  photo_filename : string;
  photo_data : string
}.

(** The request of [/add_student]: the method, [request.files["csv_file"]]
    when the key is there, and the fields of the form. *)
Record add_student_request := {
  is_post : bool;
  csv_file : option csv_upload;
  form_name : option string;
  form_phone_number : option string;
  form_photo : option photo_upload
}.

(** The loop of [add_student] over the rows of the uploaded table: the photo
    of every row must be there, and every row gets its QR code.  The result
    is the answer of the [return] inside the loop, if it is reached. *)
Fixpoint upload_rows (cols : list string) (rws : list (list cell))
  : MS (option reply) :=
  match rws with
  | [] => sret None
  | row :: rest =>
      let photo_file := pd.cell_at cols row "photo" in
      let+ path := slift (photo_path photo_file) in
      let+ there := in_world (photo_exists path.1) in
      if negb there then
        slog ERROR ("Photo " +:+ str photo_file +:+ " not found");;+
        sret (Some (answer (json_error
                              ("Photo " +:+ str photo_file +:+ " not found"))))
      else
        generate_qr_code (str (pd.cell_at cols row "phone_number"));;+
        upload_rows cols rest
  end.

(** [/add_student]; [now] is the value of [datetime.datetime.now()] and
    [position] is where the system lists a file that is new in the data
    folder. *)
Definition add_student (now : datetime) (position : nat)
    (course_id session_id : string) (req : add_student_request) : MS reply :=
  let manual : MS reply :=
    match form_name req, form_phone_number req, form_photo req with
    | Some name, Some phone_number, Some photo =>
        if bool_decide (name ≠ "") && bool_decide (phone_number ≠ "")
           && bool_decide (photo_filename photo ≠ "") then
          if negb (Py.isdigit phone_number) then
            slog WARNING ("Invalid phone number: " +:+ phone_number);;+
            sret (answer (json_error "Phone number must be digits only"))
          else
            let photo_filename :=
              phone_number +:+ "_" +:+ photo_filename photo in
            in_world (save_photo photo_filename (photo_data photo));;+
            let new_student :=
              pd.of_dict [("name", Str name);
                          ("phone_number", Str phone_number);
                          ("photo", Str photo_filename)] in
            generate_qr_code phone_number;;+
            let+ there := in_world (data_exists "students.csv") in
            (if there : bool then
               let+ existing := in_world (read_data_csv "students.csv") in
               let+ updated :=
                 in_world (concat_frames [existing; new_student]) in
               in_world (to_csv_data updated "students.csv" now position)
             else
               in_world (to_csv_data new_student "students.csv" now position));;+
            slog INFO ("Student added: " +:+ name);;+
            sret (answer (redirect "index" course_id session_id))
        else
          slog WARNING "Missing required fields for manual student addition";;+
          sret (answer (json_error
                          "All fields (name, phone_number, photo) are required"))
    | _, _, _ =>
        slog WARNING "Missing required fields for manual student addition";;+
        sret (answer (json_error
                        "All fields (name, phone_number, photo) are required"))
    end in
  stry_except
    (if is_post req then
       match csv_file req with
       | Some file =>
           if bool_decide (csv_filename file ≠ "") then
             if Py.endswith (csv_filename file) ".csv" then
               stry_except
                 (let+ df :=
                    slift (read_csv {| mtime := now;
                                       content := csv_content file |}) in
                  if forallb (λ col, bool_decide (col ∈ columns df))
                       CSV_COLUMNS then
                    let+ stopped := upload_rows (columns df) (rows df) in
                    match stopped with
                    | Some r => sret r
                    | None =>
                        let csv_path :=
                          "students_" +:+ strftime_compact now +:+ ".csv" in
                        in_world (to_csv_data df csv_path now position);;+
                        slog INFO "CSV uploaded and processed";;+
                        sret (answer (redirect "index" course_id session_id))
                    end
                  else
                    slog WARNING "CSV missing required columns";;+
                    sret (answer
                            (json_error
                               "CSV missing required columns: name, phone_number, photo")))
                 (λ e,
                    slog ERROR ("Error processing CSV: " +:+ exn_str e);;+
                    sret (answer (json_error (exn_str e))))
             else
               slog WARNING "Invalid file format for CSV upload";;+
               sret (answer
                       (json_error
                          "Invalid file format. Please upload a CSV file."))
           else manual
       | None => manual
       end
     else
       sret (render_template "add_student.html"
               [("course_id", course_id); ("session_id", session_id)]))
    (λ e,
       slog ERROR ("Error adding student: " +:+ exn_str e);;+
       sret (answer (render_error (exn_str e)))).

(** [/delete_student]; [phone_number] is the text [str(phone_number)]. *)
Definition delete_student (now : datetime) (position : nat)
    (phone_number course_id session_id : string) : MS reply :=
  stry_except
    (let+ all_students := in_world load_csv_files in
     let+ phones := slift (pd.getitem all_students "phone_number") in
     if bool_decide (phone_number ∈ pd.astype_str phones) then
       let+ phones := slift (pd.getitem all_students "phone_number") in
       let all_students :=
         pd.boolean_index all_students
           (map (λ p, negb (bool_decide (p = phone_number)))
              (pd.astype_str phones)) in
       in_world (to_csv_data all_students "students.csv" now position);;+
       let photo := phone_number +:+ "_*.jpg" in
       let qr := phone_number +:+ ".png" in
       let+ photo_there := in_world (photo_exists photo) in
       (if photo_there : bool then in_world (remove_photo photo)
        else sret tt);;+
       let+ qr_there :=
         (λ st, (Ok (bool_decide (is_Some (qrcodes_folder st !! qr))), st)) in
       (if qr_there : bool
        then λ st, (Ok tt,
                    set_qrcodes_folder (delete qr (qrcodes_folder st)) st)
        else sret tt);;+
       slog INFO ("Student deleted: " +:+ phone_number);;+
       sret (answer (redirect "attendance_list" course_id session_id))
     else
       slog WARNING ("Student not found for deletion: " +:+ phone_number);;+
       sret (answer (json_error "Student not found")))
    (λ e,
       slog ERROR ("Error deleting student: " +:+ exn_str e);;+
       sret (answer (json_error (exn_str e)))).

(** A computation that leaves the roster as it is. *)
Definition keeps_roster {A} (m : MS A) : Prop :=
  ∀ st, roster (world (m st).2) = roster (world st).

(** The request of [/add_student] is a POST with a CSV file that has a
    name. *)
Definition is_csv_upload (req : add_student_request) : bool :=
  is_post req &&
  match csv_file req with
  | Some file => bool_decide (csv_filename file ≠ "")
  | None => false
  end.

(** A computation that leaves the roster as it is unless it answers [r]. *)
Definition keeps_roster_unless (r : reply) (m : MS reply) : Prop :=
  ∀ st, roster (world (m st).2) = roster (world st) ∨ (m st).1 = Ok r.

(** ** A site for the examples of the enrolment routes *)

Module SiteExample.

(** The school of [Example], with the QR codes of its two students. *)
Definition office : Site :=
  {| world := Example.school;
     qrcodes_folder :=
       {[ "5551234.png" := "5551234"; "5555678.png" := "5555678" ]};
     flask_session := ∅ |}.

(** The form of [/add_student] filled in for one student. *)
Definition carol_form : add_student_request :=
  {| is_post := true;
     csv_file := None;
     form_name := Some "Carol";
     form_phone_number := Some "5559999";
     form_photo := Some {| photo_filename := "c.jpg"; photo_data := "Qw==" |} |}.

(** A CSV file with one more student, whose photo is in the photos folder. *)
Definition new_class : add_student_request :=
  {| is_post := true;
     csv_file :=
       Some {| csv_filename := "class.csv";
               csv_content :=
                 Parsed {| columns := ["photo"; "name"; "phone_number"];
                           rows := [[Str "b.jpg"; Str "Dave"; Str "5550000"]] |} |};
     form_name := None;
     form_phone_number := None;
     form_photo := None |}.

End SiteExample.

(** ** Logging in and the routes behind it *)

(** [USERS]: user name to password *)
Definition USERS : gmap string string := {[ "admin" := "password123" ]}.

(** [session[key] = True] and [session.pop(key, None)] *)
Definition session_set (key : string) : MS unit :=
  λ st, (Ok tt, set_flask_session ({[ key ]} ∪ flask_session st) st).
Definition session_pop (key : string) : MS unit :=
  λ st, (Ok tt, set_flask_session (flask_session st ∖ {[ key ]}) st).

(** [login_required(f)]: the function that is registered as the route *)
Definition login_required (f : MS reply) : MS reply :=
  λ st, if bool_decide ("logged_in" ∉ flask_session st)
        then sret (redirect_to "login") st
        else f st.

(** The fields of the login form, as [request.form.get] returns them. *)
Record credentials := {
  username : option string;
  password : option string
}.

(** [f"{value}"] for what [request.form.get] returned *)
Definition format_field (value : option string) : string :=
  default "None" value.

(** [/login]; [form] is the form of a POST, [None] for a GET. *)
Definition login (form : option credentials) : MS reply :=
  match form with
  | Some form =>
      let known :=
        match username form with
        | Some name =>
            match USERS !! name with
            | Some expected => bool_decide (password form = Some expected)
            | None => false
            end
        | None => false
        end in
      if known then
        session_set "logged_in";;+
        slog INFO ("User " +:+ format_field (username form) +:+ " logged in");;+
        sret (redirect_to "setup_session")
      else
        slog WARNING
          ("Failed login attempt for " +:+ format_field (username form));;+
        sret (render_template "login.html" [("error", "Invalid credentials")])
  | None => sret (render_template "login.html" [])
  end.

(** [/logout] *)
Definition logout : MS reply :=
  session_pop "logged_in";;+
  slog INFO "User logged out";;+
  sret (redirect_to "login").

(** [/setup_session], before [login_required]; [form] is the pair of
    [course_id] and [session_id] of a POST, [None] for a GET. *)
Definition setup_session (form : option (option string * option string))
  : MS reply :=
  match form with
  | Some (course_id, session_id) =>
      let valid :=
        match course_id, session_id with
        | Some c, Some s =>
            bool_decide (c ≠ "") && bool_decide (s ≠ "")
            && isalnum c && isalnum s
        | _, _ => false
        end in
      if valid then
        sret (answer (redirect "index" (format_field course_id)
                        (format_field session_id)))
      else
        slog WARNING
          ("Invalid course_id or session_id: " +:+ format_field course_id
           +:+ ", " +:+ format_field session_id);;+
        sret (render_template "setup_session.html"
                [("error", "Course ID and Session ID must be alphanumeric")])
  | None => sret (render_template "setup_session.html" [])
  end.

(** [/], before [login_required] *)
Definition index (course_id session_id : option string) : MS reply :=
  sret (render_template "index.html"
          [("course_id", default "1" course_id);
           ("session_id", default "1" session_id)]).

(** A route on the files only, as a route of the site. *)
Definition route (handler : M response) : MS reply :=
  let+ r := in_world handler in sret (answer r).

(** The requests the application has a route for, each with what the route
    reads from it and from its surroundings. *)
Inductive request :=
| Login (form : option credentials)
| Logout
| SetupSession (form : option (option string * option string))
| Index (course_id session_id : option string)
| Scan (decoded : result string)
| Search (phone_digits : option string)
| Attendance (now : datetime) (phone_number status course_id session_id : string)
| AttendanceList (course_id session_id : string)
| DownloadPresent (course_id session_id : string)
| DownloadRejected (course_id session_id : string)
| DownloadExited (course_id session_id : string)
| DownloadAbsent (course_id session_id : string)
| DownloadQr (phone_number : string)
| ResetAttendance (course_id session_id : string)
| DeleteStudent (now : datetime) (position : nat)
    (phone_number course_id session_id : string)
| AddStudent (now : datetime) (position : nat) (course_id session_id : string)
    (req : add_student_request).

(** The routes as [app.route] registers them: all but [/login] and
    [/logout] are wrapped by [login_required]. *)
Definition serve (r : request) : MS reply :=
  match r with
  | Login form => login form
  | Logout => logout
  | SetupSession form => login_required (setup_session form)
  | Index c s => login_required (index c s)
  | Scan decoded => login_required (route (scan_qr decoded))
  | Search phone_digits => login_required (route (search_student phone_digits))
  | Attendance now phone_number status c s =>
      login_required (route (update_attendance now phone_number status c s))
  | AttendanceList c s => login_required (route (attendance_list c s))
  | DownloadPresent c s => login_required (route (download_present c s))
  | DownloadRejected c s => login_required (route (download_rejected c s))
  | DownloadExited c s => login_required (route (download_exited c s))
  | DownloadAbsent c s => login_required (route (download_absent c s))
  | DownloadQr phone_number => login_required (download_qr phone_number)
  | ResetAttendance c s => login_required (route (reset_attendance c s))
  | DeleteStudent now position phone_number c s =>
      login_required (delete_student now position phone_number c s)
  | AddStudent now position c s req =>
      login_required (add_student now position c s req)
  end.

Definition protected (r : request) : bool :=
  match r with
  | Login _ | Logout => false
  | _ => true
  end.

(** The requests of one client, served one after the other. *)
Fixpoint serve_all (requests : list request) (st : Site)
  : list (result reply) * Site :=
  match requests with
  | [] => ([], st)
  | r :: rest =>
      let (a, st1) := serve r st in
      let (answers, st2) := serve_all rest st1 in
      (a :: answers, st2)
  end.

(** The one login that [USERS] lets through. *)
Definition admin_login : request :=
  Login (Some {| username := Some "admin"; password := Some "password123" |}).

(** Nothing but the log differs between two sites. *)
Definition same_site (st st' : Site) : Prop :=
  same_files (world st) (world st') ∧
  qrcodes_folder st' = qrcodes_folder st ∧
  flask_session st' = flask_session st.

(** * Properties *)

(** ** The monad and the world *)

Ltac unfold_monad :=
  unfold bind, ret, raise, lift, try_except, logger, concat_frames,
    attendance_exists,
    read_attendance_csv, to_csv, remove, listdir_attendance_sorted,
    listdir_data, read_photo in *;
  cbv zeta in *.

Lemma same_files_refl w : same_files w w.
Proof. by repeat split. Qed.

Lemma same_files_trans w1 w2 w3 :
  same_files w1 w2 → same_files w2 w3 → same_files w1 w3.
Proof. intros (?&?&?&?) (?&?&?&?). repeat split; congruence. Qed.

Lemma same_files_add_log entry w : same_files w (add_log entry w).
Proof. by repeat split. Qed.

Lemma same_files_add_log_r entry w w' :
  same_files w w' → same_files w (add_log entry w').
Proof. intros. eapply same_files_trans; [done|apply same_files_add_log]. Qed.

#[local] Hint Resolve same_files_refl same_files_add_log
  same_files_add_log_r : core.

(** ** [load_attendance] *)

(** [load_attendance], case by case on the file of the session. *)
Lemma load_attendance_run course_id session_id w :
  load_attendance course_id session_id w
  = match attendance_folder w !! attendance_file course_id session_id with
    | None => (Ok (pd.empty_frame ATTENDANCE_COLUMNS), w)
    | Some f =>
        match content f with
        | Parsed df => (Ok df, w)
        | Unparsable msg =>
            (Ok (pd.empty_frame ATTENDANCE_COLUMNS),
             add_log
               (ERROR,
                "Error loading attendance for course " +:+ course_id +:+
                ", session " +:+ session_id +:+ ": " +:+ msg) w)
        end
    end.
Proof.
  unfold load_attendance. unfold_monad.
  destruct (attendance_folder w !! _) as [f|] eqn:Hf.
  - rewrite bool_decide_true, ?Hf by eauto. unfold read_csv.
    by destruct (content f).
  - rewrite bool_decide_false; [done|]. by intros [? ?].
Qed.

(** [load_attendance] always returns a table and writes no file. *)
Lemma load_attendance_total course_id session_id w :
  ∃ w', load_attendance course_id session_id w
        = (Ok (session_records w course_id session_id), w')
        ∧ same_files w w'.
Proof.
  unfold session_records. rewrite load_attendance_run.
  destruct (attendance_folder w !! _) as [f|]; [|eauto].
  destruct (content f); eauto.
Qed.

Lemma load_attendance_pandas course_id session_id w :
  pandas (load_attendance course_id session_id w).2 = pandas w.
Proof.
  rewrite load_attendance_run.
  destruct (attendance_folder w !! _) as [f|]; [|done]. by destruct (content f).
Qed.

Lemma load_attendance_parsed course_id session_id w f df :
  attendance_folder w !! attendance_file course_id session_id = Some f →
  content f = Parsed df →
  load_attendance course_id session_id w = (Ok df, w).
Proof. intros Hf Hc. by rewrite load_attendance_run, Hf, Hc. Qed.

(** C5: when the session has no record file, [load_attendance] returns the
    empty table with the columns name, phone_number, status, timestamp; the
    call is a normal return that leaves the world, log included, as it
    was. *)
Theorem load_attendance_no_file course_id session_id w :
  attendance_folder w !! attendance_file course_id session_id = None →
  load_attendance course_id session_id w
  = (Ok {| columns := ["name"; "phone_number"; "status"; "timestamp"];
           rows := [] |}, w).
Proof. intros Hnone. by rewrite load_attendance_run, Hnone. Qed.

Lemma load_attendance_no_file_witness :
  load_attendance "1" "1" Example.school
  = (Ok {| columns := ["name"; "phone_number"; "status"; "timestamp"];
           rows := [] |}, Example.school).
Proof. apply (load_attendance_no_file "1" "1" Example.school). reflexivity. Defined.

(** ** [reset_attendance] *)

(** C6: [reset_attendance] twice in a row redirects to the attendance list
    both times, the second call changes nothing, and [load_attendance]
    after either call returns the empty table. *)
Theorem reset_attendance_idempotent course_id session_id w :
  ∃ w1,
    reset_attendance course_id session_id w
    = (Ok (redirect "attendance_list" course_id session_id), w1) ∧
    reset_attendance course_id session_id w1
    = (Ok (redirect "attendance_list" course_id session_id), w1) ∧
    load_attendance course_id session_id w1
    = (Ok (pd.empty_frame ATTENDANCE_COLUMNS), w1) ∧
    rows (session_records w1 course_id session_id) = [].
Proof.
  assert (∀ w1, attendance_folder w1 !! attendance_file course_id session_id = None →
    reset_attendance course_id session_id w1
    = (Ok (redirect "attendance_list" course_id session_id), w1)) as Hagain.
  { intros w1 Hnone. unfold reset_attendance. unfold_monad.
    rewrite bool_decide_false; [done|]. rewrite Hnone. by intros [? ?]. }
  assert (∃ w1, reset_attendance course_id session_id w
    = (Ok (redirect "attendance_list" course_id session_id), w1)
    ∧ attendance_folder w1 !! attendance_file course_id session_id = None)
    as (w1 & Hfirst & Hnone).
  { unfold reset_attendance. unfold_monad.
    destruct (bool_decide _) eqn:Hex.
    - eexists; split; [done|]. simpl. apply lookup_delete_eq.
    - eexists; split; [done|]. apply bool_decide_eq_false in Hex.
      by apply eq_None_not_Some. }
  exists w1. split_and!; auto.
  - by rewrite load_attendance_run, Hnone.
  - unfold session_records. by rewrite load_attendance_run, Hnone.
Qed.

(** ** pandas tables *)

Lemma cell_at_map cols (f : string → cell) c :
  c ∈ cols → pd.cell_at cols (map f cols) c = f c.
Proof.
  induction cols as [|k cols IH]; simpl; [by intros ?%elem_of_nil|].
  intros Hin. case_decide; [by subst|].
  apply IH. by apply elem_of_cons in Hin as [->|].
Qed.

Lemma cell_at_not_in cols row c : c ∉ cols → pd.cell_at cols row c = NaN.
Proof.
  revert row. induction cols as [|k cols IH]; intros [|v row] Hin; simpl; try done.
  apply not_elem_of_cons in Hin as [? ?]. case_decide; [by subst|auto].
Qed.

Lemma cell_at_zip cols row c :
  pd.cell_at (zip cols row).*1 (zip cols row).*2 c = pd.cell_at cols row c.
Proof.
  revert row. induction cols as [|k cols IH]; intros [|v row]; simpl; try done.
  by rewrite IH.
Qed.

Lemma reindex_row_id cols row :
  NoDup cols → length row = length cols → map (pd.cell_at cols row) cols = row.
Proof.
  intros Hnd. revert row.
  induction Hnd as [|k cols Hk Hnd IH]; intros [|v row] Hlen; simplify_eq/=; [done|].
  rewrite decide_True by done. f_equal.
  transitivity (map (pd.cell_at cols row) cols); [|by apply IH].
  apply map_ext_in. intros c Hc%list_elem_of_In.
  rewrite decide_False; [done|]. by intros ->.
Qed.

Lemma reindex_id df : aligned df → pd.reindex (columns df) df = rows df.
Proof.
  intros [Hnd Hrows]. unfold pd.reindex.
  induction Hrows as [|row l Hrow _ IH]; simpl; [done|].
  by rewrite IH, reindex_row_id.
Qed.

Lemma union_columns_nil cols : pd.union_columns [] cols = cols.
Proof.
  unfold pd.union_columns. simpl.
  induction cols as [|c cols IH]; [done|].
  rewrite filter_cons_True by apply not_elem_of_nil. by f_equal.
Qed.

Lemma union_columns_incl acc new :
  new ⊆ acc → pd.union_columns acc new = acc.
Proof.
  intros Hincl. unfold pd.union_columns.
  assert (filter (λ c, c ∉ acc) new = []) as ->; [|by rewrite app_nil_r].
  induction new as [|c new IH]; [done|].
  rewrite filter_cons_False by (intros Hnot; apply Hnot, Hincl; left).
  apply IH. intros x Hx. apply Hincl. by right.
Qed.

(** [pd.concat] of two frames. *)
Lemma concat_pair up a b :
  pd.concat up [a; b]
  = Ok (pd.show_columns up
          {| columns := pd.union_columns (columns a) (columns b);
             rows := pd.reindex (pd.union_columns (columns a) (columns b)) a ++
                     pd.reindex (pd.union_columns (columns a) (columns b)) b |}).
Proof.
  unfold pd.concat, pd.stack. simpl. rewrite union_columns_nil.
  by rewrite app_nil_r.
Qed.

Lemma getitem_identifiers df series :
  pd.getitem df "phone_number" = Ok series →
  pd.astype_str series = identifiers df.
Proof.
  unfold pd.getitem. case_decide; [|done]. intros [= <-].
  unfold pd.astype_str, identifiers, phone_of. by rewrite map_map.
Qed.

Lemma getitem_in df c : c ∈ columns df → ∃ series, pd.getitem df c = Ok series.
Proof. intros Hin. unfold pd.getitem. rewrite decide_True by done. eauto. Qed.


Lemma mask_list_map {A} (f : A → bool) (l : list A) :
  pd.mask_list l (map f l) = filter (λ x, f x) l.
Proof.
  induction l as [|x l IH]; simpl; [done|].
  destruct (f x) eqn:Hfx.
  - rewrite filter_cons_True; [by f_equal|]. by apply Is_true_true.
  - rewrite filter_cons_False; [done|]. by apply Is_true_false.
Qed.

(** ** [save_attendance] *)

(** [save_attendance], step by step, for a student record that has a name and
    a phone number and a session table that has the phone number column. *)
Lemma save_attendance_run now student status course_id session_id w w'
    attendance name phone :
  load_attendance course_id session_id w = (Ok attendance, w') →
  dict_get student "name" = Ok name →
  dict_get student "phone_number" = Ok phone →
  "phone_number" ∈ columns attendance →
  save_attendance now student status course_id session_id w
  = if decide (str phone ∈ identifiers attendance)
    then (Ok (false, DUPLICATE), w')
    else match open_for_writing ATTENDANCE_FOLDER
                 (attendance_file course_id session_id) with
         | Ok _ =>
             (Ok (true, RECORDED),
              recorded_world now name phone status course_id session_id
                attendance w')
         | Raise e =>
             (Ok (false, exn_str e),
              add_log
                (ERROR,
                 "Error saving attendance for " +:+ str name +:+ ": " +:+
                 exn_str e) w')
         end.
Proof.
  intros Hload Hname Hphone Hcol.
  destruct (getitem_in _ _ Hcol) as [series Hseries].
  unfold save_attendance. unfold_monad.
  rewrite Hload, Hphone, Hseries, (getitem_identifiers _ _ Hseries).
  case_decide as Hdup.
  - by rewrite bool_decide_true.
  - rewrite bool_decide_false by done.
    rewrite Hname, concat_pair.
    by destruct (open_for_writing _ _).
Qed.

(** A call that reports success went through every step. *)
Lemma save_attendance_inv now student status course_id session_id w w1 msg :
  save_attendance now student status course_id session_id w
  = (Ok (true, msg), w1) →
  ∃ w' name phone,
    load_attendance course_id session_id w
    = (Ok (session_records w course_id session_id), w') ∧
    same_files w w' ∧
    dict_get student "name" = Ok name ∧
    dict_get student "phone_number" = Ok phone ∧
    "phone_number" ∈ columns (session_records w course_id session_id) ∧
    str phone ∉ identifiers (session_records w course_id session_id).
Proof.
  destruct (load_attendance_total course_id session_id w) as (w' & Hload & Hsame).
  intros Hsave. exists w'.
  destruct (dict_get student "name") as [name|e1] eqn:Hname; last first.
  { exfalso. revert Hsave. unfold save_attendance. unfold_monad.
    rewrite Hload, Hname.
    destruct (dict_get student "phone_number"); [|done].
    destruct (pd.getitem _ _); [|done].
    by destruct (bool_decide _). }
  destruct (dict_get student "phone_number") as [phone|e2] eqn:Hphone; last first.
  { exfalso. revert Hsave. unfold save_attendance. unfold_monad.
    by rewrite Hload, Hphone, Hname. }
  destruct (decide ("phone_number" ∈ columns (session_records w course_id session_id)))
    as [Hcol|Hcol]; last first.
  { exfalso. revert Hsave. unfold save_attendance. unfold_monad.
    rewrite Hload, Hphone. unfold pd.getitem. rewrite decide_False by done.
    by rewrite Hname. }
  rewrite (save_attendance_run _ _ _ _ _ _ _ _ _ _ Hload Hname Hphone Hcol) in Hsave.
  case_decide; [done|]. exists name, phone. by split_and!.
Qed.

Lemma elem_of_union_columns c acc new :
  c ∈ pd.union_columns acc new ↔ c ∈ acc ∨ c ∈ new.
Proof.
  unfold pd.union_columns. rewrite elem_of_app, list_elem_of_filter.
  split.
  - intros [?|[_ ?]]; auto.
  - intros [?|?]; [by left|]. destruct (decide (c ∈ acc)); auto.
Qed.

Lemma identifiers_appended attendance name phone status now :
  identifiers (appended attendance (new_entry name phone status now))
  = identifiers attendance ++ [str phone].
Proof.
  unfold identifiers, appended. cbv zeta. cbn [columns rows].
  set (cols := pd.union_columns _ _).
  assert ("phone_number" ∈ cols) as Hin.
  { apply elem_of_union_columns. right. set_solver. }
  rewrite map_app. f_equal.
  - unfold phone_of, pd.reindex. rewrite map_map. apply map_ext. intros row.
    by rewrite cell_at_map.
  - simpl. unfold phone_of. by rewrite cell_at_map.
Qed.

Lemma recorded_world_records now name phone status course_id session_id
    attendance w :
  keeps_table w attendance (new_entry name phone status now) →
  load_attendance course_id session_id
    (recorded_world now name phone status course_id session_id attendance w)
  = (Ok (appended attendance (new_entry name phone status now)),
     recorded_world now name phone status course_id session_id attendance w).
Proof.
  intros [Hshown Hread].
  eapply load_attendance_parsed; [simpl; apply lookup_insert_eq|].
  cbn [content]. by rewrite Hshown, Hread.
Qed.

(** A call that reports success has written the file. *)
Lemma save_attendance_recorded now student status course_id session_id w w1
    msg :
  save_attendance now student status course_id session_id w
  = (Ok (true, msg), w1) →
  ∃ w' name phone,
    same_files w w' ∧ pandas w' = pandas w ∧
    dict_get student "name" = Ok name ∧
    dict_get student "phone_number" = Ok phone ∧
    "phone_number" ∈ columns (session_records w course_id session_id) ∧
    (str phone ∉ identifiers (session_records w course_id session_id)) ∧
    writable course_id session_id ∧ msg = RECORDED ∧
    w1 = recorded_world now name phone status course_id session_id
           (session_records w course_id session_id) w'.
Proof.
  intros Hsave.
  destruct (save_attendance_inv _ _ _ _ _ _ _ _ Hsave)
    as (w' & name & phone & Hload & Hsame & Hname & Hphone & Hcol & Hfresh).
  exists w', name, phone.
  rewrite (save_attendance_run _ _ _ _ _ _ _ _ _ _ Hload Hname Hphone Hcol)
    in Hsave.
  rewrite decide_False in Hsave by done. unfold writable.
  destruct (open_for_writing _ _) as [[]|e]; [|done].
  injection Hsave as <- <-. split_and!; try done.
  pose proof (load_attendance_pandas course_id session_id w) as Hp.
  by rewrite Hload in Hp.
Qed.

Lemma keeps_table_pandas w w' attendance entry :
  pandas w' = pandas w →
  keeps_table w attendance entry → keeps_table w' attendance entry.
Proof. unfold keeps_table. by intros ->. Qed.

(** C1: the second append is not refused when the file does not give the
    phone number back as it was written.  Ali's phone number is the text
    0912345678; after his entry is recorded, [pd.read_csv] reads the column
    of the session file as numbers and shows 912345678, the duplicate check
    finds no 0912345678, and a second event is written: [save_attendance]
    returns success twice for the record that [find_student] returns, so
    does [/attendance], and the session holds two events of Ali. *)
Theorem duplicate_entry_recorded :
  (find_student "0912345678" false Example.text_school).1
  = Ok (Some Example.ali) ∧
  (save_attendance (Example.at_second 1) Example.ali "entry" "1" "1"
     Example.text_school).1
  = Ok (true, "Attendance recorded successfully") ∧
  (save_attendance (Example.at_second 2) Example.ali "exit" "1" "1"
     (Example.after
        (save_attendance (Example.at_second 1) Example.ali "entry" "1" "1")
        Example.text_school)).1
  = Ok (true, "Attendance recorded successfully") ∧
  (update_attendance (Example.at_second 2) "0912345678" "exit" "1" "1"
     (Example.after
        (update_attendance (Example.at_second 1) "0912345678" "entry" "1" "1")
        Example.text_school)).1
  = Ok (json_message "Attendance recorded successfully") ∧
  pd.to_dict_records
    (session_records
       (Example.after
          (save_attendance (Example.at_second 2) Example.ali "exit" "1" "1")
          (Example.after
             (save_attendance (Example.at_second 1) Example.ali "entry" "1"
                "1")
             Example.text_school)) "1" "1")
  = [[("name", Str "Ali"); ("phone_number", Str "912345678");
      ("status", Str "entry"); ("timestamp", Str "2024-03-07 09:05:01")];
     [("name", Str "Ali"); ("phone_number", Str "912345678");
      ("status", Str "exit"); ("timestamp", Str "2024-03-07 09:05:02")]].
Proof. vm_compute. by split_and!. Qed.

(** X17: where pandas keeps the table that is written, an append that
    succeeded is remembered.  A second append to the same session for the
    same identifier, whatever its status and time, then returns the
    duplicate error and leaves the world as it was, and the session's
    records hold exactly one event with that identifier. *)
Theorem save_attendance_twice now1 now2 student1 student2 status1 status2
    course_id session_id w w1 msg name1 phone1 phone2 :
  save_attendance now1 student1 status1 course_id session_id w
  = (Ok (true, msg), w1) →
  dict_get student1 "name" = Ok name1 →
  dict_get student1 "phone_number" = Ok phone1 →
  dict_get student2 "phone_number" = Ok phone2 →
  str phone2 = str phone1 →
  keeps_table w (session_records w course_id session_id)
    (new_entry name1 phone1 status1 now1) →
  save_attendance now2 student2 status2 course_id session_id w1
  = (Ok (false, "Duplicate attendance entry for this student"), w1) ∧
  length (filter (λ p, p = str phone1)
            (identifiers (session_records w1 course_id session_id))) = 1.
Proof.
  intros Hsave Hname1 Hphone1 Hphone2 Hsame Hkeeps.
  destruct (save_attendance_recorded _ _ _ _ _ _ _ _ Hsave)
    as (w' & name & phone & _ & Hpandas & Hname & Hphone & Hcol & Hfresh
        & _ & _ & ->).
  assert (phone = phone1) as -> by congruence.
  assert (name = name1) as -> by congruence.
  set (att := session_records w course_id session_id) in *.
  set (w1 := recorded_world _ _ _ _ _ _ _ _).
  assert (load_attendance course_id session_id w1
          = (Ok (appended att (new_entry name1 phone1 status1 now1)), w1))
    as Hload1.
  { apply recorded_world_records. by apply (keeps_table_pandas w). }
  split.
  - unfold save_attendance. unfold_monad. rewrite Hload1, Hphone2.
    destruct (getitem_in (appended att (new_entry name1 phone1 status1 now1))
                "phone_number") as [series Hseries].
    { apply elem_of_union_columns. by left. }
    rewrite Hseries, (getitem_identifiers _ _ Hseries), identifiers_appended.
    rewrite bool_decide_true; [done|]. rewrite Hsame.
    apply elem_of_app. right. by apply list_elem_of_singleton.
  - unfold session_records. rewrite Hload1. simpl.
    rewrite identifiers_appended, filter_app, length_app.
    rewrite (filter_cons_True _ (str phone1) []) by done.
    assert (filter (λ p, p = str phone1) (identifiers att) = []) as ->; [|done].
    induction (identifiers att) as [|p l IH]; [done|].
    apply not_elem_of_cons in Hfresh as [? ?].
    rewrite filter_cons_False by congruence. auto.
Qed.

Lemma save_attendance_twice_witness :
  save_attendance (Example.at_second 2) Example.alice "exit" "1" "1"
    (Example.after
       (save_attendance (Example.at_second 1) Example.alice "entry" "1" "1")
       Example.school)
  = (Ok (false, "Duplicate attendance entry for this student"),
     Example.after
       (save_attendance (Example.at_second 1) Example.alice "entry" "1" "1")
       Example.school) ∧
  length (filter (λ p, p = str (Str "5551234"))
            (identifiers
               (session_records
                  (Example.after
                     (save_attendance (Example.at_second 1) Example.alice
                        "entry" "1" "1")
                     Example.school) "1" "1"))) = 1.
Proof.
  apply (save_attendance_twice (Example.at_second 1) (Example.at_second 2)
           Example.alice Example.alice "entry" "exit" "1" "1" Example.school
           (Example.after
              (save_attendance (Example.at_second 1) Example.alice "entry"
                 "1" "1") Example.school)
           "Attendance recorded successfully" (Str "Alice") (Str "5551234")
           (Str "5551234")).
  - vm_compute. reflexivity.
  - reflexivity.
  - reflexivity.
  - reflexivity.
  - reflexivity.
  - split; vm_compute; reflexivity.
Defined.


(** When the session table has the four columns of a session record, the
    table written is the table loaded with one more row. *)
Lemma appended_rows attendance entry :
  aligned attendance → entry.*1 ⊆ columns attendance →
  appended attendance entry
  = {| columns := columns attendance;
       rows := rows attendance ++
               [map (pd.cell_at entry.*1 entry.*2) (columns attendance)] |}.
Proof.
  intros Hal Hincl. unfold appended. cbv zeta.
  rewrite union_columns_incl by done. by rewrite reindex_id.
Qed.

Lemma appended_aligned attendance entry :
  aligned attendance → entry.*1 ⊆ columns attendance →
  aligned (appended attendance entry).
Proof.
  intros Hal Hincl. rewrite appended_rows by done.
  destruct Hal as [Hnd Hrows]. split; simpl; [done|].
  apply Forall_app. split; [done|].
  apply Forall_singleton. by rewrite length_map.
Qed.

(** ** Time stamps *)

Lemma is_nat_digit n : Ascii.is_nat (digit n) = Some (n `mod` 10).
Proof.
  unfold digit. assert (n `mod` 10 < 10) as Hlt by (apply Nat.mod_upper_bound; lia).
  revert Hlt. generalize (n `mod` 10). intros m Hlt.
  do 10 (destruct m as [|m]; [reflexivity|]). lia.
Qed.

Lemma read_digit_digit a n :
  read_digit (Some a) (digit n) = Some (10 * a + n `mod` 10).
Proof. unfold read_digit. cbn [mbind option_bind]. by rewrite is_nat_digit. Qed.

Lemma read_dec2 n : n < 100 → read_digits (dec2 n) = Some n.
Proof.
  intros Hn. unfold read_digits, dec2. cbn [foldl].
  rewrite !read_digit_digit. f_equal.
  pose proof (Nat.div_mod_eq n 10).
  rewrite (Nat.mod_small (n `div` 10) 10) by (apply Nat.Div0.div_lt_upper_bound; lia).
  lia.
Qed.

Lemma read_dec4 n : n < 10 * 10 * 10 * 10 → read_digits (dec4 n) = Some n.
Proof.
  intros Hn. unfold read_digits, dec4. cbn [foldl].
  rewrite !read_digit_digit. f_equal.
  replace (n `div` 100) with ((n `div` 10) `div` 10)
    by (rewrite Nat.Div0.div_div; done).
  replace (n `div` 1000) with (((n `div` 10) `div` 10) `div` 10)
    by (rewrite !Nat.Div0.div_div; done).
  set (a := n `div` 10). set (b := a `div` 10). set (c := b `div` 10).
  pose proof (Nat.div_mod_eq n 10) as Hn10.
  pose proof (Nat.div_mod_eq a 10) as Ha10.
  pose proof (Nat.div_mod_eq b 10) as Hb10.
  assert (c < 10) as Hc.
  { unfold c, b, a. repeat apply Nat.Div0.div_lt_upper_bound. lia. }
  rewrite (Nat.mod_small c 10) by done.
  fold a in Hn10. fold b in Ha10. fold c in Hb10. lia.
Qed.

(** The time stamp text has the shape YYYY-MM-DD HH:MM:SS: reading it back
    field by field gives the time it was made from. *)
Lemma strptime_strftime t : datetime_valid t → strptime (strftime t) = Some t.
Proof.
  intros ([? ?] & [? ?] & [? ?] & ? & ? & ?).
  unfold strptime, strftime, Py.chars, Py.of_chars.
  rewrite String.list_ascii_of_string_of_list_ascii.
  cbn [app dec2 dec4]. unfold is_char. rewrite !decide_True by done.
  cbn [mbind option_bind].
  change [digit (year t `div` 1000); digit (year t `div` 100);
          digit (year t `div` 10); digit (year t)] with (dec4 (year t)).
  repeat match goal with
         | |- context [[digit (?n `div` 10); digit ?n]] =>
             change [digit (n `div` 10); digit n] with (dec2 n)
         end.
  rewrite read_dec4, !read_dec2 by lia. cbn [option_bind]. by destruct t.
Qed.

(** ** Recording an event *)

(** C10: the event that is appended does not carry the phone number that
    was given when the file does not give it back as it was written.  Ali's
    phone number is the text 0912345678; his entry is appended to a session
    that has no event yet, the call succeeds, and the one event of the
    session shows the phone number 912345678. *)
Theorem appended_event_differs :
  dict_get Example.ali "phone_number" = Ok (Str "0912345678") ∧
  (save_attendance (Example.at_second 1) Example.ali "entry" "1" "1"
     Example.text_school).1
  = Ok (true, "Attendance recorded successfully") ∧
  identifiers
    (session_records
       (Example.after
          (save_attendance (Example.at_second 1) Example.ali "entry" "1" "1")
          Example.text_school) "1" "1")
  = ["912345678"].
Proof. vm_compute. by split_and!. Qed.

(** X18: where the file of the session can be written and pandas keeps the
    table that is written, an append that is not a duplicate succeeds; the
    session's records afterwards are the records before, unchanged and in
    their order, followed by one new record that carries the student's name
    and phone number, the given status and the current time as YYYY-MM-DD
    HH:MM:SS; no other file changes. *)
Theorem save_attendance_appends now student status course_id session_id w
    name phone :
  aligned (session_records w course_id session_id) →
  ATTENDANCE_COLUMNS ⊆ columns (session_records w course_id session_id) →
  dict_get student "name" = Ok name →
  dict_get student "phone_number" = Ok phone →
  str phone ∉ identifiers (session_records w course_id session_id) →
  datetime_valid now →
  writable course_id session_id →
  keeps_table w (session_records w course_id session_id)
    (new_entry name phone status now) →
  ∃ w1 row text,
    save_attendance now student status course_id session_id w
    = (Ok (true, "Attendance recorded successfully"), w1) ∧
    session_records w1 course_id session_id
    = {| columns := columns (session_records w course_id session_id);
         rows := rows (session_records w course_id session_id) ++ [row] |} ∧
    pd.cell_at (columns (session_records w course_id session_id)) row "name"
    = name ∧
    pd.cell_at (columns (session_records w course_id session_id)) row
      "phone_number" = phone ∧
    pd.cell_at (columns (session_records w course_id session_id)) row "status"
    = Str status ∧
    pd.cell_at (columns (session_records w course_id session_id)) row
      "timestamp" = Str text ∧
    strptime text = Some now ∧
    (∀ other, other ≠ attendance_file course_id session_id →
              attendance_folder w1 !! other = attendance_folder w !! other) ∧
    data_folder w1 = data_folder w ∧ photos_folder w1 = photos_folder w.
Proof.
  intros Hal Hcols Hname Hphone Hfresh Hnow Hwritable Hkeeps.
  destruct (load_attendance_total course_id session_id w)
    as (w' & Hload & Hdata & Hatt & Hphotos & Hpandas).
  set (att := session_records w course_id session_id) in *.
  assert ("phone_number" ∈ columns att) as Hcol by (apply Hcols; set_solver).
  eexists _, (map (pd.cell_at (new_entry name phone status now).*1
                     (new_entry name phone status now).*2) (columns att)),
    (strftime now).
  split_and!.
  - rewrite (save_attendance_run _ _ _ _ _ _ _ _ _ _ Hload Hname Hphone Hcol).
    rewrite decide_False by done. unfold writable in Hwritable.
    by rewrite Hwritable.
  - unfold session_records.
    rewrite recorded_world_records by by apply (keeps_table_pandas w).
    simpl. by apply appended_rows.
  - rewrite cell_at_map; [done|]. apply Hcols. set_solver.
  - by rewrite cell_at_map.
  - rewrite cell_at_map; [done|]. apply Hcols. set_solver.
  - rewrite cell_at_map; [done|]. apply Hcols. set_solver.
  - by apply strptime_strftime.
  - intros other Hother. simpl. rewrite lookup_insert_ne by done. by rewrite Hatt.
  - done.
  - done.
Qed.

Lemma save_attendance_appends_witness :
  ∃ w1 row text,
    save_attendance (Example.at_second 5) Example.bob "entry" "1" "1"
      Example.alice_rejected
    = (Ok (true, "Attendance recorded successfully"), w1) ∧
    session_records w1 "1" "1"
    = {| columns := columns (session_records Example.alice_rejected "1" "1");
         rows := rows (session_records Example.alice_rejected "1" "1")
                 ++ [row] |} ∧
    pd.cell_at (columns (session_records Example.alice_rejected "1" "1")) row
      "name" = Str "Bob" ∧
    pd.cell_at (columns (session_records Example.alice_rejected "1" "1")) row
      "phone_number" = Str "5555678" ∧
    pd.cell_at (columns (session_records Example.alice_rejected "1" "1")) row
      "status" = Str "entry" ∧
    pd.cell_at (columns (session_records Example.alice_rejected "1" "1")) row
      "timestamp" = Str text ∧
    strptime text = Some (Example.at_second 5) ∧
    (∀ other, other ≠ attendance_file "1" "1" →
              attendance_folder w1 !! other
              = attendance_folder Example.alice_rejected !! other) ∧
    data_folder w1 = data_folder Example.alice_rejected ∧
    photos_folder w1 = photos_folder Example.alice_rejected.
Proof.
  apply (save_attendance_appends (Example.at_second 5) Example.bob "entry"
           "1" "1" Example.alice_rejected (Str "Bob") (Str "5555678")).
  - split; [|by repeat constructor].
    apply (bool_decide_unpack (NoDup _)). vm_compute. exact I.
  - apply (bool_decide_unpack (_ ⊆ _)). vm_compute. exact I.
  - reflexivity.
  - reflexivity.
  - apply (bool_decide_unpack (_ ∉ _)). vm_compute. exact I.
  - unfold datetime_valid. simpl. lia.
  - reflexivity.
  - split; vm_compute; reflexivity.
Defined.





(** ** [load_csv_files] *)

Lemma add_logs_nil w : add_logs [] w = w.
Proof. destruct w. unfold add_logs. simpl. by rewrite app_nil_r. Qed.

Lemma add_logs_app l1 l2 w : add_logs l2 (add_logs l1 w) = add_logs (l1 ++ l2) w.
Proof. unfold add_logs. simpl. by rewrite app_assoc. Qed.

Lemma same_files_add_logs l w : same_files w (add_logs l w).
Proof. by repeat split. Qed.

Lemma select_required df :
  has_required_columns df = true →
  pd.select df CSV_COLUMNS
  = Ok {| columns := CSV_COLUMNS; rows := pd.reindex CSV_COLUMNS df |}.
Proof.
  unfold has_required_columns, CSV_COLUMNS. simpl.
  intros (H1 & (H2 & (H3 & _)%andb_prop)%andb_prop)%andb_prop.
  apply bool_decide_eq_true in H1, H2, H3.
  unfold pd.select. simpl. by rewrite !decide_False by auto.
Qed.

(** One pass of the loop of [load_csv_files]. *)
Lemma load_csv_file_spec students entry w :
  load_csv_file students entry w
  = (Ok (students ++ roster_frames entry), add_logs (roster_log entry) w).
Proof.
  destruct entry as [name f].
  unfold load_csv_file, roster_frames, roster_log, roster_rows. cbn [fst snd].
  fold (is_roster_file name).
  destruct (is_roster_file name); [|by rewrite app_nil_r, add_logs_nil].
  unfold_monad. unfold read_csv.
  destruct (content f) as [msg|df].
  { by rewrite app_nil_r. }
  fold (has_required_columns df).
  destruct (has_required_columns df) eqn:Hreq.
  - by rewrite select_required, add_logs_nil.
  - by rewrite app_nil_r.
Qed.

Lemma load_csv_loop_spec entries students w :
  for_each entries load_csv_file students w
  = (Ok (students ++ (entries ≫= roster_frames)),
     add_logs (entries ≫= roster_log) w).
Proof.
  revert students w. induction entries as [|entry entries IH]; intros students w.
  - simpl. unfold ret. by rewrite app_nil_r, add_logs_nil.
  - simpl. unfold bind. rewrite load_csv_file_spec, IH.
    by rewrite <- app_assoc, add_logs_app.
Qed.

Lemma roster_frames_columns entry df :
  df ∈ roster_frames entry →
  columns df = CSV_COLUMNS ∧ rows df = roster_rows entry.
Proof.
  unfold roster_frames.
  destruct (is_roster_file _); [|by intros ?%elem_of_nil].
  destruct (content _); [by intros ?%elem_of_nil|].
  destruct (has_required_columns _); [|by intros ?%elem_of_nil].
  by intros ->%list_elem_of_singleton.
Qed.

Lemma roster_rows_frames entry :
  roster_frames entry ≫= rows = roster_rows entry.
Proof.
  unfold roster_frames, roster_rows.
  destruct (is_roster_file _); [|done].
  destruct (content _); [done|].
  destruct (has_required_columns _); [|done].
  simpl. by rewrite app_nil_r.
Qed.

Lemma roster_rows_length entry row : row ∈ roster_rows entry → length row = 3.
Proof.
  unfold roster_rows.
  destruct (is_roster_file _); [|by intros ?%elem_of_nil].
  destruct (content _); [by intros ?%elem_of_nil|].
  destruct (has_required_columns _); [|by intros ?%elem_of_nil].
  by intros (? & -> & _)%list_elem_of_fmap.
Qed.

(** [pd.concat] of frames that all have the roster columns. *)
Lemma concat_roster_frames up frames :
  frames ≠ [] →
  Forall (λ df, columns df = CSV_COLUMNS ∧
                Forall (λ row, length row = 3) (rows df)) frames →
  pd.concat up frames
  = Ok (pd.show_columns up
          {| columns := CSV_COLUMNS; rows := frames ≫= rows |}).
Proof.
  intros Hne Hall. unfold pd.concat, pd.stack.
  destruct frames as [|df frames]; [done|]. clear Hne.
  assert (foldl pd.union_columns [] (columns <$> df :: frames) = CSV_COLUMNS)
    as ->.
  { simpl. rewrite union_columns_nil.
    apply Forall_cons in Hall as [[-> _] Hall].
    induction Hall as [|df' frames' [Hc _] _ IH]; simpl; [done|].
    rewrite Hc, union_columns_incl by done. apply IH. }
  do 3 f_equal.
  induction Hall as [|df' frames' [Hc Hrows] _ IH]; [done|].
  cbn [mbind list_bind]. change (mbind ?f ?l) with (l ≫= f) in *.
  rewrite IH. f_equal.
  rewrite <- Hc. apply reindex_id. split.
  - rewrite Hc. apply (bool_decide_unpack (NoDup _)). vm_compute. exact I.
  - by rewrite Hc.
Qed.

Lemma roster_frames_rows entries :
  (entries ≫= roster_frames) ≫= rows = entries ≫= roster_rows.
Proof.
  induction entries as [|entry entries IH]; [done|].
  cbn [mbind list_bind]. change (mbind ?f ?l) with (l ≫= f) in *.
  by rewrite bind_app, IH, roster_rows_frames.
Qed.

Lemma roster_frames_shape entries :
  Forall (λ df, columns df = CSV_COLUMNS ∧
                Forall (λ row, length row = 3) (rows df))
    (entries ≫= roster_frames).
Proof.
  apply Forall_forall. intros df (entry & Hdf & _)%list_elem_of_bind.
  apply roster_frames_columns in Hdf as [Hc Hr]. split; [done|].
  rewrite Hr. apply Forall_forall. intros row. apply roster_rows_length.
Qed.

(** [load_csv_files], case by case on the listing of the data folder. *)
Lemma load_csv_files_run w :
  load_csv_files w
  = match data_folder w with
    | Some entries =>
        (Ok (pd.show_columns (upcast (pandas w)) (roster_table entries)),
         add_logs (entries ≫= roster_log) w)
    | None =>
        (Ok (pd.empty_frame CSV_COLUMNS),
         add_log
           (ERROR, "Error loading CSV files: cannot list the data folder") w)
    end.
Proof.
  unfold load_csv_files. unfold_monad.
  destruct (data_folder w) as [entries|]; [|done].
  rewrite load_csv_loop_spec. cbn [app]. unfold roster_table.
  rewrite <- roster_frames_rows.
  destruct (entries ≫= roster_frames) as [|df frames] eqn:Hframes; [done|].
  rewrite concat_roster_frames;
    [done|done|rewrite <- Hframes; apply roster_frames_shape].
Qed.

(** C7, as worded, fails: a roster file whose columns are photo, name,
    phone_number comes out with the columns name, phone_number, photo. *)
Lemma roster_columns_reordered : ¬ no_column_reordering.
Proof.
  intros Hclaim.
  specialize (Hclaim Example.shuffled_school "students_1.csv"
                {| mtime := Example.at_second 0;
                   content := Parsed Example.shuffled |} Example.shuffled).
  assert (columns (roster Example.shuffled_school)
          ≠ columns Example.shuffled) as Hne.
  { vm_compute. intros Heq. discriminate Heq. }
  apply Hne, Hclaim; try reflexivity.
  apply (bool_decide_unpack (_ ≡ₚ _)). vm_compute. exact I.
Qed.

(** C7, amended: [load_csv_files] never fails.  Its table has the columns
    name, phone_number, photo in this order, whatever the order and the
    number of the columns of the files.  When the data folder can be listed,
    the rows are those of the roster files that parse and have the three
    columns, file after file in listing order and row after row in file
    order, with the cells as pandas shows them after the concatenation, and
    every roster file that lacks a required column is left out with a
    warning in the log.  When the folder cannot be listed, the table is
    empty.  No file is touched. *)
Theorem load_csv_files_spec w :
  ∃ df w',
    load_csv_files w = (Ok df, w') ∧
    same_files w w' ∧
    columns df = ["name"; "phone_number"; "photo"] ∧
    match data_folder w with
    | Some entries =>
        df = pd.show_columns (upcast (pandas w))
               {| columns := CSV_COLUMNS; rows := entries ≫= roster_rows |} ∧
        length (rows df) = length (entries ≫= roster_rows) ∧
        (pd.show_columns (upcast (pandas w))
           {| columns := CSV_COLUMNS; rows := entries ≫= roster_rows |}
         = {| columns := CSV_COLUMNS; rows := entries ≫= roster_rows |} →
         rows df = entries ≫= roster_rows) ∧
        ∀ entry, entry ∈ entries → lacks_columns entry = true →
                 roster_rows entry = [] ∧
                 (WARNING,
                  "Skipping " +:+ entry.1 +:+ ": Missing required columns")
                 ∈ log w'
    | None => rows df = []
    end.
Proof.
  rewrite load_csv_files_run.
  destruct (data_folder w) as [entries|]; [|by eexists _, _].
  eexists _, _.
  split_and!; [done|apply same_files_add_logs|done|done| | |].
  { cbn [pd.show_columns rows roster_table]. by rewrite length_map. }
  { unfold roster_table. by intros ->. }
  intros entry Hin Hlacks. unfold lacks_columns in Hlacks.
  apply andb_prop in Hlacks as [Hname Hlacks].
  assert (roster_rows entry = [] ∧
          (WARNING, "Skipping " +:+ entry.1 +:+ ": Missing required columns")
          ∈ roster_log entry) as [Hrows Hlog].
  { unfold roster_rows, roster_log. rewrite Hname.
    destruct (content entry.2); [done|].
    apply negb_true_iff in Hlacks. rewrite Hlacks. split; [done|]. by left. }
  split; [done|]. cbn [log add_logs].
  apply elem_of_app. right. apply list_elem_of_bind. eauto.
Qed.

(** What [load_csv_files] returns is the table [roster]. *)
Lemma load_csv_files_roster w :
  ∃ w', load_csv_files w = (Ok (roster w), w') ∧ same_files w w'.
Proof.
  unfold roster. rewrite load_csv_files_run.
  destruct (data_folder w); eexists; (split; [done|]); auto.
  apply same_files_add_logs.
Qed.

Lemma roster_columns w : columns (roster w) = CSV_COLUMNS.
Proof.
  unfold roster. rewrite load_csv_files_run. by destruct (data_folder w).
Qed.

(** ** [find_student] *)

Lemma filter_list_find {A} (P : A → Prop) `{!∀ x, Decision (P x)} (l : list A) :
  head (filter P l) = snd <$> list_find P l.
Proof.
  induction l as [|x l IH]; [done|]. simpl.
  destruct (decide (P x)).
  - by rewrite filter_cons_True.
  - rewrite filter_cons_False by done. rewrite IH.
    by destruct (list_find P l) as [[? ?]|].
Qed.

(** [find_student], step by step: the first row of the roster that matches,
    as a record. *)
Lemma find_student_run phone_number partial w :
  ∃ w',
    find_student phone_number partial w
    = (Ok (zip CSV_COLUMNS <$>
             head (filter (λ row, matches phone_number partial row)
                     (rows (roster w)))), w') ∧
    same_files w w'.
Proof.
  destruct (load_csv_files_roster w) as (w' & Hload & Hsame).
  exists w'. split; [|done].
  unfold find_student. unfold_monad. rewrite Hload.
  unfold pd.getitem. rewrite roster_columns.
  rewrite decide_True by set_solver.
  assert (∀ f : string → bool,
    pd.mask_list (rows (roster w))
      (map f (pd.astype_str
                (map (λ row, pd.cell_at CSV_COLUMNS row "phone_number")
                   (rows (roster w)))))
    = filter (λ row, f (phone_of CSV_COLUMNS row)) (rows (roster w))) as Hmask.
  { intros f. unfold pd.astype_str. rewrite !map_map.
    by rewrite (mask_list_map (λ row, f (phone_of CSV_COLUMNS row))). }
  unfold matches, pd.empty, pd.iloc0, pd.boolean_index.
  destruct partial; cbn [rows columns]; rewrite Hmask, roster_columns;
    by destruct (filter _ _).
Qed.

(** C8: [find_student], in exact and in partial mode, returns without an
    exception; when some roster row matches the identifier it returns the
    first such row in the order of the roster, and when no row matches it
    returns [None]. *)
Theorem find_student_first_match phone_number partial w :
  ∃ r w',
    find_student phone_number partial w = (Ok r, w') ∧
    same_files w w' ∧
    match r with
    | Some student =>
        ∃ i row,
          rows (roster w) !! i = Some row ∧
          matches phone_number partial row = true ∧
          (∀ j earlier_row,
             rows (roster w) !! j = Some earlier_row → j < i →
             matches phone_number partial earlier_row = false) ∧
          student = zip ["name"; "phone_number"; "photo"] row
    | None =>
        ∀ row, row ∈ rows (roster w) → matches phone_number partial row = false
    end.
Proof.
  destruct (find_student_run phone_number partial w) as (w' & Hrun & Hsame).
  eexists _, w'. split_and!; [done..|].
  rewrite filter_list_find.
  destruct (list_find _ _) as [[i row]|] eqn:Hfind; simpl.
  - apply list_find_Some in Hfind as (Hi & Hrow & Hbefore).
    exists i, row. split_and!; [done|by apply Is_true_true|..|done].
    intros j row' Hj Hlt. specialize (Hbefore j row' Hj Hlt).
    by apply Is_true_false.
  - apply list_find_None in Hfind. rewrite Forall_forall in Hfind.
    intros row Hin. apply Is_true_false. by apply Hfind.
Qed.

Lemma found_iff phone_number partial w :
  found phone_number partial w ↔
  ∃ row, row ∈ rows (roster w) ∧ matches phone_number partial row = true.
Proof.
  unfold found.
  destruct (find_student_run phone_number partial w) as (w' & -> & _). simpl.
  destruct (filter _ _) as [|row l] eqn:Hfilter; simpl.
  - split; [by intros [? [=]]|]. intros (row & Hin & Hrow).
    assert (row ∈ filter (λ row, matches phone_number partial row)
                     (rows (roster w))) as Hf.
    { apply list_elem_of_filter. split; [by apply Is_true_true|done]. }
    rewrite Hfilter in Hf. by apply elem_of_nil in Hf.
  - split; [intros _|by eauto].
    assert (row ∈ filter (λ row, matches phone_number partial row)
                     (rows (roster w))) as Hf by (rewrite Hfilter; left).
    apply list_elem_of_filter in Hf as [Hrow Hin].
    exists row. split; [done|]. by apply Is_true_true.
Qed.

Lemma last_chars_all n s : Py.len s ≤ n → Py.last_chars n s = s.
Proof.
  intros Hlen. unfold Py.last_chars.
  replace (Py.len s - n) with 0 by lia. simpl.
  apply String.string_of_list_ascii_of_string.
Qed.

Lemma search_student_invalid digits w :
  Py.len digits < 4 ∨ Py.isdigit digits = false →
  search_student (Some digits) w
  = (Ok (json_error "At least 4 digits required"),
     add_log (WARNING, "Invalid phone digits: " +:+ digits) w).
Proof.
  intros Hbad. unfold search_student. unfold_monad.
  assert (bool_decide (digits ≠ "") && (4 <=? Py.len digits)
          && Py.isdigit digits = false) as ->; [|done].
  destruct Hbad as [Hlen| ->]; [|by rewrite andb_false_r].
  apply Nat.leb_gt in Hlen. rewrite Hlen. by rewrite andb_false_r.
Qed.

Lemma search_student_not_found digits w :
  4 ≤ Py.len digits → Py.isdigit digits = true → ¬ found digits true w →
  ∃ w',
    search_student (Some digits) w = (Ok (json_error "Student not found"), w') ∧
    same_files w w'.
Proof.
  intros Hlen Hdigit Hnot.
  destruct (find_student_run digits true w) as (w' & Hrun & Hsame).
  unfold found in Hnot. rewrite Hrun in Hnot.
  unfold search_student. unfold_monad.
  rewrite bool_decide_true by (intros ->; vm_compute in Hlen; lia).
  rewrite (proj2 (Nat.leb_le _ _) Hlen), Hdigit. cbn [andb]. rewrite Hrun.
  destruct (head _) as [row|]; [exfalso; apply Hnot; by eexists|].
  eexists. split; [done|]. by apply same_files_add_log_r.
Qed.

(** C3, as worded, fails: the input 991234 finds the student whose phone
    number is 5551234, which does not end with 991234. *)
Lemma partial_lookup_uses_last_four : ¬ partial_lookup_by_full_input.
Proof.
  intros Hclaim.
  destruct (Hclaim Example.school "991234") as [Hfound _];
    [vm_compute; lia|reflexivity|].
  destruct Hfound as (phone & Hin & Hends).
  { eexists. vm_compute. reflexivity. }
  vm_compute in Hin.
  apply elem_of_cons in Hin as [->|Hin]; [vm_compute in Hends; discriminate|].
  apply elem_of_cons in Hin as [->|Hin]; [vm_compute in Hends; discriminate|].
  by apply elem_of_nil in Hin.
Qed.

(** C3, amended: in partial mode the lookup succeeds exactly when some roster
    phone number, as text, ends with the last four characters of the input,
    which for an input of four characters is the whole input; an input of
    fewer than four characters or with a character that [str.isdigit] does
    not take for a digit is turned down before the roster is read, and an
    input of at least four such digits that matches no roster phone number
    is answered with "Student not found". *)
Theorem partial_lookup_last_four w digits :
  (found digits true w ↔
   ∃ phone, phone ∈ identifiers (roster w) ∧
            Py.endswith phone (Py.last_chars 4 digits) = true) ∧
  (Py.len digits = 4 → Py.last_chars 4 digits = digits) ∧
  (Py.len digits < 4 ∨ Py.isdigit digits = false →
   search_student (Some digits) w
   = (Ok (json_error "At least 4 digits required"),
      add_log (WARNING, "Invalid phone digits: " +:+ digits) w)) ∧
  (4 ≤ Py.len digits → Py.isdigit digits = true → ¬ found digits true w →
   ∃ w',
     search_student (Some digits) w
     = (Ok (json_error "Student not found"), w') ∧
     same_files w w').
Proof.
  split_and!; [| | |apply search_student_not_found].
  - rewrite found_iff. unfold identifiers. rewrite roster_columns.
    split.
    + intros (row & Hin & Hrow). exists (phone_of CSV_COLUMNS row).
      split; [|done]. apply list_elem_of_fmap. eauto.
    + intros (phone & (row & -> & Hin)%list_elem_of_fmap & Hends). eauto.
  - intros Hlen. apply last_chars_all. lia.
  - apply search_student_invalid.
Qed.

(** ** The derived views *)

Lemma load_csv_files_same w w' :
  same_files w w' → roster w' = roster w.
Proof.
  intros (Hdata & _ & _ & Hpandas). unfold roster.
  rewrite !load_csv_files_run, Hdata, Hpandas. by destruct (data_folder w).
Qed.

Lemma with_status_run attendance value :
  "status" ∈ columns attendance →
  with_status attendance value
  = Ok {| columns := columns attendance;
          rows := rows_with_status attendance value |}.
Proof.
  intros Hcol. unfold with_status, pd.getitem. rewrite decide_True by done.
  simpl. unfold pd.boolean_index. do 2 f_equal.
  rewrite map_map.
  rewrite (mask_list_map
             (λ row, bool_decide (pd.cell_at (columns attendance) row "status"
                                  = Str value))).
  apply list_filter_iff. intros row. apply bool_decide_spec.
Qed.

Lemma not_in_run all_students present_phones :
  "phone_number" ∈ columns all_students →
  not_in all_students present_phones
  = Ok {| columns := columns all_students;
          rows := rows_without all_students present_phones |}.
Proof.
  intros Hcol. unfold not_in, pd.getitem. rewrite decide_True by done.
  simpl. unfold pd.boolean_index, pd.astype_str. do 2 f_equal.
  rewrite !map_map.
  rewrite (mask_list_map
             (λ row, negb (bool_decide
                             (phone_of (columns all_students) row
                              ∈ present_phones)))).
  apply list_filter_iff. intros row.
  rewrite negb_True. by rewrite bool_decide_spec.
Qed.

Lemma ids_records cols rws :
  ids (map (zip cols) rws) = map (phone_of cols) rws.
Proof.
  unfold ids. rewrite map_map. apply map_ext. intros row.
  unfold identifier, phone_of. by rewrite cell_at_zip.
Qed.

(** Rows picked by exclusive tests out of a table without a repeated
    identifier have no identifier in common. *)
Lemma disjoint_filter {A} (f : A → string) (P Q : A → Prop)
    `{!∀ x, Decision (P x)} `{!∀ x, Decision (Q x)} (l : list A) :
  NoDup (map f l) → (∀ x, P x → Q x → False) →
  disjoint_ids (map f (filter P l)) (map f (filter Q l)).
Proof.
  intros Hnd Hex id (x & -> & [HP Hx]%list_elem_of_filter)%list_elem_of_fmap
    (y & Hxy & [HQ Hy]%list_elem_of_filter)%list_elem_of_fmap.
  assert (x = y) as ->; [|eauto].
  apply list_elem_of_lookup in Hx as [i Hi], Hy as [j Hj].
  assert (i = j) as ->; [|congruence].
  eapply NoDup_lookup; [done|..].
  - by rewrite list_lookup_fmap, Hi.
  - by rewrite list_lookup_fmap, Hj, Hxy.
Qed.

(** [attendance_list], step by step, for a session table that has the status
    and phone number columns. *)
Lemma attendance_list_run course_id session_id w :
  "status" ∈ columns (session_records w course_id session_id) →
  "phone_number" ∈ columns (session_records w course_id session_id) →
  ∃ w',
    attendance_list course_id session_id w
    = (Ok (render_attendance_list
             (records_with_status (session_records w course_id session_id)
                "entry")
             (records_with_status (session_records w course_id session_id)
                "reject")
             (records_with_status (session_records w course_id session_id)
                "exit")
             (map (zip (columns (roster w)))
                (rows_without (roster w)
                   (map (phone_of
                           (columns (session_records w course_id session_id)))
                      (rows_with_status
                         (session_records w course_id session_id) "entry"))))
             course_id session_id), w') ∧
    same_files w w'.
Proof.
  intros Hstatus Hphone.
  destruct (load_attendance_total course_id session_id w)
    as (w1 & Hload & Hsame1).
  destruct (load_csv_files_roster w1) as (w2 & Hroster & Hsame2).
  rewrite (load_csv_files_same _ _ Hsame1) in Hroster.
  exists w2. split; [|by eapply same_files_trans].
  unfold attendance_list. unfold_monad.
  rewrite Hload, !with_status_run by done. simpl. rewrite Hroster.
  unfold pd.getitem at 1. cbn [columns rows]. rewrite decide_True by done.
  rewrite not_in_run by (rewrite roster_columns; set_solver).
  simpl. unfold pd.to_dict_records, records_with_status, pd.astype_str.
  cbn [columns rows]. unfold phone_of. by rewrite map_map.
Qed.

Lemma session_records_same course_id session_id w w' :
  same_files w w' →
  session_records w' course_id session_id
  = session_records w course_id session_id.
Proof.
  intros (_ & Hatt & _). unfold session_records.
  rewrite !load_attendance_run, Hatt.
  destruct (attendance_folder w !! _) as [f|]; [|done]. by destruct (content f).
Qed.

(** [download_absent], step by step: the same absent rows as in
    [attendance_list], reduced to name and phone number. *)
Lemma download_absent_run course_id session_id w :
  "status" ∈ columns (session_records w course_id session_id) →
  "phone_number" ∈ columns (session_records w course_id session_id) →
  ∃ w',
    download_absent course_id session_id w
    = (Ok (send_file
             {| columns := ["name"; "phone_number"];
                rows :=
                  map (λ row, [pd.cell_at (columns (roster w)) row "name";
                               pd.cell_at (columns (roster w)) row
                                 "phone_number"])
                    (rows_without (roster w)
                       (map (phone_of
                               (columns
                                  (session_records w course_id session_id)))
                          (rows_with_status
                             (session_records w course_id session_id)
                             "entry"))) |}
             ("absent_students_course_" +:+ course_id +:+ "_session_" +:+
              session_id +:+ ".csv")), w') ∧
    same_files w w'.
Proof.
  intros Hstatus Hphone.
  destruct (load_csv_files_roster w) as (w1 & Hroster & Hsame1).
  destruct (load_attendance_total course_id session_id w1)
    as (w2 & Hload & Hsame2).
  rewrite (session_records_same _ _ _ _ Hsame1) in Hload.
  eexists. split; [|apply same_files_add_log_r; by eapply same_files_trans].
  unfold download_absent. unfold_monad.
  rewrite Hroster, Hload, with_status_run by done. cbn [rbind].
  unfold pd.getitem at 1. cbn [columns rows]. rewrite decide_True by done.
  rewrite not_in_run by (rewrite roster_columns; set_solver).
  cbn [rbind]. unfold pd.select, pd.reindex. cbn [columns rows].
  rewrite roster_columns. cbn [list_find]. rewrite !decide_False; [|set_solver..].
  cbn [fmap option_fmap option_map]. unfold pd.astype_str, phone_of.
  by rewrite map_map.
Qed.

(** C2, as worded, fails: a student of the roster who was rejected is in the
    rejected view and in the absent view. *)
Lemma rejected_student_is_absent : ¬ views_partition_roster.
Proof.
  intros Hclaim.
  assert (∃ present rejected exited absent w',
    attendance_list "1" "1" Example.alice_rejected
    = (Ok (render_attendance_list present rejected exited absent "1" "1"), w')
    ∧ "5551234" ∈ ids rejected ∧ "5551234" ∈ ids absent)
    as (present & rejected & exited & absent & w' & Hrun & Hrej & Habs).
  { eexists _, _, _, _, _. split; [vm_compute; reflexivity|].
    split; apply (bool_decide_unpack (_ ∈ _)); vm_compute; exact I. }
  destruct (Hclaim _ _ _ _ _ _ _ _ Hrun) as [(_ & _ & _ & _ & Hdisj & _) _].
  exact (Hdisj _ Hrej Habs).
Qed.

(** C2, amended: [attendance_list] builds present, rejected and exited as the
    session records with status entry, reject and exit, in record order,
    and absent as the roster rows whose identifier is not among the present
    identifiers.  So absent and present share no identifier, every roster
    identifier is in present or in absent, hence the union of the four
    views restricted to the roster is the whole roster, and absent holds
    roster identifiers only.  When no identifier is recorded twice in the
    session, present, rejected and exited are pairwise disjoint. *)
Theorem attendance_list_views course_id session_id w :
  "status" ∈ columns (session_records w course_id session_id) →
  "phone_number" ∈ columns (session_records w course_id session_id) →
  ∃ present rejected exited absent w',
    attendance_list course_id session_id w
    = (Ok (render_attendance_list present rejected exited absent
             course_id session_id), w') ∧
    present
    = records_with_status (session_records w course_id session_id) "entry" ∧
    rejected
    = records_with_status (session_records w course_id session_id) "reject" ∧
    exited
    = records_with_status (session_records w course_id session_id) "exit" ∧
    absent
    = map (zip (columns (roster w))) (rows_without (roster w) (ids present)) ∧
    disjoint_ids (ids present) (ids absent) ∧
    (∀ id, id ∈ identifiers (roster w) → id ∈ ids present ∨ id ∈ ids absent) ∧
    (∀ id, id ∈ ids absent → id ∈ identifiers (roster w)) ∧
    (NoDup (identifiers (session_records w course_id session_id)) →
     disjoint_ids (ids present) (ids rejected) ∧
     disjoint_ids (ids present) (ids exited) ∧
     disjoint_ids (ids rejected) (ids exited)).
Proof.
  intros Hstatus Hphone.
  destruct (attendance_list_run _ _ _ Hstatus Hphone) as (w' & Hrun & _).
  set (att := session_records w course_id session_id) in *.
  eexists _, _, _, _, w'. split; [exact Hrun|].
  assert (ids (records_with_status att "entry")
          = map (phone_of (columns att)) (rows_with_status att "entry")) as Hids
    by apply ids_records.
  rewrite Hids. split_and!; try done.
  - rewrite ids_records. intros id Hpresent
      (row & -> & [Hrow _]%list_elem_of_filter)%list_elem_of_fmap. done.
  - rewrite ids_records. intros id (row & -> & Hin)%list_elem_of_fmap.
    destruct (decide (phone_of (columns (roster w)) row
                      ∈ map (phone_of (columns att))
                          (rows_with_status att "entry"))) as [Hp|Hp];
      [by left|right].
    apply list_elem_of_fmap. exists row. split; [done|].
    by apply list_elem_of_filter.
  - rewrite ids_records.
    intros id (row & -> & [_ Hin]%list_elem_of_filter)%list_elem_of_fmap.
    apply list_elem_of_fmap. eauto.
  - intros Hnd. unfold records_with_status. rewrite !ids_records.
    unfold rows_with_status.
    split_and!; apply disjoint_filter; try done; intros row; congruence.
Qed.

Lemma attendance_list_views_witness :
  ∃ present rejected exited absent w',
    attendance_list "1" "1" Example.alice_rejected
    = (Ok (render_attendance_list present rejected exited absent "1" "1"), w') ∧
    present
    = records_with_status (session_records Example.alice_rejected "1" "1")
        "entry" ∧
    rejected
    = records_with_status (session_records Example.alice_rejected "1" "1")
        "reject" ∧
    exited
    = records_with_status (session_records Example.alice_rejected "1" "1")
        "exit" ∧
    absent
    = map (zip (columns (roster Example.alice_rejected)))
        (rows_without (roster Example.alice_rejected) (ids present)) ∧
    disjoint_ids (ids present) (ids absent) ∧
    (∀ id, id ∈ identifiers (roster Example.alice_rejected) →
           id ∈ ids present ∨ id ∈ ids absent) ∧
    (∀ id, id ∈ ids absent → id ∈ identifiers (roster Example.alice_rejected)) ∧
    (NoDup (identifiers (session_records Example.alice_rejected "1" "1")) →
     disjoint_ids (ids present) (ids rejected) ∧
     disjoint_ids (ids present) (ids exited) ∧
     disjoint_ids (ids rejected) (ids exited)).
Proof.
  apply (attendance_list_views "1" "1" Example.alice_rejected).
  - apply (bool_decide_unpack (_ ∈ _)). vm_compute. exact I.
  - apply (bool_decide_unpack (_ ∈ _)). vm_compute. exact I.
Defined.

(** ** [get_attendance_history] *)

Lemma dict_get_zip cols row c v :
  dict_get (zip cols row) c = Ok v → v = pd.cell_at cols row c.
Proof.
  revert row. induction cols as [|k cols IH]; intros [|x row]; simpl; try done.
  case_decide; [congruence|]. apply IH.
Qed.

Lemma dict_get_zip_aligned cols row c :
  length row = length cols → c ∈ cols →
  dict_get (zip cols row) c = Ok (pd.cell_at cols row c).
Proof.
  revert row. induction cols as [|k cols IH]; intros [|x row] Hlen Hin;
    simplify_eq/=; [by apply elem_of_nil in Hin|].
  case_decide; [done|]. apply IH; [done|].
  by apply elem_of_cons in Hin as [->|].
Qed.

Lemma has_record_spec w phone_number name f df :
  Py.endswith name ".csv" = true →
  attendance_folder w !! name = Some f → content f = Parsed df →
  has_record w phone_number name
  = bool_decide
      (filter (λ row, phone_of (columns df) row = phone_number) (rows df) ≠ []).
Proof.
  intros Hcsv Hf Hc. unfold has_record. rewrite Hcsv, Hf, Hc. simpl.
  apply bool_decide_ext. unfold identifiers.
  induction (rows df) as [|row l IH]; simpl.
  - split; [by intros ?%elem_of_nil|done].
  - destruct (decide (phone_of (columns df) row = phone_number)) as [Heq|Hne].
    + rewrite filter_cons_True by done. split; [done|]. intros _. rewrite Heq. left.
    + rewrite filter_cons_False by done. rewrite <- IH.
      rewrite elem_of_cons. split; [|by right]. by intros [?|?].
Qed.

(** One pass of the loop of [get_attendance_history]: an exception, or the
    file has no record of the identifier and the history is as before, or
    it has one and its entry is added.  The world stays as it is. *)
Lemma history_of_file_step phone_number history name w :
  (∃ e, history_of_file phone_number history name w = (Raise e, w)) ∨
  (has_record w phone_number name = false ∧
   history_of_file phone_number history name w = (Ok history, w)) ∨
  (has_record w phone_number name = true ∧
   ∃ e, entry_of w phone_number name e ∧
        history_of_file phone_number history name w = (Ok (history ++ [e]), w)).
Proof.
  unfold history_of_file.
  destruct (Py.endswith name ".csv") eqn:Hcsv; last first.
  { right. left. unfold has_record. by rewrite Hcsv. }
  unfold_monad.
  destruct (attendance_folder w !! name) as [f|] eqn:Hf; [|by eauto].
  unfold read_csv. destruct (content f) as [msg|df] eqn:Hc; [by eauto|].
  rewrite (has_record_spec _ _ _ _ _ Hcsv Hf Hc).
  unfold pd.getitem. case_decide as Hcol; [|by eauto].
  unfold pd.astype_str, pd.boolean_index, pd.empty, iloc0_getitem, pd.iloc0.
  cbn [rows columns]. rewrite !map_map.
  rewrite (mask_list_map
             (λ row, bool_decide (phone_of (columns df) row = phone_number))).
  rewrite (list_filter_iff _ (λ row, phone_of (columns df) row = phone_number))
    by (intros row; apply bool_decide_spec).
  destruct (filter _ (rows df)) as [|row l] eqn:Hfilter.
  { right. left. split; [|done]. by apply bool_decide_eq_false; intros []. }
  cbn [negb rbind].
  destruct (dict_get (zip (columns df) row) "status") as [st|] eqn:Hst;
    [|by eauto].
  destruct (dict_get (zip (columns df) row) "timestamp") as [ts|] eqn:Hts;
    [|by eauto].
  right. right. split; [by apply bool_decide_eq_true|].
  eexists. split; [|done].
  split; [done|]. exists f, df, row. split_and!; [done..|by rewrite Hfilter|].
  by rewrite (dict_get_zip _ _ _ _ Hst), (dict_get_zip _ _ _ _ Hts).
Qed.

(** On a readable file the pass raises no exception. *)
Lemma history_of_file_readable phone_number history name w e :
  readable w name → history_of_file phone_number history name w ≠ (Raise e, w).
Proof.
  intros Hread. unfold history_of_file.
  destruct (Py.endswith name ".csv") eqn:Hcsv; [|done].
  destruct (Hread Hcsv) as (f & df & Hf & Hc & [Hnd Hrows] & Hcols).
  unfold_monad. rewrite Hf. unfold read_csv. rewrite Hc.
  unfold pd.getitem. rewrite decide_True by (apply Hcols; set_solver).
  unfold pd.astype_str, pd.boolean_index, pd.empty, iloc0_getitem, pd.iloc0.
  cbn [rows columns]. rewrite !map_map.
  rewrite (mask_list_map
             (λ row, bool_decide (phone_of (columns df) row = phone_number))).
  destruct (filter _ (rows df)) as [|row l] eqn:Hfilter; [done|].
  assert (row ∈ rows df) as Hrow.
  { eapply list_elem_of_filter. rewrite Hfilter. left. }
  rewrite Forall_forall in Hrows. specialize (Hrows row Hrow).
  cbn [negb rbind].
  rewrite !dict_get_zip_aligned by (done || apply Hcols; set_solver). done.
Qed.

(** The loop of [get_attendance_history]: an exception, or one entry for
    each file, in order, that has a record of the identifier. *)
Lemma history_loop phone_number names history w :
  (∃ e, for_each names (history_of_file phone_number) history w = (Raise e, w)) ∨
  (∃ entries,
     for_each names (history_of_file phone_number) history w
     = (Ok (history ++ entries), w) ∧
     Forall2 (entry_of w phone_number)
       (filter (λ name, has_record w phone_number name = true) names) entries).
Proof.
  revert history. induction names as [|name names IH]; intros history.
  { right. exists []. split; [|constructor]. simpl. unfold ret.
    by rewrite app_nil_r. }
  cbn [for_each]. unfold bind.
  destruct (history_of_file_step phone_number history name w)
    as [[e ->]|[[Hrec ->]|(Hrec & e & He & ->)]].
  - eauto.
  - rewrite filter_cons_False by (rewrite Hrec; done). apply IH.
  - rewrite filter_cons_True by done.
    destruct (IH (history ++ [e])) as [[e' ->]|(entries & -> & Hall)]; [by eauto|].
    right. exists (e :: entries). split; [by rewrite <- app_assoc|].
    by constructor.
Qed.

Lemma history_loop_readable phone_number names history w e :
  Forall (readable w) names →
  for_each names (history_of_file phone_number) history w ≠ (Raise e, w).
Proof.
  intros Hall. revert history.
  induction Hall as [|name names Hname _ IH]; intros history; [done|].
  cbn [for_each]. unfold bind.
  destruct (history_of_file_step phone_number history name w)
    as [[e' Hraise]|[[_ ->]|(_ & e' & _ & ->)]]; [|apply IH..].
  by apply history_of_file_readable in Hraise.
Qed.

Lemma filter_none {A} (P : A → Prop) `{!∀ x, Decision (P x)} (l : list A) :
  (∀ x, x ∈ l → ¬ P x) → filter P l = [].
Proof.
  induction l as [|x l IH]; intros Hnone; [done|].
  rewrite filter_cons_False by (apply Hnone; left).
  apply IH. intros y Hy. apply Hnone. by right.
Qed.

#[local] Instance descending_transitive :
  Transitive (λ a b : string, String.le b a).
Proof. intros a b c Hab Hbc. by transitivity b. Qed.

#[local] Instance descending_total : Total (λ a b : string, String.le b a).
Proof. intros a b. destruct (total String.le a b); auto. Qed.

(** The names [get_attendance_history] goes through are in descending
    order, at most five, and names of the attendance folder. *)
Lemma window_descending w :
  StronglySorted (λ a b, String.le b a) (window w) ∧
  length (window w) ≤ 5 ∧
  ∀ name, name ∈ window w → is_Some (attendance_folder w !! name).
Proof.
  unfold window. split_and!.
  - eapply StronglySorted_app_1_l. rewrite take_drop.
    apply (StronglySorted_merge_sort _).
  - rewrite length_take. lia.
  - intros name Hin%subseteq_take.
    unfold Py.sorted_reverse in Hin.
    rewrite merge_sort_Permutation in Hin. unfold listing in Hin.
    apply list_elem_of_fmap in Hin as ([name' f] & -> & Hin).
    apply elem_of_map_to_list in Hin. by exists f.
Qed.

(** [get_attendance_history], step by step. *)
Lemma get_attendance_history_run phone_number w :
  ∃ h w',
    get_attendance_history phone_number w = (Ok h, w') ∧
    same_files w w' ∧
    (h = [] ∨
     Forall2 (entry_of w phone_number)
       (filter (λ name, has_record w phone_number name = true) (window w)) h) ∧
    (Forall (readable w) (window w) →
     Forall2 (entry_of w phone_number)
       (filter (λ name, has_record w phone_number name = true) (window w)) h).
Proof.
  unfold get_attendance_history. unfold_monad. fold (listing w). fold (window w).
  destruct (history_loop phone_number (window w) [] w)
    as [[e Hloop]|(entries & Hloop & Hall)]; rewrite Hloop.
  - eexists _, _. split_and!; [done|auto|by left|].
    intros Hread. by apply (history_loop_readable phone_number _ [] _ e) in Hread.
  - eexists _, _. split_and!; [done|auto|by right|done].
Qed.

(** C4, as worded, fails: of six sessions the history shows the one that was
    modified first, which is not among the five modified most recently. *)
Lemma history_window_is_by_name : ¬ history_from_recently_modified.
Proof.
  intros Hclaim.
  assert (∃ h e,
    (get_attendance_history "5551234" Example.six_sessions).1 = Ok h ∧
    e ∈ h ∧
    session e ∉ session_label <$> recently_modified Example.six_sessions)
    as (h & e & Hh & He & Hnot).
  { eexists _, {| session := "course_1_session_6"; status := Str "entry";
                  timestamp := Str "2024-03-07 09:05:01" |}.
    split; [vm_compute; reflexivity|]. split; [left|].
    apply (bool_decide_unpack (_ ∉ _)). vm_compute. exact I. }
  exact (Hnot (Hclaim _ _ _ Hh _ He)).
Qed.

(** C4, amended: [get_attendance_history] never fails.  It goes through the
    first five names of the attendance folder in descending order of name,
    whatever the number of files, and its result is either empty or has, in
    that order, one entry for each of those files that is a session file
    with a record of the identifier: the label of the session with the
    status and the time stamp of the first such record.  When those files
    are readable the result is the latter.  A file without a record of the
    identifier gives no entry, and when none of the files has one the
    result is empty. *)
Theorem get_attendance_history_window phone_number w :
  ∃ h w',
    get_attendance_history phone_number w = (Ok h, w') ∧
    same_files w w' ∧
    (h = [] ∨
     Forall2 (entry_of w phone_number)
       (filter (λ name, has_record w phone_number name = true) (window w)) h) ∧
    (Forall (readable w) (window w) →
     Forall2 (entry_of w phone_number)
       (filter (λ name, has_record w phone_number name = true) (window w)) h) ∧
    ((∀ name, name ∈ window w → has_record w phone_number name = false) →
     h = []) ∧
    window w = take 5 (Py.sorted_reverse (listing w)) ∧
    StronglySorted (λ a b, String.le b a) (window w) ∧
    length (window w) ≤ 5 ∧
    (∀ name, name ∈ window w → is_Some (attendance_folder w !! name)).
Proof.
  destruct (get_attendance_history_run phone_number w)
    as (h & w' & Hrun & Hsame & Hcases & Hread).
  destruct (window_descending w) as (Hsorted & Hlen & Hnames).
  exists h, w'. split_and!; try done.
  intros Hnone. destruct Hcases as [->|Hall]; [done|].
  assert (filter (λ name, has_record w phone_number name = true) (window w) = [])
    as Hfilter.
  { apply filter_none. intros name Hin. by rewrite Hnone. }
  rewrite Hfilter in Hall. by inversion Hall.
Qed.

(** ** The end-to-end example *)

(** The roster holds Alice and Bob.  After an entry is recorded for 5551234
    the attendance list shows Alice as present and Bob as absent; a second
    entry for 5551234 is turned down as a duplicate and the list is the
    same. *)
Example alice_enters :
  let w1 :=
    Example.after
      (update_attendance (Example.at_second 1) "5551234" "entry" "1" "1")
      Example.school in
  (attendance_list "1" "1" w1).1
  = Ok (render_attendance_list
          [[("name", Str "Alice"); ("phone_number", Str "5551234");
            ("status", Str "entry"); ("timestamp", Str "2024-03-07 09:05:01")]]
          [] [] [Example.bob] "1" "1") ∧
  (update_attendance (Example.at_second 2) "5551234" "entry" "1" "1" w1).1
  = Ok (json_error "Duplicate attendance entry for this student") ∧
  (attendance_list "1" "1"
     (Example.after
        (update_attendance (Example.at_second 2) "5551234" "entry" "1" "1")
        w1)).1
  = (attendance_list "1" "1" w1).1.
Proof. vm_compute. done. Qed.

(** ** The session tables the program leaves behind *)

Lemma empty_frame_aligned : aligned (pd.empty_frame ATTENDANCE_COLUMNS).
Proof.
  split; [|by constructor].
  apply (bool_decide_unpack (NoDup _)). vm_compute. exact I.
Qed.

Lemma session_schema_empty w : attendance_folder w = ∅ → session_schema w.
Proof. intros Hempty name f. by rewrite Hempty, lookup_empty. Qed.

Lemma session_schema_same_files w w' :
  same_files w w' → session_schema w → session_schema w'.
Proof. intros (_ & Hatt & _) Hschema name f. rewrite Hatt. apply Hschema. Qed.

(** Under the schema, what [load_attendance] returns is a session table. *)
Lemma session_schema_records course_id session_id w :
  session_schema w →
  aligned (session_records w course_id session_id) ∧
  columns (session_records w course_id session_id) = ATTENDANCE_COLUMNS.
Proof.
  intros Hschema. unfold session_records. rewrite load_attendance_run.
  destruct (attendance_folder w !! _) as [f|] eqn:Hf;
    [|split; [apply empty_frame_aligned|done]].
  destruct (Hschema _ _ Hf) as (df & -> & Hal & Hcols). done.
Qed.

(** The world [save_attendance] leaves: the files are as before, or the
    session file holds the table loaded with the new record added. *)
Lemma save_attendance_world now student status course_id session_id w :
  same_files w (save_attendance now student status course_id session_id w).2 ∨
  ∃ w' name phone,
    same_files w w' ∧
    (save_attendance now student status course_id session_id w).2
    = recorded_world now name phone status course_id session_id
        (session_records w course_id session_id) w'.
Proof.
  destruct (load_attendance_total course_id session_id w) as (w' & Hload & Hsame).
  destruct (dict_get student "name") as [name|e1] eqn:Hname; last first.
  { left. unfold save_attendance. unfold_monad. rewrite Hload, Hname.
    destruct (dict_get student "phone_number"); [|done].
    destruct (pd.getitem _ _); [|done].
    by destruct (bool_decide _). }
  destruct (dict_get student "phone_number") as [phone|e2] eqn:Hphone; last first.
  { left. unfold save_attendance. unfold_monad.
    rewrite Hload, Hphone, Hname. simpl. auto. }
  destruct (decide ("phone_number"
                    ∈ columns (session_records w course_id session_id)))
    as [Hcol|Hcol]; last first.
  { left. unfold save_attendance. unfold_monad.
    rewrite Hload, Hphone. unfold pd.getitem. rewrite decide_False by done.
    rewrite Hname. simpl. auto. }
  rewrite (save_attendance_run _ _ _ _ _ _ _ _ _ _ Hload Hname Hphone Hcol).
  case_decide; [by left|].
  destruct (open_for_writing _ _); [right; by exists w', name, phone|].
  left. cbn [snd]. auto.
Qed.

(** [reset_attendance] keeps the schema. *)
Lemma reset_attendance_schema course_id session_id w :
  session_schema w →
  session_schema (reset_attendance course_id session_id w).2.
Proof.
  intros Hschema other f. unfold reset_attendance. unfold_monad.
  destruct (bool_decide _); cbn [snd attendance_folder add_log
    set_attendance_folder]; [|apply Hschema].
  intros [_ Hf]%lookup_delete_Some. by eapply Hschema.
Qed.

(** Under the schema, every file [get_attendance_history] goes through is
    readable, so the history has an entry for each of them that has a
    record of the identifier. *)
Lemma session_schema_history phone_number w :
  session_schema w →
  ∃ h w',
    get_attendance_history phone_number w = (Ok h, w') ∧
    Forall2 (entry_of w phone_number)
      (filter (λ name, has_record w phone_number name = true) (window w)) h.
Proof.
  intros Hschema.
  destruct (get_attendance_history_run phone_number w)
    as (h & w' & Hrun & _ & _ & Hread).
  exists h, w'. split; [done|]. apply Hread.
  apply Forall_forall. intros name Hin _.
  destruct (window_descending w) as (_ & _ & Hnames).
  destruct (Hnames name Hin) as [f Hf].
  destruct (Hschema _ _ Hf) as (df & Hc & Hal & Hcols).
  exists f, df. split_and!; [done..|]. rewrite Hcols.
  apply (bool_decide_unpack (_ ⊆ _)). vm_compute. exact I.
Qed.

(** ** Routes that only read *)

Lemma read_only_ret {A} (a : A) : read_only (ret a).
Proof. intros w. apply same_files_refl. Qed.

Lemma read_only_lift {A} (r : result A) : read_only (lift r).
Proof. intros w. apply same_files_refl. Qed.

Lemma read_only_logger lvl msg : read_only (logger lvl msg).
Proof. intros w. apply same_files_add_log. Qed.

Lemma read_only_bind {A B} (m : M A) (k : A → M B) :
  read_only m → (∀ a, read_only (k a)) → read_only (bind m k).
Proof.
  intros Hm Hk w. unfold bind. specialize (Hm w).
  destruct (m w) as [[a|e] w1]; [|done].
  eapply same_files_trans; [exact Hm|apply Hk].
Qed.

Lemma read_only_try_except {A} (body : M A) (handler : exn → M A) :
  read_only body → (∀ e, read_only (handler e)) → read_only (try_except body handler).
Proof.
  intros Hm Hk w. unfold try_except. specialize (Hm w).
  destruct (body w) as [[a|e] w1]; [done|].
  eapply same_files_trans; [exact Hm|apply Hk].
Qed.

Lemma read_only_for_each {A S} (l : list A) (body : S → A → M S) acc :
  (∀ acc x, read_only (body acc x)) → read_only (for_each l body acc).
Proof.
  intros Hbody. revert acc. induction l as [|x l IH]; intros acc.
  - apply read_only_ret.
  - apply read_only_bind; [apply Hbody|apply IH].
Qed.

Lemma read_only_files :
  read_only listdir_data ∧ read_only listdir_attendance_sorted ∧
  (∀ name, read_only (attendance_exists name)) ∧
  (∀ name, read_only (read_attendance_csv name)) ∧
  (∀ name, read_only (read_photo name)).
Proof.
  split_and!; intros; intros w; unfold_monad;
    repeat case_match; apply same_files_refl.
Qed.

Lemma read_only_concat_frames dfs : read_only (concat_frames dfs).
Proof. intros w. apply same_files_refl. Qed.

(** Takes a goal [read_only m] apart along the structure of [m]. *)
Ltac read_only_step :=
  match goal with
  | |- read_only (bind _ _) => apply read_only_bind; [|intros ?]
  | |- read_only (try_except _ _) => apply read_only_try_except; [|intros ?]
  | |- read_only (ret _) => apply read_only_ret
  | |- read_only (lift _) => apply read_only_lift
  | |- read_only (logger _ _) => apply read_only_logger
  | |- read_only (concat_frames _) => apply read_only_concat_frames
  | |- read_only (for_each _ _ _) => apply read_only_for_each; intros ? ?
  | |- read_only listdir_data => apply read_only_files
  | |- read_only listdir_attendance_sorted => apply read_only_files
  | |- read_only (attendance_exists _) => apply read_only_files
  | |- read_only (read_attendance_csv _) => apply read_only_files
  | |- read_only (read_photo _) => apply read_only_files
  | |- read_only (match ?x with _ => _ end) => destruct x
  | |- read_only (let (_, _) := ?x in _) => destruct x
  end.

Lemma read_only_load_csv_files : read_only load_csv_files.
Proof. unfold load_csv_files, load_csv_file. repeat read_only_step. Qed.

Lemma read_only_load_attendance course_id session_id :
  read_only (load_attendance course_id session_id).
Proof. unfold load_attendance. cbv zeta. repeat read_only_step. Qed.

Lemma read_only_find_student phone_number partial :
  read_only (find_student phone_number partial).
Proof.
  unfold find_student. cbv zeta.
  repeat (read_only_step || apply read_only_load_csv_files).
Qed.

Lemma read_only_get_attendance_history phone_number :
  read_only (get_attendance_history phone_number).
Proof.
  unfold get_attendance_history, history_of_file. cbv zeta.
  repeat read_only_step.
Qed.

Ltac read_only_route :=
  cbv zeta;
  repeat (read_only_step
          || apply read_only_load_csv_files
          || apply read_only_load_attendance
          || apply read_only_find_student
          || apply read_only_get_attendance_history).

(** X4: the routes that look a student up, list a session or export one of
    its views write no file: after each of them the data folder, the
    attendance folder and the photos are as before, whatever the request and
    whatever the answer. *)
Theorem lookup_routes_read_only :
  (∀ phone_digits, read_only (search_student phone_digits)) ∧
  (∀ decoded, read_only (scan_qr decoded)) ∧
  (∀ course_id session_id,
     read_only (attendance_list course_id session_id) ∧
     read_only (download_present course_id session_id) ∧
     read_only (download_rejected course_id session_id) ∧
     read_only (download_exited course_id session_id) ∧
     read_only (download_absent course_id session_id)).
Proof.
  split_and!; intros.
  - unfold search_student. read_only_route.
  - unfold scan_qr. read_only_route.
  - split_and!.
    + unfold attendance_list. read_only_route.
    + unfold download_present. read_only_route.
    + unfold download_rejected. read_only_route.
    + unfold download_exited. read_only_route.
    + unfold download_absent. read_only_route.
Qed.

(** ** One record file per session *)

Lemma isalnum_no_underscore s : isalnum s = true → "_"%char ∉ Py.chars s.
Proof.
  unfold isalnum. destruct (Py.chars s) as [|c l] eqn:Hs; [done|].
  intros Hall Hin. rewrite forallb_forall in Hall.
  apply list_elem_of_In in Hin. by apply Hall in Hin.
Qed.

(** Texts without an underscore that are followed by an underscore: the
    first underscore tells where the first text ends. *)
Lemma app_underscore_inj (c c' : string) (rest rest' : string) :
  "_"%char ∉ Py.chars c → "_"%char ∉ Py.chars c' →
  c +:+ String "_" rest = c' +:+ String "_" rest' →
  c = c' ∧ rest = rest'.
Proof.
  revert c'. induction c as [|a c IH]; intros [|a' c'] Hc Hc' Heq;
    cbn in Heq.
  - by injection Heq as ->.
  - injection Heq as <- _. exfalso. apply Hc'. cbn. left.
  - injection Heq as -> _. exfalso. apply Hc. cbn. left.
  - injection Heq as <- Heq.
    destruct (IH c') as [-> ->]; [..|done|done].
    + intros Hin. apply Hc. cbn. by right.
    + intros Hin. apply Hc'. cbn. by right.
Qed.

Lemma append_csv_inj (s s' : string) : s +:+ ".csv" = s' +:+ ".csv" → s = s'.
Proof.
  revert s'. induction s as [|a s IH]; intros [|a' s'] Heq; cbn in Heq.
  - done.
  - exfalso. injection Heq as <- Heq.
    destruct s' as [|b [|b' [|b'' [|? ?]]]]; cbn in Heq; discriminate.
  - exfalso. injection Heq as -> Heq.
    destruct s as [|b [|b' [|b'' [|? ?]]]]; cbn in Heq; discriminate.
  - injection Heq as <- Heq. f_equal. by apply IH.
Qed.

Lemma attendance_file_inj course_id session_id course_id' session_id' :
  "_"%char ∉ Py.chars course_id → "_"%char ∉ Py.chars course_id' →
  attendance_file course_id session_id
  = attendance_file course_id' session_id' →
  course_id = course_id' ∧ session_id = session_id'.
Proof.
  intros Hc Hc' Heq. unfold attendance_file in Heq.
  apply (inj (String.app "attendance_course_")) in Heq.
  apply app_underscore_inj in Heq as [-> Heq]; [|done..].
  split; [done|].
  apply (inj (String.app "session_")) in Heq. by apply append_csv_inj.
Qed.

(** X1: sessions whose course ids are alphanumeric, as [/setup_session]
    demands, have a record file each: two such sessions with the same file
    name have the same course id and the same session id. *)
Theorem attendance_file_per_session course_id session_id course_id'
    session_id' :
  isalnum course_id = true → isalnum course_id' = true →
  attendance_file course_id session_id
  = attendance_file course_id' session_id' →
  course_id = course_id' ∧ session_id = session_id'.
Proof.
  intros Hc Hc'. apply attendance_file_inj; by apply isalnum_no_underscore.
Qed.

Lemma attendance_file_per_session_witness :
  "7" = "7" ∧ "12" = "12".
Proof.
  apply (attendance_file_per_session "7" "12" "7" "12"); reflexivity.
Defined.

Lemma session_records_lookup course_id session_id w w' :
  attendance_folder w' !! attendance_file course_id session_id
  = attendance_folder w !! attendance_file course_id session_id →
  session_records w' course_id session_id
  = session_records w course_id session_id.
Proof.
  intros Heq. unfold session_records. rewrite !load_attendance_run, Heq.
  destruct (attendance_folder w !! _) as [f|]; [|done]. by destruct (content f).
Qed.

Lemma save_attendance_other_file now student status course_id session_id w
    other :
  other ≠ attendance_file course_id session_id →
  attendance_folder
    (save_attendance now student status course_id session_id w).2 !! other
  = attendance_folder w !! other.
Proof.
  intros Hother.
  destruct (save_attendance_world now student status course_id session_id w)
    as [(_ & -> & _)|(w' & name & phone & (_ & Hatt & _) & ->)]; [done|].
  cbn [recorded_world attendance_folder add_log set_attendance_folder].
  by rewrite lookup_insert_ne, Hatt.
Qed.

Lemma reset_attendance_other_file course_id session_id w other :
  other ≠ attendance_file course_id session_id →
  attendance_folder (reset_attendance course_id session_id w).2 !! other
  = attendance_folder w !! other.
Proof.
  intros Hother. unfold reset_attendance. unfold_monad.
  destruct (bool_decide _); [|done].
  cbn [snd attendance_folder add_log set_attendance_folder].
  by rewrite lookup_delete_ne.
Qed.

(** X2: recording an event in a session, or resetting it, leaves the records
    of every other session as they were, for sessions with alphanumeric course
    ids; this holds whatever [save_attendance] returns. *)
Theorem other_sessions_untouched now student status course_id session_id
    course_id' session_id' w :
  isalnum course_id = true → isalnum course_id' = true →
  (course_id, session_id) ≠ (course_id', session_id') →
  session_records (save_attendance now student status course_id session_id w).2
    course_id' session_id'
  = session_records w course_id' session_id' ∧
  session_records (reset_attendance course_id session_id w).2
    course_id' session_id'
  = session_records w course_id' session_id'.
Proof.
  intros Hc Hc' Hne.
  assert (attendance_file course_id' session_id'
          ≠ attendance_file course_id session_id) as Hfile.
  { intros Heq. apply Hne.
    apply attendance_file_inj in Heq as [-> ->];
      [done|by apply isalnum_no_underscore..]. }
  split; apply session_records_lookup.
  - by apply save_attendance_other_file.
  - by apply reset_attendance_other_file.
Qed.

Lemma other_sessions_untouched_witness :
  session_records
    (save_attendance (Example.at_second 7) Example.bob "entry" "1" "2"
       Example.alice_rejected).2 "1" "1"
  = session_records Example.alice_rejected "1" "1" ∧
  session_records (reset_attendance "1" "2" Example.alice_rejected).2 "1" "1"
  = session_records Example.alice_rejected "1" "1".
Proof.
  apply (other_sessions_untouched (Example.at_second 7) Example.bob "entry"
           "1" "2" "1" "1" Example.alice_rejected).
  - reflexivity.
  - reflexivity.
  - intros Heq. discriminate Heq.
Defined.





(** ** Looking a student up: [/search] and [/scan] *)

Lemma show_columns_row shown df row :
  row ∈ rows (pd.show_columns shown df) →
  ∃ row0, row0 ∈ rows df ∧ length row = length row0.
Proof.
  cbn [pd.show_columns rows]. intros (row0 & -> & Hin)%list_elem_of_fmap.
  exists row0. split; [done|]. apply length_imap.
Qed.

Lemma roster_row_length w row : row ∈ rows (roster w) → length row = 3.
Proof.
  unfold roster. rewrite load_csv_files_run.
  destruct (data_folder w) as [entries|]; cbn [fst];
    [|by intros ?%elem_of_nil].
  intros (row0 & Hin & ->)%show_columns_row. cbn [rows roster_table] in Hin.
  apply list_elem_of_bind in Hin as (entry & Hrow & _).
  by eapply roster_rows_length.
Qed.

Lemma first_match_spec phone_number partial w row :
  first_match phone_number partial w = Some row →
  row ∈ rows (roster w) ∧ matches phone_number partial row = true.
Proof.
  unfold first_match. intros Hhead.
  assert (row ∈ filter (λ row, matches phone_number partial row)
                  (rows (roster w))) as Hin.
  { destruct (filter _ _) as [|r l]; simplify_eq/=. left. }
  apply list_elem_of_filter in Hin as [Hm Hin]. split; [done|].
  by apply Is_true_true.
Qed.

Lemma first_match_none phone_number partial w :
  first_match phone_number partial w = None ↔
  ∀ row, row ∈ rows (roster w) → matches phone_number partial row = false.
Proof.
  unfold first_match. split.
  - intros Hhead row Hin. apply Is_true_false. intros Hm.
    assert (row ∈ filter (λ row, matches phone_number partial row)
                    (rows (roster w))) as Hf by (by apply list_elem_of_filter).
    destruct (filter _ _); [by apply elem_of_nil in Hf|done].
  - intros Hnone. rewrite filter_none; [done|].
    intros row Hin Hm. apply Is_true_true in Hm. by rewrite Hnone in Hm.
Qed.

Lemma student_fields row :
  length row = 3 →
  dict_get (zip CSV_COLUMNS row) "name" = Ok (pd.cell_at CSV_COLUMNS row "name") ∧
  dict_get (zip CSV_COLUMNS row) "phone_number"
  = Ok (pd.cell_at CSV_COLUMNS row "phone_number") ∧
  dict_get (zip CSV_COLUMNS row) "photo"
  = Ok (pd.cell_at CSV_COLUMNS row "photo").
Proof.
  intros Hlen.
  split_and!; apply dict_get_zip_aligned; try done;
    apply (bool_decide_unpack (_ ∈ _)); vm_compute; exact I.
Qed.

Lemma dict_get_app d d' key v :
  dict_get d key = Ok v → dict_get (d ++ d') key = Ok v.
Proof.
  induction d as [|[k x] d IH]; simpl; [done|]. case_decide; [done|apply IH].
Qed.

(** One pass of the history loop reads the attendance folder only and leaves
    the world as it is. *)
Lemma history_of_file_world phone_number history name w :
  (history_of_file phone_number history name w).2 = w.
Proof.
  by destruct (history_of_file_step phone_number history name w)
    as [[e ->]|[[_ ->]|(_ & e & _ & ->)]].
Qed.

Lemma history_of_file_folder phone_number history name w w' :
  attendance_folder w' = attendance_folder w →
  (history_of_file phone_number history name w').1
  = (history_of_file phone_number history name w).1.
Proof.
  intros Heq. unfold history_of_file.
  destruct (Py.endswith name ".csv"); [|done].
  unfold_monad. rewrite Heq.
  destruct (attendance_folder w !! name) as [f|]; [|done].
  destruct (read_csv f) as [df|]; [|done]. cbn.
  destruct (pd.getitem df "phone_number"); [|done]. cbn.
  destruct (negb _); [|done].
  destruct (iloc0_getitem _ "status"); [|done]. cbn.
  by destruct (iloc0_getitem _ "timestamp").
Qed.

Lemma history_loop_folder phone_number names history w w' :
  attendance_folder w' = attendance_folder w →
  (for_each names (history_of_file phone_number) history w').1
  = (for_each names (history_of_file phone_number) history w).1.
Proof.
  intros Heq. revert history.
  induction names as [|name names IH]; intros history; [done|].
  cbn [for_each]. unfold bind.
  pose proof (history_of_file_folder phone_number history name w w' Heq) as Hres.
  pose proof (history_of_file_world phone_number history name w) as Hw.
  pose proof (history_of_file_world phone_number history name w') as Hw'.
  destruct (history_of_file phone_number history name w) as [r1 w1].
  destruct (history_of_file phone_number history name w') as [r2 w2].
  simplify_eq/=. destruct r1; [apply IH|done].
Qed.

(** The history depends on the attendance folder only. *)
Lemma history_in_same phone_number w w' :
  same_files w w' → history_in w' phone_number = history_in w phone_number.
Proof.
  intros (_ & Hatt & _). unfold history_in, get_attendance_history.
  unfold_monad. rewrite Hatt.
  pose proof (history_loop_folder phone_number
                (take 5 (Py.sorted_reverse (map_to_list (attendance_folder w)).*1))
                [] w w' Hatt) as Hres.
  destruct (for_each _ _ _ w) as [r1 w1], (for_each _ _ _ w') as [r2 w2].
  simplify_eq/=. by destruct r1.
Qed.

Lemma get_attendance_history_total phone_number w :
  ∃ w', get_attendance_history phone_number w
        = (Ok (history_in w phone_number), w') ∧ same_files w w'.
Proof.
  destruct (get_attendance_history_run phone_number w)
    as (h & w' & Hrun & Hsame & _).
  exists w'. unfold history_in. by rewrite Hrun.
Qed.

(** What a lookup does once [find_student] has found a row. *)
Lemma student_answer_run (label : string) (row : list cell)
    (phone_number : string) w w1 :
  same_files w w1 → length row = 3 →
  ∃ w2,
    (let* photo := lift (dict_get (zip CSV_COLUMNS row) "photo") in
     let* path := lift (photo_path photo) in
     let* photo_data := read_photo path.1 in
     match photo_data with
     | Some data =>
         let student :=
           zip CSV_COLUMNS row ++
           [("photo_data", Str ("data:image/jpg;base64," +:+ data))] in
         let* history := get_attendance_history phone_number in
         let* name := lift (dict_get student "name") in
         logger INFO (label +:+ str name);;
         ret (json_student student history)
     | None =>
         logger ERROR ("Photo not found at " +:+ path.2);;
         ret (json_error ("Photo not found at " +:+ path.2))
     end) w1
    = (match pd.cell_at CSV_COLUMNS row "photo" with
       | NaN =>
           Raise (TypeError
                    "join() argument must be str, bytes, or os.PathLike object, not 'float'")
       | Str _ => Ok (student_answer w row phone_number)
       end, w2) ∧
    same_files w w2.
Proof.
  intros Hsame Hlen.
  destruct (student_fields row Hlen) as (Hname & _ & Hphoto).
  unfold student_answer. unfold_monad. rewrite Hphoto.
  destruct (pd.cell_at CSV_COLUMNS row "photo") as [|photo]; cbn.
  { by exists w1. }
  pose proof Hsame as (Hd & Ha & Hp & Hpd). rewrite Hp.
  destruct (photos_folder w !! photo) as [data|]; last first.
  { eexists. split; [done|]. by apply same_files_add_log_r. }
  destruct (get_attendance_history_total phone_number w1) as (w2 & -> & Hsame2).
  rewrite (history_in_same phone_number w w1) by done.
  rewrite (dict_get_app _ _ _ _ Hname).
  eexists. split; [done|].
  apply same_files_add_log_r. by eapply same_files_trans.
Qed.

(** [/search] on an input of at least four digits. *)
Lemma search_student_run digits w :
  4 ≤ Py.len digits → Py.isdigit digits = true →
  ∃ w',
    search_student (Some digits) w
    = (Ok (match first_match digits true w with
           | Some row => student_answer w row (phone_of CSV_COLUMNS row)
           | None => json_error "Student not found"
           end), w') ∧
    same_files w w'.
Proof.
  intros Hlen Hdigit.
  destruct (find_student_run digits true w) as (w1 & Hfind & Hsame).
  fold (first_match digits true w) in Hfind.
  unfold search_student. unfold_monad.
  rewrite bool_decide_true by (intros ->; vm_compute in Hlen; lia).
  rewrite (proj2 (Nat.leb_le _ _) Hlen), Hdigit. cbn [andb]. rewrite Hfind.
  destruct (first_match digits true w) as [row|] eqn:Hrow; cbn [fmap option_fmap option_map];
    [|eexists; split; [done|by apply same_files_add_log_r]].
  apply first_match_spec in Hrow as [Hin _].
  pose proof (roster_row_length _ _ Hin) as Hrlen.
  destruct (student_fields row Hrlen) as (Hname & Hphone & Hphoto).
  unfold student_answer. rewrite Hphoto.
  destruct (pd.cell_at CSV_COLUMNS row "photo") as [|photo]; cbn.
  { eexists. split; [done|]. by apply same_files_add_log_r. }
  pose proof Hsame as (Hd & Ha & Hp & Hpd). rewrite Hp.
  destruct (photos_folder w !! photo) as [data|]; last first.
  { eexists. split; [done|]. by apply same_files_add_log_r. }
  rewrite (dict_get_app _ _ _ _ Hphone).
  destruct (get_attendance_history_total
              (str (pd.cell_at CSV_COLUMNS row "phone_number")) w1)
    as (w2 & -> & Hsame2).
  rewrite (history_in_same _ w w1) by done.
  rewrite (dict_get_app _ _ _ _ Hname).
  eexists. split; [done|].
  apply same_files_add_log_r. by eapply same_files_trans.
Qed.

(** [/scan] on a decoded text that is not empty. *)
Lemma scan_qr_run data w :
  data ≠ "" →
  ∃ w',
    scan_qr (Ok data) w
    = (Ok (match first_match data false w with
           | Some row => student_answer w row data
           | None => json_error "Student not found"
           end), w') ∧
    same_files w w'.
Proof.
  intros Hdata.
  destruct (find_student_run data false w) as (w1 & Hfind & Hsame).
  fold (first_match data false w) in Hfind.
  unfold scan_qr. unfold_monad.
  rewrite bool_decide_true by done. rewrite Hfind.
  destruct (first_match data false w) as [row|] eqn:Hrow; cbn [fmap option_fmap option_map];
    [|eexists; split; [done|by apply same_files_add_log_r]].
  apply first_match_spec in Hrow as [Hin _].
  pose proof (roster_row_length _ _ Hin) as Hrlen.
  destruct (student_answer_run "Student found via QR: " row data w w1 Hsame Hrlen)
    as (w2 & Hrun & Hsame2).
  unfold_monad. rewrite Hrun.
  destruct (pd.cell_at CSV_COLUMNS row "photo") eqn:Hphoto.
  - unfold student_answer. rewrite Hphoto. eexists. split; [done|].
    by apply same_files_add_log_r.
  - by eexists.
Qed.

Lemma student_answer_not_missing w row phone_number :
  student_answer w row phone_number ≠ json_error "Student not found".
Proof.
  unfold student_answer.
  destruct (pd.cell_at CSV_COLUMNS row "photo") as [|photo]; [done|].
  destruct (photos_folder w !! photo); [done|].
  intros Heq. vm_compute in Heq. discriminate Heq.
Qed.

Lemma student_answer_student w row phone_number student history :
  length row = 3 →
  student_answer w row phone_number = json_student student history →
  ∃ photo data,
    pd.cell_at CSV_COLUMNS row "photo" = Str photo ∧
    photos_folder w !! photo = Some data ∧
    student
    = zip CSV_COLUMNS row ++
      [("photo_data", Str ("data:image/jpg;base64," +:+ data))] ∧
    history = history_in w phone_number ∧
    identifier student = phone_of CSV_COLUMNS row.
Proof.
  intros Hlen. unfold student_answer.
  destruct (pd.cell_at CSV_COLUMNS row "photo") as [|photo] eqn:Hphoto; [done|].
  destruct (photos_folder w !! photo) as [data|] eqn:Hdata; [|done].
  intros [= <- <-]. exists photo, data. split_and!; [done..|].
  clear Hphoto. by destruct row as [|a [|b [|c [|? ?]]]].
Qed.

(** X5: when [/search] answers with a student, the input had at least four
    digits, the student is the first roster row whose phone number ends with
    the last four characters of the input, with the photo of that row, which
    exists, added as a data URL, and the history shown is the history of the
    student's whole phone number, not of the digits typed. *)
Theorem search_student_shows digits w student history w' :
  search_student (Some digits) w = (Ok (json_student student history), w') →
  4 ≤ Py.len digits ∧ Py.isdigit digits = true ∧
  ∃ row photo data,
    first_match digits true w = Some row ∧
    Py.endswith (phone_of CSV_COLUMNS row) (Py.last_chars 4 digits) = true ∧
    pd.cell_at CSV_COLUMNS row "photo" = Str photo ∧
    photos_folder w !! photo = Some data ∧
    student
    = zip CSV_COLUMNS row ++
      [("photo_data", Str ("data:image/jpg;base64," +:+ data))] ∧
    history = history_in w (phone_of CSV_COLUMNS row).
Proof.
  intros Hsearch.
  destruct (decide (4 ≤ Py.len digits)) as [Hlen|Hlen]; last first.
  { rewrite search_student_invalid in Hsearch by (left; lia). done. }
  destruct (Py.isdigit digits) eqn:Hdigit; last first.
  { rewrite search_student_invalid in Hsearch by (by right). done. }
  split_and!; [done..|].
  destruct (search_student_run digits w Hlen Hdigit) as (w1 & Hrun & _).
  rewrite Hrun in Hsearch. injection Hsearch as Hanswer _.
  destruct (first_match digits true w) as [row|] eqn:Hrow; [|done].
  apply first_match_spec in Hrow as [Hin Hmatch].
  apply student_answer_student in Hanswer
    as (photo & data & Hphoto & Hdata & -> & -> & _);
    [|by eapply roster_row_length].
  by exists row, photo, data.
Qed.

Lemma search_student_shows_witness :
  4 ≤ Py.len "1234" ∧ Py.isdigit "1234" = true ∧
  ∃ row photo data,
    first_match "1234" true Example.school = Some row ∧
    Py.endswith (phone_of CSV_COLUMNS row) (Py.last_chars 4 "1234") = true ∧
    pd.cell_at CSV_COLUMNS row "photo" = Str photo ∧
    photos_folder Example.school !! photo = Some data ∧
    Example.alice ++ [("photo_data", Str "data:image/jpg;base64,QQ==")]
    = zip CSV_COLUMNS row ++
      [("photo_data", Str ("data:image/jpg;base64," +:+ data))] ∧
    [] = history_in Example.school (phone_of CSV_COLUMNS row).
Proof.
  apply (search_student_shows "1234" Example.school
           (Example.alice ++ [("photo_data", Str "data:image/jpg;base64,QQ==")])
           []
           (Example.after (search_student (Some "1234")) Example.school)).
  vm_compute. reflexivity.
Defined.

(** X10: [/scan] resolves the decoded text exactly.  For a decoded text that
    is not empty the answer is "Student not found" exactly when no roster
    phone number, as text, equals it; and when the answer is a student, the
    phone number of that student is the decoded text and the history shown is
    the history of the decoded text. *)
Theorem scan_qr_exact data w :
  data ≠ "" →
  ((scan_qr (Ok data) w).1 = Ok (json_error "Student not found") ↔
   data ∉ identifiers (roster w)) ∧
  (∀ student history,
     (scan_qr (Ok data) w).1 = Ok (json_student student history) →
     identifier student = data ∧ history = history_in w data).
Proof.
  intros Hdata.
  destruct (scan_qr_run data w Hdata) as (w' & -> & _). cbn [fst].
  assert (first_match data false w = None ↔ data ∉ identifiers (roster w))
    as Hnone.
  { rewrite first_match_none. unfold identifiers. rewrite roster_columns.
    split.
    - intros Hall (row & -> & Hin)%list_elem_of_fmap.
      specialize (Hall row Hin). unfold matches in Hall.
      by apply bool_decide_eq_false in Hall.
    - intros Hnot row Hin. unfold matches. apply bool_decide_eq_false.
      intros Heq. apply Hnot. apply list_elem_of_fmap. eauto. }
  split.
  - rewrite <- Hnone.
    destruct (first_match data false w) as [row|]; [|done].
    split; [|done]. intros [= Heq]. by apply student_answer_not_missing in Heq.
  - intros student history Hanswer.
    destruct (first_match data false w) as [row|] eqn:Hrow; [|done].
    apply first_match_spec in Hrow as [Hin Hmatch].
    injection Hanswer as Hanswer.
    apply student_answer_student in Hanswer
      as (photo & photo_data & _ & _ & _ & -> & ->);
      [|by eapply roster_row_length].
    split; [|done]. unfold matches in Hmatch.
    by apply bool_decide_eq_true in Hmatch.
Qed.

Lemma scan_qr_exact_witness :
  ((scan_qr (Ok "5551234") Example.school).1
   = Ok (json_error "Student not found") ↔
   "5551234" ∉ identifiers (roster Example.school)) ∧
  (∀ student history,
     (scan_qr (Ok "5551234") Example.school).1
     = Ok (json_student student history) →
     identifier student = "5551234" ∧
     history = history_in Example.school "5551234").
Proof.
  apply (scan_qr_exact "5551234" Example.school). intros Heq. discriminate Heq.
Defined.

(** ** Recording through [/attendance] *)

Lemma roster_data_folder w w' :
  data_folder w' = data_folder w → pandas w' = pandas w →
  roster w' = roster w.
Proof.
  intros Hdata Hpandas. unfold roster.
  rewrite !load_csv_files_run, Hdata, Hpandas. by destruct (data_folder w).
Qed.

Lemma first_match_exact phone_number w :
  phone_number ∈ identifiers (roster w) →
  ∃ row, first_match phone_number false w = Some row ∧
         row ∈ rows (roster w) ∧ phone_of CSV_COLUMNS row = phone_number.
Proof.
  intros Hin.
  destruct (first_match phone_number false w) as [row|] eqn:Hrow.
  - exists row. split; [done|].
    apply first_match_spec in Hrow as [Hrin Hm]. split; [done|].
    unfold matches in Hm. by apply bool_decide_eq_true in Hm.
  - exfalso. rewrite first_match_none in Hrow.
    unfold identifiers in Hin. rewrite roster_columns in Hin.
    apply list_elem_of_fmap in Hin as (row & -> & Hrin).
    specialize (Hrow row Hrin). unfold matches in Hrow.
    by apply bool_decide_eq_false in Hrow.
Qed.

(** [/attendance] for a phone number that [find_student] resolves to the
    roster row [row]: the outcome of [save_attendance] for that row. *)
Lemma update_attendance_found now phone_number status course_id session_id w
    row :
  first_match phone_number false w = Some row →
  ∃ w1,
    same_files w w1 ∧
    update_attendance now phone_number status course_id session_id w
    = match save_attendance now (zip CSV_COLUMNS row) status course_id
              session_id w1 with
      | (Ok (true, msg), w2) =>
          (Ok (json_message msg),
           add_log
             (INFO,
              "Attendance updated: " +:+
              str (pd.cell_at CSV_COLUMNS row "name") +:+ " - " +:+ status) w2)
      | (Ok (false, msg), w2) => (Ok (json_error msg), w2)
      | (Raise e, w2) =>
          (Ok (json_error (exn_str e)),
           add_log (ERROR, "Error updating attendance: " +:+ exn_str e) w2)
      end.
Proof.
  intros Hrow.
  destruct (find_student_run phone_number false w) as (w1 & Hfind & Hsame).
  fold (first_match phone_number false w) in Hfind. rewrite Hrow in Hfind.
  exists w1. split; [done|].
  apply first_match_spec in Hrow as [Hin _].
  destruct (student_fields row (roster_row_length _ _ Hin)) as (Hname & _ & _).
  unfold update_attendance. unfold_monad. rewrite Hfind.
  cbn [fmap option_fmap option_map].
  destruct (save_attendance _ _ _ _ _ w1) as [[[[] msg]|e] w2]; cbn [fst snd];
    [|done..].
  by rewrite Hname.
Qed.

(** X6: [/attendance] records nothing for a phone number that is no roster
    phone number: the answer is "Student not found" and no file changes,
    whatever the status and the session. *)
Theorem update_attendance_unknown now phone_number status course_id session_id
    w :
  phone_number ∉ identifiers (roster w) →
  ∃ w',
    update_attendance now phone_number status course_id session_id w
    = (Ok (json_error "Student not found"), w') ∧
    same_files w w'.
Proof.
  intros Hnot.
  destruct (find_student_run phone_number false w) as (w1 & Hfind & Hsame).
  fold (first_match phone_number false w) in Hfind.
  destruct (first_match phone_number false w) as [row|] eqn:Hrow.
  { exfalso. apply Hnot. apply first_match_spec in Hrow as [Hin Hm].
    unfold matches in Hm. apply bool_decide_eq_true in Hm. subst.
    unfold identifiers. rewrite roster_columns. apply list_elem_of_fmap. eauto. }
  unfold update_attendance. unfold_monad. rewrite Hfind.
  eexists. split; [done|]. by apply same_files_add_log_r.
Qed.

Lemma update_attendance_unknown_witness :
  ∃ w',
    update_attendance (Example.at_second 3) "0005551234" "entry" "1" "1"
      Example.school
    = (Ok (json_error "Student not found"), w') ∧
    same_files Example.school w'.
Proof.
  apply (update_attendance_unknown (Example.at_second 3) "0005551234" "entry"
           "1" "1" Example.school).
  apply (bool_decide_unpack (_ ∉ _)). vm_compute. exact I.
Defined.

Lemma new_entry_status name phone status now :
  pd.cell_at (new_entry name phone status now).*1
    (new_entry name phone status now).*2 "status" = Str status.
Proof. reflexivity. Qed.

Lemma new_entry_phone name phone status now :
  pd.cell_at (new_entry name phone status now).*1
    (new_entry name phone status now).*2 "phone_number" = phone.
Proof. reflexivity. Qed.

(** Membership in a list that is given in full. *)
Ltac closed_elem := apply (bool_decide_unpack (_ ∈ _)); vm_compute; exact I.

Lemma rows_with_status_appended attendance name phone status now value :
  aligned attendance → ATTENDANCE_COLUMNS ⊆ columns attendance →
  rows_with_status (appended attendance (new_entry name phone status now)) value
  = rows_with_status attendance value ++
    (if decide (status = value)
     then [map (pd.cell_at (new_entry name phone status now).*1
                  (new_entry name phone status now).*2) (columns attendance)]
     else []).
Proof.
  intros Hal Hcols. rewrite appended_rows by done.
  unfold rows_with_status. cbn [columns rows]. rewrite filter_app. f_equal.
  assert ("status" ∈ columns attendance) as Hin by (apply Hcols; closed_elem).
  case_decide as Hstatus.
  - rewrite filter_cons_True; [done|]. rewrite cell_at_map by done.
    rewrite new_entry_status. by rewrite Hstatus.
  - rewrite filter_cons_False; [done|]. rewrite cell_at_map by done.
    rewrite new_entry_status. congruence.
Qed.

(** X7: an entry recorded through [/attendance] shows in the attendance
    list.  For a roster phone number not yet recorded in a session whose
    table is a session table and whose file can be written, and where
    pandas keeps the table with the record of the student that is found,
    [/attendance] with status entry answers that
    the attendance is recorded, and [/attendance_list] then shows the
    present identifiers of before followed by this phone number, keeps the
    rejected and exited views, and does not list the phone number as
    absent. *)
Theorem entry_shows_as_present now phone_number course_id session_id w :
  phone_number ∈ identifiers (roster w) →
  aligned (session_records w course_id session_id) →
  ATTENDANCE_COLUMNS ⊆ columns (session_records w course_id session_id) →
  phone_number ∉ identifiers (session_records w course_id session_id) →
  writable course_id session_id →
  (∀ row, first_match phone_number false w = Some row →
          keeps_table w (session_records w course_id session_id)
            (new_entry (pd.cell_at CSV_COLUMNS row "name")
               (pd.cell_at CSV_COLUMNS row "phone_number") "entry" now)) →
  ∃ w1 present rejected exited absent w2,
    update_attendance now phone_number "entry" course_id session_id w
    = (Ok (json_message "Attendance recorded successfully"), w1) ∧
    attendance_list course_id session_id w1
    = (Ok (render_attendance_list present rejected exited absent
             course_id session_id), w2) ∧
    ids present
    = ids (records_with_status (session_records w course_id session_id)
             "entry") ++ [phone_number] ∧
    rejected
    = records_with_status (session_records w course_id session_id) "reject" ∧
    exited
    = records_with_status (session_records w course_id session_id) "exit" ∧
    phone_number ∉ ids absent.
Proof.
  intros Hroster Hal Hcols Hfresh Hwritable Hkeeps.
  destruct (first_match_exact _ _ Hroster) as (row & Hrow & Hin & Hphone).
  specialize (Hkeeps row Hrow).
  destruct (update_attendance_found now phone_number "entry" course_id
              session_id w row Hrow) as (w0 & Hsame0 & Hupdate).
  destruct (student_fields row (roster_row_length _ _ Hin))
    as (Hname & Hphonecell & _).
  destruct (load_attendance_total course_id session_id w0)
    as (w0' & Hload & Hsame0').
  rewrite (session_records_same _ _ _ _ Hsame0) in Hload.
  set (att := session_records w course_id session_id) in *.
  assert ("phone_number" ∈ columns att) as Hcolp by (apply Hcols; closed_elem).
  assert ("status" ∈ columns att) as Hcols' by (apply Hcols; closed_elem).
  rewrite (save_attendance_run _ _ _ _ _ _ _ _ _ _ Hload Hname Hphonecell Hcolp)
    in Hupdate.
  fold (phone_of CSV_COLUMNS row) in Hupdate. rewrite Hphone in Hupdate.
  rewrite decide_False in Hupdate by done.
  unfold writable in Hwritable. rewrite Hwritable in Hupdate.
  assert (pandas w0' = pandas w) as Hpandas.
  { destruct Hsame0 as (_ & _ & _ & Hp0), Hsame0' as (_ & _ & _ & Hp0').
    congruence. }
  set (name := pd.cell_at CSV_COLUMNS row "name") in *.
  set (phone := pd.cell_at CSV_COLUMNS row "phone_number") in *.
  set (wr := recorded_world now name phone "entry" course_id session_id att w0')
    in *.
  set (w1 := add_log _ wr) in Hupdate.
  assert (session_records w1 course_id session_id
          = appended att (new_entry name phone "entry" now)) as Hrecords.
  { rewrite (session_records_same _ _ wr w1) by apply same_files_add_log.
    unfold session_records, wr.
    by rewrite recorded_world_records by by apply (keeps_table_pandas w). }
  assert (roster w1 = roster w) as Hsameroster.
  { apply roster_data_folder; unfold w1, wr; cbn; [|done].
    destruct Hsame0 as (Hd0 & _), Hsame0' as (Hd0' & _). congruence. }
  destruct (attendance_list_run course_id session_id w1) as (w2 & Hlist & _).
  { rewrite Hrecords, appended_rows by done. done. }
  { rewrite Hrecords, appended_rows by done. done. }
  rewrite Hrecords, Hsameroster in Hlist.
  eexists w1, _, _, _, _, w2. split; [exact Hupdate|]. split; [exact Hlist|].
  unfold records_with_status.
  rewrite !rows_with_status_appended by done.
  rewrite decide_True by done. rewrite !decide_False by done.
  rewrite !app_nil_r, !ids_records, !appended_rows by done. cbn [columns].
  assert (phone_of (columns att)
            (map (pd.cell_at (new_entry name phone "entry" now).*1
                    (new_entry name phone "entry" now).*2) (columns att))
          = phone_number) as Hnew.
  { unfold phone_of. by rewrite cell_at_map, new_entry_phone. }
  rewrite map_app. cbn [map]. rewrite !Hnew.
  split_and!; [done..|].
  intros (r & Hr & [Hnot _]%list_elem_of_filter)%list_elem_of_fmap.
  apply Hnot. rewrite <- Hr. apply elem_of_app. right. left.
Qed.

Lemma entry_shows_as_present_witness :
  ∃ w1 present rejected exited absent w2,
    update_attendance (Example.at_second 4) "5555678" "entry" "1" "1"
      Example.alice_rejected
    = (Ok (json_message "Attendance recorded successfully"), w1) ∧
    attendance_list "1" "1" w1
    = (Ok (render_attendance_list present rejected exited absent "1" "1"), w2) ∧
    ids present
    = ids (records_with_status
             (session_records Example.alice_rejected "1" "1") "entry")
      ++ ["5555678"] ∧
    rejected
    = records_with_status (session_records Example.alice_rejected "1" "1")
        "reject" ∧
    exited
    = records_with_status (session_records Example.alice_rejected "1" "1")
        "exit" ∧
    "5555678" ∉ ids absent.
Proof.
  apply (entry_shows_as_present (Example.at_second 4) "5555678" "1" "1"
           Example.alice_rejected).
  - apply (bool_decide_unpack (_ ∈ _)). vm_compute. exact I.
  - split.
    + apply (bool_decide_unpack (NoDup _)). vm_compute. exact I.
    + apply (bool_decide_unpack (Forall _ _)). vm_compute. exact I.
  - apply (bool_decide_unpack (_ ⊆ _)). vm_compute. exact I.
  - apply (bool_decide_unpack (_ ∉ _)). vm_compute. exact I.
  - reflexivity.
  - intros row Hrow. vm_compute in Hrow. injection Hrow as <-.
    split; vm_compute; reflexivity.
Defined.

(** ** The exports *)

Lemma select_subseteq df cols :
  cols ⊆ columns df →
  pd.select df cols = Ok {| columns := cols; rows := pd.reindex cols df |}.
Proof.
  intros Hincl. unfold pd.select.
  assert (list_find (λ c, c ∉ columns df) cols = None) as ->; [|done].
  apply list_find_None, Forall_forall. intros c Hc Hnot. by apply Hnot, Hincl.
Qed.

Lemma rows_with_status_aligned attendance value :
  aligned attendance →
  aligned {| columns := columns attendance;
             rows := rows_with_status attendance value |}.
Proof.
  intros [Hnd Hrows]. split; [done|]. cbn [columns rows].
  unfold rows_with_status. rewrite Forall_forall in Hrows.
  apply Forall_forall. intros row [_ Hin]%list_elem_of_filter. by apply Hrows.
Qed.

(** The export of the records with one status, as [/download_present] and
    [/download_rejected] build it. *)
Lemma export_with_status attendance value :
  aligned attendance → columns attendance = ATTENDANCE_COLUMNS →
  rbind (with_status attendance value)
    (λ students, pd.select students ATTENDANCE_COLUMNS)
  = Ok {| columns := ATTENDANCE_COLUMNS;
          rows := rows_with_status attendance value |}.
Proof.
  intros Hal Hcols.
  rewrite with_status_run by (rewrite Hcols; closed_elem). cbn [rbind].
  rewrite select_subseteq by (by rewrite Hcols). f_equal. f_equal.
  rewrite <- Hcols.
  apply (reindex_id {| columns := columns attendance;
                       rows := rows_with_status attendance value |}).
  by apply rows_with_status_aligned.
Qed.

(** X8: for a session whose table is a session table, [/download_present]
    and [/download_rejected] send the table of exactly the records with
    status entry, respectively reject, in record order and with the four
    session columns: the records [/attendance_list] shows as present,
    respectively rejected. *)
Theorem exports_by_status course_id session_id w :
  aligned (session_records w course_id session_id) →
  columns (session_records w course_id session_id) = ATTENDANCE_COLUMNS →
  ∃ present rejected w1 w2,
    download_present course_id session_id w
    = (Ok (send_file present
             ("present_students_course_" +:+ course_id +:+ "_session_" +:+
              session_id +:+ ".csv")), w1) ∧
    download_rejected course_id session_id w
    = (Ok (send_file rejected
             ("rejected_students_course_" +:+ course_id +:+ "_session_" +:+
              session_id +:+ ".csv")), w2) ∧
    columns present = ["name"; "phone_number"; "status"; "timestamp"] ∧
    columns rejected = ["name"; "phone_number"; "status"; "timestamp"] ∧
    rows present
    = rows_with_status (session_records w course_id session_id) "entry" ∧
    rows rejected
    = rows_with_status (session_records w course_id session_id) "reject" ∧
    pd.to_dict_records present
    = records_with_status (session_records w course_id session_id) "entry" ∧
    pd.to_dict_records rejected
    = records_with_status (session_records w course_id session_id) "reject".
Proof.
  intros Hal Hcols.
  destruct (load_attendance_total course_id session_id w) as (w' & Hload & _).
  pose proof (export_with_status _ "entry" Hal Hcols) as Hpresent.
  pose proof (export_with_status _ "reject" Hal Hcols) as Hrejected.
  unfold rbind in Hpresent, Hrejected.
  destruct (with_status _ "entry") as [present|] eqn:Hp; [|done].
  destruct (with_status _ "reject") as [rejected|] eqn:Hr; [|done].
  eexists _, _, _, _. split_and!.
  - unfold download_present. unfold_monad. rewrite Hload, Hp, Hpresent. done.
  - unfold download_rejected. unfold_monad. rewrite Hload, Hr, Hrejected. done.
  - done.
  - done.
  - done.
  - done.
  - unfold pd.to_dict_records, records_with_status. cbn [columns rows].
    by rewrite Hcols.
  - unfold pd.to_dict_records, records_with_status. cbn [columns rows].
    by rewrite Hcols.
Qed.

Lemma exports_by_status_witness :
  ∃ present rejected w1 w2,
    download_present "1" "1" Example.alice_rejected
    = (Ok (send_file present
             ("present_students_course_" +:+ "1" +:+ "_session_" +:+ "1"
              +:+ ".csv")), w1) ∧
    download_rejected "1" "1" Example.alice_rejected
    = (Ok (send_file rejected
             ("rejected_students_course_" +:+ "1" +:+ "_session_" +:+ "1"
              +:+ ".csv")), w2) ∧
    columns present = ["name"; "phone_number"; "status"; "timestamp"] ∧
    columns rejected = ["name"; "phone_number"; "status"; "timestamp"] ∧
    rows present
    = rows_with_status (session_records Example.alice_rejected "1" "1")
        "entry" ∧
    rows rejected
    = rows_with_status (session_records Example.alice_rejected "1" "1")
        "reject" ∧
    pd.to_dict_records present
    = records_with_status (session_records Example.alice_rejected "1" "1")
        "entry" ∧
    pd.to_dict_records rejected
    = records_with_status (session_records Example.alice_rejected "1" "1")
        "reject".
Proof.
  apply (exports_by_status "1" "1" Example.alice_rejected).
  - split.
    + apply (bool_decide_unpack (NoDup _)). vm_compute. exact I.
    + apply (bool_decide_unpack (Forall _ _)). vm_compute. exact I.
  - reflexivity.
Defined.

Lemma resolve_attendance {A} (Attendance : A) :
  resolve [("Attendance", Attendance)] "attendance" = Unbound.
Proof. reflexivity. Qed.

(** X9: [/download_exited] never sends a file.  It binds the loaded table to
    [Attendance] and reads [attendance], a name that neither the function
    nor the module binds, so for every session and every state of the
    attendance folder the answer is the error "name 'attendance' is not
    defined", and no file changes. *)
Theorem download_exited_fails course_id session_id w :
  ∃ w',
    download_exited course_id session_id w
    = (Ok (json_error "name 'attendance' is not defined"), w') ∧
    same_files w w'.
Proof.
  destruct (load_attendance_total course_id session_id w)
    as (w' & Hload & Hsame).
  unfold download_exited. unfold_monad.
  rewrite Hload, resolve_attendance.
  eexists. split; [done|]. by apply same_files_add_log_r.
Qed.

(** X11: the absent export lists the students of the absent view.  For a
    session table with the status and phone number columns,
    [/download_absent] sends, under the columns name and phone_number, the
    name and the phone number of exactly the roster rows that
    [/attendance_list] shows as absent, in the same order. *)
Theorem absent_export_matches_view course_id session_id w :
  "status" ∈ columns (session_records w course_id session_id) →
  "phone_number" ∈ columns (session_records w course_id session_id) →
  ∃ absent_rows present rejected exited output w1 w2,
    attendance_list course_id session_id w
    = (Ok (render_attendance_list present rejected exited
             (map (zip CSV_COLUMNS) absent_rows) course_id session_id), w1) ∧
    download_absent course_id session_id w
    = (Ok (send_file output
             ("absent_students_course_" +:+ course_id +:+ "_session_" +:+
              session_id +:+ ".csv")), w2) ∧
    columns output = ["name"; "phone_number"] ∧
    rows output
    = map (λ row, [pd.cell_at CSV_COLUMNS row "name";
                   pd.cell_at CSV_COLUMNS row "phone_number"]) absent_rows.
Proof.
  intros Hstatus Hphone.
  destruct (attendance_list_run _ _ _ Hstatus Hphone) as (w1 & Hlist & _).
  destruct (download_absent_run _ _ _ Hstatus Hphone) as (w2 & Hexport & _).
  rewrite roster_columns in Hlist, Hexport.
  eexists _, _, _, _, _, w1, w2. split; [exact Hlist|]. split; [exact Hexport|].
  done.
Qed.

Lemma absent_export_matches_view_witness :
  ∃ absent_rows present rejected exited output w1 w2,
    attendance_list "1" "1" Example.alice_rejected
    = (Ok (render_attendance_list present rejected exited
             (map (zip CSV_COLUMNS) absent_rows) "1" "1"), w1) ∧
    download_absent "1" "1" Example.alice_rejected
    = (Ok (send_file output
             ("absent_students_course_" +:+ "1" +:+ "_session_" +:+ "1"
              +:+ ".csv")), w2) ∧
    columns output = ["name"; "phone_number"] ∧
    rows output
    = map (λ row, [pd.cell_at CSV_COLUMNS row "name";
                   pd.cell_at CSV_COLUMNS row "phone_number"]) absent_rows.
Proof.
  apply (absent_export_matches_view "1" "1" Example.alice_rejected);
    closed_elem.
Defined.

(** ** Enrolment and the roster *)

Ltac unfold_site :=
  unfold sbind, sret, slift, stry_except, in_world, slog, save_qr in *;
  cbv zeta in *.

Lemma keeps_roster_sret {A} (a : A) : keeps_roster (sret a).
Proof. by intros st. Qed.

Lemma keeps_roster_slift {A} (r : result A) : keeps_roster (slift r).
Proof. by intros st. Qed.

Lemma keeps_roster_sbind {A B} (m : MS A) (k : A → MS B) :
  keeps_roster m → (∀ a, keeps_roster (k a)) → keeps_roster (sbind m k).
Proof.
  intros Hm Hk st. unfold sbind. specialize (Hm st).
  destruct (m st) as [[a|e] st1]; [|done]. by rewrite Hk.
Qed.

Lemma keeps_roster_stry_except {A} (body : MS A) (handler : exn → MS A) :
  keeps_roster body → (∀ e, keeps_roster (handler e)) →
  keeps_roster (stry_except body handler).
Proof.
  intros Hm Hk st. unfold stry_except. specialize (Hm st).
  destruct (body st) as [[a|e] st1]; [done|]. by rewrite Hk.
Qed.

(** A computation on the world that leaves the data folder as it is. *)
Lemma keeps_roster_in_world {A} (m : M A) :
  (∀ w, data_folder (m w).2 = data_folder w ∧ pandas (m w).2 = pandas w) →
  keeps_roster (in_world m).
Proof.
  intros Hm st. unfold in_world. destruct (Hm (world st)) as [Hdata Hpandas].
  destruct (m (world st)) as [r w]. by apply roster_data_folder.
Qed.

Lemma keeps_roster_read_only {A} (m : M A) :
  read_only m → keeps_roster (in_world m).
Proof.
  intros Hm. apply keeps_roster_in_world. intros w.
  by destruct (Hm w) as (? & _ & _ & ?).
Qed.

Lemma keeps_roster_slog lvl msg : keeps_roster (slog lvl msg).
Proof. apply keeps_roster_read_only, read_only_logger. Qed.

Lemma keeps_roster_qrcodes {A} (m : MS A) :
  (∀ st, world (m st).2 = world st) → keeps_roster m.
Proof. intros Hm st. by rewrite Hm. Qed.

(** Writing a file of the data folder whose name is not that of a roster
    file leaves the roster as it is. *)
Lemma roster_rows_other_name name f :
  is_roster_file name = false → roster_rows (name, f) = [].
Proof. intros Hname. unfold roster_rows. cbn [fst]. by rewrite Hname. Qed.

Lemma write_entry_roster name f position entries :
  is_roster_file name = false →
  write_entry name f position entries ≫= roster_rows
  = entries ≫= roster_rows.
Proof.
  intros Hname. unfold write_entry. case_bool_decide.
  - clear H. induction entries as [|[n g] entries IH]; [done|].
    cbn [map mbind list_bind fst]. change (mbind ?f ?l) with (l ≫= f) in *.
    rewrite IH. f_equal. case_decide as Heq; [|done]. cbn [fst] in Heq. subst n.
    by rewrite !roster_rows_other_name.
  - rewrite !bind_app. cbn [mbind list_bind].
    rewrite roster_rows_other_name by done. cbn [app].
    by rewrite <- bind_app, take_drop.
Qed.

Lemma keeps_roster_to_csv_data df name now position :
  is_roster_file name = false →
  keeps_roster (in_world (to_csv_data df name now position)).
Proof.
  intros Hname st. unfold in_world, to_csv_data.
  destruct (data_folder (world st)) as [entries|] eqn:Hdata; [|done].
  cbn [snd world set_world]. unfold roster.
  rewrite !load_csv_files_run, Hdata. cbn [data_folder set_data_folder fst].
  unfold roster_table. by rewrite write_entry_roster.
Qed.

Lemma students_csv_is_no_roster_file : is_roster_file "students.csv" = false.
Proof. reflexivity. Qed.

Lemma keeps_roster_generate_qr_code phone_number :
  keeps_roster (generate_qr_code phone_number).
Proof.
  unfold generate_qr_code. cbv zeta.
  apply keeps_roster_stry_except; [|intros e].
  - apply keeps_roster_sbind; [|intros _].
    { apply keeps_roster_qrcodes. intros st. unfold save_qr.
      by destruct (open_for_writing _ _). }
    apply keeps_roster_sbind; [apply keeps_roster_slog|intros _].
    apply keeps_roster_sret.
  - apply keeps_roster_sbind; [apply keeps_roster_slog|intros _].
    apply keeps_roster_sret.
Qed.

(** Takes a goal [keeps_roster m] apart along the structure of [m]. *)
Ltac keeps_roster_step :=
  match goal with
  | |- keeps_roster (sbind _ _) => apply keeps_roster_sbind; [|intros ?]
  | |- keeps_roster (stry_except _ _) =>
      apply keeps_roster_stry_except; [|intros ?]
  | |- keeps_roster (sret _) => apply keeps_roster_sret
  | |- keeps_roster (slift _) => apply keeps_roster_slift
  | |- keeps_roster (slog _ _) => apply keeps_roster_slog
  | |- keeps_roster (generate_qr_code _) => apply keeps_roster_generate_qr_code
  | |- keeps_roster (in_world (to_csv_data _ "students.csv" _ _)) =>
      apply keeps_roster_to_csv_data, students_csv_is_no_roster_file
  | |- keeps_roster (in_world load_csv_files) =>
      apply keeps_roster_read_only, read_only_load_csv_files
  | |- keeps_roster (in_world (concat_frames _)) =>
      apply keeps_roster_read_only, read_only_concat_frames
  | |- keeps_roster (in_world (data_exists _)) =>
      apply keeps_roster_in_world; intros ?; split; reflexivity
  | |- keeps_roster (in_world (read_data_csv _)) =>
      apply keeps_roster_in_world; intros ?; unfold read_data_csv;
      case_match; split; reflexivity
  | |- keeps_roster (in_world (photo_exists _)) =>
      apply keeps_roster_in_world; intros ?; split; reflexivity
  | |- keeps_roster (in_world (save_photo _ _)) =>
      apply keeps_roster_in_world; intros ?; unfold save_photo;
      case_match; split; reflexivity
  | |- keeps_roster (in_world (remove_photo _)) =>
      apply keeps_roster_in_world; intros ?; split; reflexivity
  | |- keeps_roster (λ st, (_, set_qrcodes_folder _ st)) =>
      apply keeps_roster_qrcodes; intros ?; reflexivity
  | |- keeps_roster (λ st, (_, st)) =>
      apply keeps_roster_qrcodes; intros ?; reflexivity
  | |- keeps_roster (match ?x with _ => _ end) => destruct x
  end.

Lemma keeps_roster_upload_rows cols rws : keeps_roster (upload_rows cols rws).
Proof.
  induction rws as [|row rest IH]; cbn [upload_rows]; cbv zeta.
  - apply keeps_roster_sret.
  - repeat (keeps_roster_step || apply IH).
Qed.


Lemma keeps_roster_unless_keeps r (m : MS reply) :
  keeps_roster m → keeps_roster_unless r m.
Proof. intros Hm st. left. apply Hm. Qed.

Lemma keeps_roster_unless_sbind {A} r (m : MS A) (k : A → MS reply) :
  keeps_roster m → (∀ a, keeps_roster_unless r (k a)) →
  keeps_roster_unless r (sbind m k).
Proof.
  intros Hm Hk st. unfold sbind. specialize (Hm st).
  destruct (m st) as [[a|e] st1]; [|by left].
  destruct (Hk a st1) as [Hkept|Hr]; [left|by right].
  etransitivity; [exact Hkept|exact Hm].
Qed.

Lemma keeps_roster_unless_stry_except r (body : MS reply)
    (handler : exn → MS reply) :
  keeps_roster_unless r body → (∀ e, keeps_roster (handler e)) →
  keeps_roster_unless r (stry_except body handler).
Proof.
  intros Hm Hk st. unfold stry_except. specialize (Hm st).
  destruct (body st) as [[a|e] st1]; [done|].
  destruct Hm as [Hkept|Hr]; [|done]. left.
  etransitivity; [apply Hk|exact Hkept].
Qed.

(** The last steps of a CSV upload: the roster file is written and the
    answer is the redirect, or the file cannot be written. *)
Lemma keeps_roster_unless_written r df name now position :
  keeps_roster_unless r
    (in_world (to_csv_data df name now position);;+
     slog INFO "CSV uploaded and processed";;+ sret r).
Proof.
  intros st. unfold_site. unfold to_csv_data, logger.
  destruct (data_folder (world st)); [by right|by left].
Qed.

Lemma add_student_csv_branch now position course_id session_id req :
  keeps_roster_unless (answer (redirect "index" course_id session_id))
    (add_student now position course_id session_id req).
Proof.
  unfold add_student. cbv zeta.
  apply keeps_roster_unless_stry_except;
    [|intros e; repeat keeps_roster_step].
  destruct (is_post req);
    [|apply keeps_roster_unless_keeps; repeat keeps_roster_step].
  destruct (csv_file req) as [file|];
    [|apply keeps_roster_unless_keeps; repeat keeps_roster_step].
  destruct (bool_decide (csv_filename file ≠ ""));
    [|apply keeps_roster_unless_keeps; repeat keeps_roster_step].
  destruct (Py.endswith (csv_filename file) ".csv");
    [|apply keeps_roster_unless_keeps; repeat keeps_roster_step].
  apply keeps_roster_unless_stry_except;
    [|intros e; repeat keeps_roster_step].
  apply keeps_roster_unless_sbind; [apply keeps_roster_slift|intros df].
  destruct (forallb _ CSV_COLUMNS);
    [|apply keeps_roster_unless_keeps; repeat keeps_roster_step].
  apply keeps_roster_unless_sbind; [apply keeps_roster_upload_rows|].
  intros [r|]; [apply keeps_roster_unless_keeps, keeps_roster_sret|].
  apply keeps_roster_unless_written.
Qed.

Lemma add_student_form now position course_id session_id req :
  is_csv_upload req = false →
  keeps_roster (add_student now position course_id session_id req).
Proof.
  unfold is_csv_upload, add_student. cbv zeta. intros Hreq.
  apply keeps_roster_stry_except; [|intros e; repeat keeps_roster_step].
  destruct (is_post req); [|repeat keeps_roster_step].
  destruct (csv_file req) as [file|]; [|repeat keeps_roster_step].
  cbn [andb] in Hreq. rewrite Hreq. repeat keeps_roster_step.
Qed.

(** X12: [/add_student] changes the roster only through a CSV upload that
    is answered with the redirect to the index page.  A request without a
    CSV file, the form for one student included, leaves the roster as it
    was: whatever the form holds, [load_csv_files] returns the same table
    after it as before (the form writes [students.csv], which is no roster
    file); and so does a CSV upload that is answered with anything else. *)
Theorem add_student_roster now position course_id session_id req st :
  is_csv_upload req = false ∨
  (add_student now position course_id session_id req st).1
  ≠ Ok (answer (redirect "index" course_id session_id)) →
  roster (world (add_student now position course_id session_id req st).2)
  = roster (world st).
Proof.
  intros [Hreq|Hanswer].
  - by apply add_student_form.
  - by destruct (add_student_csv_branch now position course_id session_id
                   req st).
Qed.

Lemma add_student_roster_witness :
  (add_student (Example.at_second 1) 0 "1" "1" SiteExample.carol_form
     SiteExample.office).1
  = Ok (answer (redirect "index" "1" "1")) ∧
  roster (world (add_student (Example.at_second 1) 0 "1" "1"
                   SiteExample.carol_form SiteExample.office).2)
  = roster (world SiteExample.office).
Proof.
  split; [vm_compute; reflexivity|].
  apply (add_student_roster (Example.at_second 1) 0 "1" "1"
           SiteExample.carol_form SiteExample.office).
  left. reflexivity.
Defined.






(** ** CSV uploads *)













(** The uploaded student of the example is in the roster afterwards, with
    the QR code and the photo. *)
Lemma csv_upload_enrols_example :
  let st' := (add_student (Example.at_second 1) 0 "1" "1"
                SiteExample.new_class SiteExample.office).2 in
  "5550000" ∈ identifiers (roster (world st')) ∧
  qrcodes_folder st' !! "5550000.png" = Some "5550000" ∧
  is_Some (photos_folder (world st') !! "b.jpg").
Proof. vm_compute. split_and!; [|done|by eexists]. closed_elem. Qed.

(** ** The login guard *)

Lemma login_required_locked f st :
  "logged_in" ∉ flask_session st →
  login_required f st = (Ok (redirect_to "login"), st).
Proof. intros Hout. unfold login_required. by rewrite bool_decide_eq_true_2. Qed.

Lemma login_refused form st :
  Login form ≠ admin_login →
  ∃ a w', login form st = (a, set_world w' st) ∧ same_files (world st) w'.
Proof.
  intros Hform. unfold login.
  destruct form as [[name pw]|];
    [|exists (Ok (render_template "login.html" [])), (world st);
      split; [by destruct st|apply same_files_refl]].
  cbn [username password].
  assert (match name with
          | Some name =>
              match USERS !! name with
              | Some expected => bool_decide (pw = Some expected)
              | None => false
              end
          | None => false
          end = false) as ->.
  { destruct name as [name|]; [|done]. unfold USERS.
    destruct (decide (name = "admin")) as [->|Hname].
    - rewrite lookup_singleton_eq. apply bool_decide_eq_false.
      intros ->. by apply Hform.
    - by rewrite lookup_singleton_ne. }
  unfold_site. unfold logger. eexists _, _. split; [reflexivity|].
  apply same_files_add_log.
Qed.

Lemma serve_locked r st :
  "logged_in" ∉ flask_session st → r ≠ admin_login →
  ∃ a st',
    serve r st = (a, st') ∧
    same_files (world st) (world st') ∧
    qrcodes_folder st' = qrcodes_folder st ∧
    ("logged_in" ∉ flask_session st') ∧
    (protected r = true → a = Ok (redirect_to "login")).
Proof.
  intros Hout Hr.
  destruct r; cbn [serve protected];
    try (rewrite login_required_locked by done;
         eexists _, _; split; [reflexivity|];
         split_and!; [apply same_files_refl|done..]).
  - destruct (login_refused form st Hr) as (a & w' & -> & Hsame).
    exists a, (set_world w' st). by destruct st.
  - unfold logout, session_pop. unfold_site. unfold logger.
    destruct st as [w q f]. eexists _, _. split; [reflexivity|].
    cbn [world qrcodes_folder flask_session set_world set_flask_session] in *.
    split_and!; [apply same_files_add_log|done| |done].
    intros [_ Hin]%elem_of_difference. apply Hin. by apply elem_of_singleton.
Qed.

(** X15: a client that is not logged in gets nothing but the login page
    until it logs in as [admin] with the password of [USERS]: whatever it
    requests otherwise, in any order, every route but [/login] and
    [/logout] answers with the redirect to the login page, no file of the
    data, attendance, photo or QR code folders changes, and the client is
    still not logged in. *)
Theorem login_guard requests st :
  "logged_in" ∉ flask_session st →
  admin_login ∉ requests →
  let out := serve_all requests st in
  same_files (world st) (world out.2) ∧
  qrcodes_folder out.2 = qrcodes_folder st ∧
  ("logged_in" ∉ flask_session out.2) ∧
  ∀ i r, requests !! i = Some r → protected r = true →
         out.1 !! i = Some (Ok (redirect_to "login")).
Proof.
  revert st. induction requests as [|r rest IH]; intros st Hout Hadmin out.
  - subst out. cbn. split_and!; [apply same_files_refl|done..].
  - apply not_elem_of_cons in Hadmin as [Hr Hrest].
    destruct (serve_locked r st Hout (not_eq_sym Hr))
      as (a & st1 & Hserve & Hsame & Hqr & Hout1 & Ha).
    specialize (IH st1 Hout1 Hrest). cbn zeta in IH.
    subst out. cbn [serve_all]. rewrite Hserve.
    destruct (serve_all rest st1) as [answers st2].
    cbn [fst snd] in *. destruct IH as (Hsame2 & Hqr2 & Hout2 & Hanswers).
    split_and!; [by eapply same_files_trans|congruence|done|].
    intros [|i] r' Hlookup Hprot; cbn in *.
    + injection Hlookup as <-. by rewrite Ha.
    + by eapply Hanswers.
Qed.

Lemma login_guard_witness :
  let requests :=
    [DeleteStudent (Example.at_second 1) 0 "5551234" "1" "1";
     Login (Some {| username := Some "admin"; password := Some "admin" |});
     ResetAttendance "1" "1"; Logout;
     AddStudent (Example.at_second 2) 0 "1" "1" SiteExample.new_class] in
  let out := serve_all requests SiteExample.office in
  same_files (world SiteExample.office) (world out.2) ∧
  qrcodes_folder out.2 = qrcodes_folder SiteExample.office ∧
  ("logged_in" ∉ flask_session out.2) ∧
  ∀ i r, requests !! i = Some r → protected r = true →
         out.1 !! i = Some (Ok (redirect_to "login")).
Proof.
  apply (login_guard
           [DeleteStudent (Example.at_second 1) 0 "5551234" "1" "1";
            Login (Some {| username := Some "admin"; password := Some "admin" |});
            ResetAttendance "1" "1"; Logout;
            AddStudent (Example.at_second 2) 0 "1" "1" SiteExample.new_class]
           SiteExample.office).
  - apply (bool_decide_unpack (_ ∉ _)). vm_compute. exact I.
  - intros Hin. repeat (apply elem_of_cons in Hin as [Heq|Hin]; [discriminate Heq|]).
    by apply elem_of_nil in Hin.
Defined.

Lemma setup_session_accepts form st course_id session_id :
  (serve (SetupSession form) st).1
  = Ok (answer (redirect "index" course_id session_id)) →
  form = Some (Some course_id, Some session_id) ∧
  isalnum course_id = true ∧ isalnum session_id = true.
Proof.
  cbn [serve]. unfold login_required, setup_session.
  case_bool_decide as Hout; [done|].
  destruct form as [[[c|] [s|]]|]; unfold_site; unfold logger; try done.
  destruct (bool_decide (c ≠ "") && bool_decide (s ≠ "") && isalnum c
            && isalnum s) eqn:Hvalid; [|done].
  cbn [fst format_field default]. intros [= <- <-].
  apply andb_prop in Hvalid as [Hvalid Hs].
  by apply andb_prop in Hvalid as [_ Hc].
Qed.

(** X16: the sessions [/setup_session] lets through never share a record
    file.  The route answers with the redirect to the scanning page for a
    course and a session only when both ids were posted and are
    alphanumeric, and two sessions it has let through whose records are
    kept under the same file name are the same course and session. *)
Theorem setup_session_files form form' st st' course_id session_id
    course_id' session_id' :
  (serve (SetupSession form) st).1
  = Ok (answer (redirect "index" course_id session_id)) →
  (serve (SetupSession form') st').1
  = Ok (answer (redirect "index" course_id' session_id')) →
  attendance_file course_id session_id
  = attendance_file course_id' session_id' →
  (form = Some (Some course_id, Some session_id) ∧
   isalnum course_id = true ∧ isalnum session_id = true) ∧
  course_id = course_id' ∧ session_id = session_id'.
Proof.
  intros (-> & Hc & Hs)%setup_session_accepts
         (-> & Hc' & Hs')%setup_session_accepts Hfile.
  split; [done|].
  apply attendance_file_inj in Hfile; [done|by apply isalnum_no_underscore..].
Qed.

Lemma setup_session_files_witness :
  (Some (Some "7", Some "12") = Some (Some "7", Some "12") ∧
   isalnum "7" = true ∧ isalnum "12" = true) ∧
  "7" = "7" ∧ "12" = "12".
Proof.
  apply (setup_session_files (Some (Some "7", Some "12"))
           (Some (Some "7", Some "12"))
           (serve admin_login SiteExample.office).2
           (serve admin_login SiteExample.office).2 "7" "12" "7" "12");
    vm_compute; reflexivity.
Defined.
